(** * GlovoAdmin: the table pipeline and the entity form controllers

    A shallow embedding of the admin panel's JavaScript
    (script.js, orders.js, products.js, clients.js, users.js, deliveries.js,
    login.js and the indicators of dashboard.js)
    and the properties of its query pipeline (filter, sort, paginate),
    its id allocator and its create / update / delete paths, and of the
    page controls around them (pager, sortable headers, CSV export,
    session, sample data).

    Conventions of the embedding.
    - A record is a JavaScript object with flat (primitive) field values:
      a finite map from field names to [jsval].  A missing field reads as
      [VUndef], as property access does; the properties inherited from
      [Object.prototype] are left out.
    - A Number is [NaN], an infinity or a finite value carried by its exact
      rational value; rounding to binary64 is outside the embedding.  The
      properties that depend on the sum, the successor, the text or the
      zero test of a Number are stated for the Numbers on which no
      rounding takes place (module [Domain]).
    - A string is a sequence of bytes (UTF-8); [toLowerCase] maps the
      ASCII capitals and fixes every other byte, and the white space
      that the parsers skip is the ASCII one.  The properties that fold
      case, order, trim or parse text are stated for the text on which
      this is what the engine does (module [Domain]).
    - A call that raises a TypeError in the engine returns [Throw TypeError].
    - [Array.prototype.sort] is the engine's; since ECMAScript 2019 it is
      required to be stable.  It is embedded as a stable insertion sort.
      On a comparator that is consistent over the array the result is the
      one stable ordered arrangement, whatever the algorithm; on any
      other comparator the order is implementation-defined, and the
      properties of the order are stated for consistent comparators.
    - [localStorage] holds, under each collection key, the JSON text of an
      array of flat records; the text is represented by the values that
      [JSON.parse] reads from it.
    - The form controls that a handler reads without a guard are in the
      page, and script.js is loaded next to each page script.  So are the
      elements that a function looks for before it draws into them; what
      is drawn is represented by its content, not by its markup. *)

From Stdlib Require Import ZArith QArith Ascii String List Lia Lqa Bool Sorted.
From stdpp Require Import base option list gmap strings fin_maps.

Local Open Scope string_scope.
Local Open Scope Z_scope.

(** ** The JavaScript fragment the panel uses *)

Module JS.

Inductive number : Type :=
| NaN
| NegInf
| Fin (q : Q)
| PosInf.

Inductive jsval : Type :=
| VUndef
| VNull
| VBool (b : bool)
| VNum (n : number)
| VStr (s : string).

#[global] Instance Q_eq_dec : EqDecision Q.
Proof. solve_decision. Defined.
#[global] Instance number_eq_dec : EqDecision number.
Proof. solve_decision. Defined.
#[global] Instance jsval_eq_dec : EqDecision jsval.
Proof. solve_decision. Defined.

(** An object with primitive fields. *)
Abbreviation record := (gmap string jsval).

Inductive exn : Type :=
| TypeError
| Unrepresented.

Inductive result (A : Type) : Type :=
| Ok (a : A)
| Throw (e : exn).
Arguments Ok {A} a.
Arguments Throw {A} e.

Definition bind {A B} (m : result A) (k : A -> result B) : result B :=
  match m with
  | Ok a => k a
  | Throw e => Throw e
  end.

Notation "'let*' x ':=' m 'in' k" := (bind m (fun x => k))
  (at level 10, x name, m at level 100, k at level 200).

(** Short-circuit disjunction of two fallible tests: the right operand is
    evaluated only when the left one returned [false]. *)
Definition orelse (m : result bool) (k : result bool) : result bool :=
  let* b := m in if b then Ok true else k.

(** [Array.prototype.filter] with a callback that may throw: the callback
    runs on the elements in order and the first exception propagates. *)
Fixpoint Array_filter {A} (p : A -> result bool) (l : list A) : result (list A) :=
  match l with
  | [] => Ok []
  | x :: l' =>
      let* b := p x in
      let* r := Array_filter p l' in
      Ok (if b then x :: r else r)
  end.

(** *** Numbers *)

Definition Qltb (a b : Q) : bool := (Qnum a * QDen b <? Qnum b * QDen a)%Z.

Definition num_ltb (a b : number) : bool :=
  match a, b with
  | NaN, _ | _, NaN => false
  | NegInf, NegInf => false
  | NegInf, _ => true
  | Fin _, NegInf => false
  | Fin x, Fin y => Qltb x y
  | Fin _, PosInf => true
  | PosInf, _ => false
  end.

Definition num_eqb (a b : number) : bool :=
  match a, b with
  | NegInf, NegInf | PosInf, PosInf => true
  | Fin x, Fin y => Qeq_bool x y
  | _, _ => false
  end.

(** The sum of the exact values; it is the sum the engine computes
    when it is a binary64 value. *)
Definition num_add (a b : number) : number :=
  match a, b with
  | NaN, _ | _, NaN => NaN
  | NegInf, PosInf | PosInf, NegInf => NaN
  | NegInf, _ | _, NegInf => NegInf
  | PosInf, _ | _, PosInf => PosInf
  | Fin x, Fin y => Fin (x + y)
  end.

Definition num_isNaN (a : number) : bool :=
  match a with NaN => true | _ => false end.

Definition of_Z (z : Z) : number := Fin (inject_Z z).

(** [Math.max] of two numbers, [NaN] being contagious. *)
Definition num_max (a b : number) : number :=
  match a, b with
  | NaN, _ | _, NaN => NaN
  | _, _ => if num_ltb a b then b else a
  end.

(** *** Strings *)

Definition code (c : ascii) : Z := Z.of_N (N_of_ascii c).

Definition is_upper (c : ascii) : bool := (65 <=? code c) && (code c <=? 90).
Definition is_digit (c : ascii) : bool := (48 <=? code c) && (code c <=? 57).

(** WhiteSpace and LineTerminator code units of the ASCII range; the
    engine also skips the white space beyond ASCII (U+00A0, U+FEFF,
    U+2028 and the like), which plain text does not hold. *)
Definition is_space (c : ascii) : bool :=
  ((9 <=? code c) && (code c <=? 13)) || (code c =? 32).

Definition lower_char (c : ascii) : ascii :=
  if is_upper c then ascii_of_N (N_of_ascii c + 32) else c.

(** [s.toLowerCase()] on the letters A to Z; the engine also maps the
    capitals beyond ASCII, which plain text does not hold. *)
Fixpoint toLowerCase (s : string) : string :=
  match s with
  | EmptyString => EmptyString
  | String c s' => String (lower_char c) (toLowerCase s')
  end.

Fixpoint startsWith (s t : string) : bool :=
  match t, s with
  | EmptyString, _ => true
  | String _ _, EmptyString => false
  | String b t', String a s' => if Ascii.eqb a b then startsWith s' t' else false
  end.

(** [s.includes(t)] *)
Fixpoint includes (s t : string) : bool :=
  startsWith s t ||
  match s with
  | EmptyString => false
  | String _ s' => includes s' t
  end.

(** Lexicographic order of the bytes: the [<] of two strings, which
    compares code units, on text with no character beyond U+FFFF. *)
Fixpoint str_ltb (s t : string) : bool :=
  match s, t with
  | _, EmptyString => false
  | EmptyString, String _ _ => true
  | String a s', String b t' =>
      if code a <? code b then true
      else if code b <? code a then false
      else str_ltb s' t'
  end.

Fixpoint trimStart (s : string) : string :=
  match s with
  | String c s' => if is_space c then trimStart s' else s
  | EmptyString => EmptyString
  end.

Fixpoint rev_onto (s acc : string) : string :=
  match s with
  | EmptyString => acc
  | String c s' => rev_onto s' (String c acc)
  end.

Definition str_rev (s : string) : string := rev_onto s EmptyString.

Definition trimEnd (s : string) : string := str_rev (trimStart (str_rev s)).
Definition trim (s : string) : string := trimEnd (trimStart s).

(** *** Numeric literals *)

Definition digit_val (c : ascii) : Z := code c - 48.

(** The value of a digit of radix 16 and below, if [c] is one. *)
Definition hex_val (c : ascii) : option Z :=
  let n := code c in
  if (48 <=? n) && (n <=? 57) then Some (n - 48)
  else if (97 <=? n) && (n <=? 102) then Some (n - 87)
  else if (65 <=? n) && (n <=? 70) then Some (n - 55)
  else None.

(** The longest prefix of decimal digits: its value read after [acc],
    how many digits it has, and what follows it. *)
Fixpoint digits (s : string) (acc : Z) (n : nat) : Z * nat * string :=
  match s with
  | String c s' =>
      if is_digit c then digits s' (10 * acc + digit_val c) (S n)
      else (acc, n, s)
  | EmptyString => (acc, n, s)
  end.

(** The longest prefix of digits of radix [r]. *)
Fixpoint radix_digits (r : Z) (s : string) (acc : Z) (n : nat) : Z * nat * string :=
  match s with
  | String c s' =>
      match hex_val c with
      | Some d => if d <? r then radix_digits r s' (r * acc + d) (S n)
                  else (acc, n, s)
      | None => (acc, n, s)
      end
  | EmptyString => (acc, n, s)
  end.

(** An optional sign: [true] for a minus. *)
Definition sign (s : string) : bool * string :=
  match s with
  | String "-"%char s' => (true, s')
  | String "+"%char s' => (false, s')
  | _ => (false, s)
  end.

(** ExponentPart, if a complete one starts [s]. *)
Definition exponent (s : string) : Z * string :=
  match s with
  | String c s' =>
      if (code c =? 101) || (code c =? 69) then
        let '(neg, s2) := sign s' in
        let '(e, n, rest) := digits s2 0 0%nat in
        match n with
        | O => (0, s)
        | S _ => (if neg then - e else e, rest)
        end
      else (0, s)
  | EmptyString => (0, s)
  end.

(** [m * 10 ^ e] as a rational. *)
Definition scale10 (m e : Z) : Q :=
  if 0 <=? e then inject_Z (m * 10 ^ e)
  else Qmake m (Z.to_pos (10 ^ (- e))).

(** The longest prefix of [s] that is a StrUnsignedDecimalLiteral. *)
Definition unsigned_decimal (s : string) : option (number * string) :=
  if startsWith s "Infinity" then
    Some (PosInf, String.substring 8 (String.length s - 8) s)
  else
    let '(i, ni, s1) := digits s 0 0%nat in
    let '(m, nf, s2) :=
      match s1 with
      | String "."%char s1' =>
          let '(m, nf, s2) := digits s1' i 0%nat in
          match ni, nf with
          | O, O => (i, O, s1)
          | _, _ => (m, nf, s2)
          end
      | _ => (i, O, s1)
      end in
    match ni, nf with
    | O, O => None
    | _, _ =>
        let '(e, rest) := exponent s2 in
        Some (Fin (scale10 m (e - Z.of_nat nf)), rest)
    end.

Definition num_neg (n : number) : number :=
  match n with
  | NaN => NaN
  | NegInf => PosInf
  | PosInf => NegInf
  | Fin q => Fin (- q)
  end.

(** The longest prefix of [s] that is a StrDecimalLiteral. *)
Definition decimal_literal (s : string) : option (number * string) :=
  let '(neg, s1) := sign s in
  match unsigned_decimal s1 with
  | Some (v, rest) => Some (if neg then num_neg v else v, rest)
  | None => None
  end.

(** NonDecimalIntegerLiteral: [0x], [0o], [0b] and at least one digit. *)
Definition non_decimal_literal (s : string) : option (number * string) :=
  match s with
  | String "0"%char (String c s') =>
      let r := if (code c =? 120) || (code c =? 88) then 16
               else if (code c =? 111) || (code c =? 79) then 8
               else if (code c =? 98) || (code c =? 66) then 2
               else 0 in
      if r =? 0 then None
      else
        let '(v, n, rest) := radix_digits r s' 0 0%nat in
        match n with
        | O => None
        | S _ => Some (of_Z v, rest)
        end
  | _ => None
  end.

(** StringToNumber: the whole trimmed string is a numeric literal. *)
Definition StringToNumber (s : string) : number :=
  let t := trim s in
  match t with
  | EmptyString => of_Z 0
  | _ =>
      match non_decimal_literal t with
      | Some (v, EmptyString) => v
      | _ =>
          match decimal_literal t with
          | Some (v, EmptyString) => v
          | _ => NaN
          end
      end
  end.

(** [parseFloat] of a string: its longest decimal-literal prefix, by
    its exact value.  The engine rounds it to binary64, to 0 below
    [2^-1075] and to an infinity from about [2^1024]. *)
Definition parseFloat_string (s : string) : number :=
  match decimal_literal (trimStart s) with
  | Some (v, _) => v
  | None => NaN
  end.

(** [parseInt(s, radix)] with [radix] 10, or 0 when it is not given, by
    its exact value.  The engine rounds it to binary64: it is the same
    integer up to [2^53]. *)
Definition parseInt_string (s : string) (radix : Z) : number :=
  let '(neg, s1) := sign (trimStart s) in
  let '(r, s2) :=
    match s1 with
    | String "0"%char (String c s') =>
        if ((code c =? 120) || (code c =? 88)) && ((radix =? 0) || (radix =? 16))
        then (16, s')
        else (if radix =? 0 then 10 else radix, s1)
    | _ => (if radix =? 0 then 10 else radix, s1)
    end in
  let '(v, n, _) := radix_digits r s2 0 0%nat in
  match n with
  | O => NaN
  | S _ => of_Z (if neg then - v else v)
  end.

(** *** Conversions and operators on primitive values *)

Definition ToNumber (v : jsval) : number :=
  match v with
  | VUndef => NaN
  | VNull => of_Z 0
  | VBool b => of_Z (if b then 1 else 0)
  | VNum n => n
  | VStr s => StringToNumber s
  end.

(** The global [isNaN]. *)
Definition isNaN (v : jsval) : bool := num_isNaN (ToNumber v).

(** The global [parseFloat].  Its argument goes through ToString first;
    the text of a Number reads back as that Number, and the texts
    [undefined], [null], [true] and [false] start no literal. *)
Definition parseFloat (v : jsval) : number :=
  match v with
  | VStr s => parseFloat_string s
  | VNum n => n
  | VUndef | VNull | VBool _ => NaN
  end.

(** [parseInt(s, radix)] of a string. *)
Definition parseInt (s : string) (radix : Z) : number := parseInt_string s radix.

Definition ToBoolean (v : jsval) : bool :=
  match v with
  | VUndef | VNull => false
  | VBool b => b
  | VNum NaN => false
  | VNum (Fin q) => negb (Qeq_bool q 0)
  | VNum _ => true
  | VStr EmptyString => false
  | VStr _ => true
  end.

(** [a || b] *)
Definition or_else (a b : jsval) : jsval := if ToBoolean a then a else b.

(** [typeof v === 'string'] *)
Definition is_string (v : jsval) : bool :=
  match v with VStr _ => true | _ => false end.

(** [a === b] *)
Definition strict_eq (a b : jsval) : bool :=
  match a, b with
  | VUndef, VUndef | VNull, VNull => true
  | VBool x, VBool y => Bool.eqb x y
  | VNum x, VNum y => num_eqb x y
  | VStr x, VStr y => String.eqb x y
  | _, _ => false
  end.

(** [a == b] *)
Definition loose_eq (a b : jsval) : bool :=
  match a, b with
  | (VUndef | VNull), (VUndef | VNull) => true
  | (VUndef | VNull), _ | _, (VUndef | VNull) => false
  | VStr x, VStr y => String.eqb x y
  | _, _ => num_eqb (ToNumber a) (ToNumber b)
  end.

(** [a < b] *)
Definition lt (a b : jsval) : bool :=
  match a, b with
  | VStr x, VStr y => str_ltb x y
  | _, _ => num_ltb (ToNumber a) (ToNumber b)
  end.

(** [v.toLowerCase()]: only a string has the method. *)
Definition call_toLowerCase (v : jsval) : result string :=
  match v with
  | VStr s => Ok (toLowerCase s)
  | _ => Throw TypeError
  end.

(** The decimal digits of [n >= 0], most significant first. *)
Fixpoint decimal_digits (fuel : nat) (n : Z) (acc : string) : string :=
  let acc' := String (ascii_of_N (Z.to_N (48 + n mod 10))) acc in
  match fuel with
  | O => acc'
  | S f => if n <? 10 then acc' else decimal_digits f (n / 10) acc'
  end.

Definition Z_toString (z : Z) : string :=
  let a := Z.abs z in
  let d := decimal_digits (Z.to_nat (Z.log2 a)) a EmptyString in
  if z <? 0 then String "-"%char d else d.

(** [Number.prototype.toString]: the decimal digits of an integer below
    [2^53] in magnitude, which binary64 holds exactly and the engine
    prints in full.  The text of any other finite Number is the shortest
    decimal that reads back as the same binary64 value, and is left
    out. *)
Definition Number_toString (n : number) : result string :=
  match n with
  | NaN => Ok "NaN"
  | PosInf => Ok "Infinity"
  | NegInf => Ok "-Infinity"
  | Fin q =>
      match Qden q with
      | xH => if Z.abs (Qnum q) <? 2 ^ 53 then Ok (Z_toString (Qnum q))
              else Throw Unrepresented
      | _ => Throw Unrepresented
      end
  end.

(** [v.toString()] *)
Definition call_toString (v : jsval) : result string :=
  match v with
  | VUndef | VNull => Throw TypeError
  | VBool b => Ok (if b then "true" else "false")
  | VNum n => Number_toString n
  | VStr s => Ok s
  end.

(** Property access [o.k]: a missing property reads as [undefined]. *)
Definition field (o : record) (k : string) : jsval :=
  match o !! k with
  | Some v => v
  | None => VUndef
  end.

(** Object spread [{...o, ...p}]: the properties of [p] win. *)
Definition spread (o p : record) : record := p ∪ o.

(** *** Arrays *)

(** [Array.prototype.slice(start, end)] with integer arguments: a negative
    index counts from the end, and both are clamped to the length. *)
Definition clamp_index (len i : Z) : Z :=
  if i <? 0 then Z.max (len + i) 0 else Z.min i len.

Definition slice {A} (l : list A) (start end_ : Z) : list A :=
  let len := Z.of_nat (length l) in
  let k := clamp_index len start in
  let final := clamp_index len end_ in
  take (Z.to_nat (Z.max (final - k) 0)) (drop (Z.to_nat k) l).

(** [Array.prototype.findIndex]; [None] stands for [-1]. *)
Fixpoint findIndex {A} (p : A -> bool) (l : list A) : option nat :=
  match l with
  | [] => None
  | x :: l' => if p x then Some O else S <$> findIndex p l'
  end.

(** [Array.prototype.find] *)
Fixpoint find {A} (p : A -> bool) (l : list A) : option A :=
  match l with
  | [] => None
  | x :: l' => if p x then Some x else find p l'
  end.

(** [a[i] = x] for the index returned by [findIndex]: with [-1] the
    assignment creates the property ["-1"], which is no element of the
    array and is not serialised. *)
Definition assign_at {A} (l : list A) (i : option nat) (x : A) : list A :=
  match i with
  | Some n => <[n := x]> l
  | None => l
  end.

(** Stable insertion of [x] in front of the elements it does not have to
    follow. *)
Fixpoint insert_by {A} (cmp : A -> A -> result Z) (x : A) (l : list A)
  : result (list A) :=
  match l with
  | [] => Ok [x]
  | y :: l' =>
      let* c := cmp x y in
      if c <=? 0 then Ok (x :: y :: l')
      else let* r := insert_by cmp x l' in Ok (y :: r)
  end.

(** [Array.prototype.sort(cmp)]: a stable sort; an exception of the
    comparator propagates.  The algorithm is the engine's choice; on a
    comparator that is consistent over the array every stable sort
    returns this result. *)
Fixpoint Array_sort {A} (cmp : A -> A -> result Z) (l : list A)
  : result (list A) :=
  match l with
  | [] => Ok []
  | x :: l' => let* s := Array_sort cmp l' in insert_by cmp x s
  end.

(** [Math.max(...xs)] *)
Definition Math_max (xs : list jsval) : number :=
  fold_right (fun v acc => num_max (ToNumber v) acc) NegInf xs.

(** *** JSON *)

(** What [JSON.stringify] writes for a flat record and [JSON.parse] reads
    back. *)
Inductive json : Type :=
| JNull
| JBool (b : bool)
| JNum (q : Q)
| JStr (s : string).

Definition of_json (j : json) : jsval :=
  match j with
  | JNull => VNull
  | JBool b => VBool b
  | JNum q => VNum (Fin q)
  | JStr s => VStr s
  end.

(** A property whose value is [undefined] is not written; a Number that
    is not finite is written as [null]. *)
Definition to_json (v : jsval) : option json :=
  match v with
  | VUndef => None
  | VNull => Some JNull
  | VBool b => Some (JBool b)
  | VNum (Fin q) => Some (JNum q)
  | VNum _ => Some JNull
  | VStr s => Some (JStr s)
  end.

Abbreviation stored := (gmap string json).

Definition JSON_parse (t : list stored) : list record :=
  map (fmap of_json) t.

Definition JSON_stringify (d : list record) : list stored :=
  map (omap to_json) d.

End JS.

(** ** script.js: storage, id allocation, sorting, pagination *)

Module Script.
Import JS.

(** [localStorage]: under each collection key, the JSON text of an array
    of flat records. *)
Abbreviation storage := (gmap string (list stored)).

(** [getData(key)]: [None] stands for [null]. *)
Definition getData (key : string) (ls : storage) : option (list record) :=
  JSON_parse <$> (ls !! key).

(** [getData(key) || []] *)
Definition getData_or_empty (key : string) (ls : storage) : list record :=
  default [] (getData key ls).

Definition setData (key : string) (data : list record) (ls : storage) : storage :=
  <[key := JSON_stringify data]> ls.

(** [data.length > 0 ? Math.max(...data.map(item => item.id)) + 1 : 1],
    the sum by its exact value: the engine's up to [2^53]. *)
Definition generateId_of (data : list record) : number :=
  if (0 <? Z.of_nat (length data))
  then num_add (Math_max (map (fun item => field item "id") data)) (of_Z 1)
  else of_Z 1.

Definition generateId (dataKey : string) (ls : storage) : number :=
  generateId_of (getData_or_empty dataKey ls).

(** The comparator that [sortData] passes to [sort]. *)
Definition comparator (column direction : string) (a b : record) : result Z :=
  let valA := field a column in
  let valB := field b column in
  let '(valA, valB) :=
    if negb (isNaN valA) && negb (isNaN valB)
    then (VNum (parseFloat valA), VNum (parseFloat valB))
    else (valA, valB) in
  let* valA := if is_string valA
               then let* s := call_toLowerCase valA in Ok (VStr s)
               else Ok valA in
  let* valB := if is_string valB
               then let* s := call_toLowerCase valB in Ok (VStr s)
               else Ok valB in
  if lt valA valB then Ok (if String.eqb direction "asc" then -1 else 1)
  else if lt valB valA then Ok (if String.eqb direction "asc" then 1 else -1)
  else Ok 0.

Definition sortData (data : list record) (column direction : string)
  : result (list record) :=
  Array_sort (comparator column direction) data.

(** [Math.ceil(totalItems / itemsPerPage)] of [createPagination]. *)
Definition totalPages (totalItems itemsPerPage : Z) : Z :=
  - ((- totalItems) / itemsPerPage).

(** The page cut of every [renderTable]:
    [data.slice(startIndex, startIndex + itemsPerPage)]. *)
Definition paginatedData (data : list record) (currentPage itemsPerPage : Z)
  : list record :=
  let startIndex := (currentPage - 1) * itemsPerPage in
  slice data startIndex (startIndex + itemsPerPage).

(** The sort state of a page; [None] stands for a [null] column. *)
Record sort_state : Type := {
  column : option string;
  direction : string
}.

(** The tail of every [renderTable]: sort when a column is set, then cut
    the page; the second component is [totalItems]. *)
Definition sort_and_paginate (data : list record) (currentSort : sort_state)
    (currentPage itemsPerPage : Z) : result (list record * Z) :=
  let* data :=
    match column currentSort with
    | Some c => if ToBoolean (VStr c) then sortData data c (direction currentSort)
                else Ok data
    | None => Ok data
    end in
  Ok (paginatedData data currentPage itemsPerPage, Z.of_nat (length data)).

End Script.

(** ** orders.js *)

Module Orders.
Import JS Script.

(** The values of the filter controls; [None] when the element is not in
    the page. *)
Record filters : Type := {
  searchInput : option string;
  filterStatus : option string;
  filterPayment : option string
}.

Definition applyFilters (dom : filters) (data : list record)
  : result (list record) :=
  let searchTerm := default "" (toLowerCase <$> searchInput dom) in
  let statusFilter := default "" (filterStatus dom) in
  let paymentFilter := default "" (filterPayment dom) in
  Array_filter (fun item =>
    let* matchesSearch :=
      orelse (Ok (negb (ToBoolean (VStr searchTerm))))
        (orelse (let* s := call_toLowerCase (field item "clientName") in
                 Ok (includes s searchTerm))
           (orelse (let* s := call_toLowerCase (field item "products") in
                    Ok (includes s searchTerm))
              (let* s := call_toString (field item "id") in
               Ok (includes s searchTerm)))) in
    let matchesStatus :=
      negb (ToBoolean (VStr statusFilter))
      || strict_eq (field item "status") (VStr statusFilter) in
    let matchesPayment :=
      negb (ToBoolean (VStr paymentFilter))
      || strict_eq (field item "paymentStatus") (VStr paymentFilter) in
    Ok (matchesSearch && matchesStatus && matchesPayment)) data.

Definition renderTable (ls : storage) (dom : filters) (currentSort : sort_state)
    (currentPage itemsPerPage : Z) : result (list record * Z) :=
  let data := getData_or_empty "orders" ls in
  let* data := applyFilters dom data in
  sort_and_paginate data currentSort currentPage itemsPerPage.

(** The values of the order form; the notes field is optional in the
    page. *)
Record form : Type := {
  client : string;
  product : string;
  quantity : string;
  amount : string;
  status : string;
  payment : string;
  address : string;
  notes : option string
}.

Definition formData (f : form) (ls : storage) : record :=
  let clientId := VNum (parseInt (client f) 10) in
  let clients := getData_or_empty "clients" ls in
  let client := find (fun c => strict_eq (field c "id") clientId) clients in
  {[ "clientId" := clientId;
     "clientName" := match client with
                     | Some c => field c "name"
                     | None => VStr "Client inconnu"
                     end;
     "products" := VStr (product f);
     "quantity" := VNum (parseInt (quantity f) 10);
     "amount" := VNum (parseFloat (VStr (amount f)));
     "status" := VStr (status f);
     "paymentStatus" := VStr (payment f);
     "address" := VStr (address f);
     "notes" := or_else (match notes f with Some n => VStr n | None => VUndef end)
                        (VStr "") ]}.

(** [handleFormSubmit], with [editingId] the page variable and [today] the
    date the clock gives.  A failed validation leaves the storage as it
    is. *)
Definition handleFormSubmit (f : form) (editingId : jsval) (today : string)
    (ls : storage) : storage :=
  let formData := formData f ls in
  if negb (ToBoolean (field formData "clientId"))
     || negb (ToBoolean (field formData "products"))
     || negb (ToBoolean (field formData "amount"))
  then ls
  else
    let data := getData_or_empty "orders" ls in
    let data :=
      if ToBoolean editingId then
        match findIndex (fun item => strict_eq (field item "id") editingId) data with
        | Some index =>
            match data !! index with
            | Some old => <[index := spread old formData]> data
            | None => data
            end
        | None => data
        end
      else
        let formData := <["id" := VNum (generateId "orders" ls)]> formData in
        let formData := <["createdAt" := VStr today]> formData in
        (data ++ [formData])%list in
    setData "orders" data ls.

(** [deleteItem(id)] sets the page variable [deleteId]. *)
Definition deleteItem (id : jsval) : jsval := id.

(** [confirmDelete]: the new [deleteId] and the new storage. *)
Definition confirmDelete (deleteId : jsval) (ls : storage) : jsval * storage :=
  if negb (ToBoolean deleteId) then (deleteId, ls)
  else
    let data := getData_or_empty "orders" ls in
    let data := List.filter (fun item => negb (strict_eq (field item "id") deleteId)) data in
    (VNull, setData "orders" data ls).

End Orders.

(** ** products.js *)

Module Products.
Import JS Script.

Record filters : Type := {
  searchInput : option string;
  filterCategory : option string;
  filterAvailability : option string
}.

Definition applyFilters (dom : filters) (data : list record)
  : result (list record) :=
  let searchTerm := default "" (toLowerCase <$> searchInput dom) in
  let categoryFilter := default "" (filterCategory dom) in
  let availabilityFilter := default "" (filterAvailability dom) in
  Array_filter (fun item =>
    let* matchesSearch :=
      orelse (Ok (negb (ToBoolean (VStr searchTerm))))
        (orelse (let* s := call_toLowerCase (field item "name") in
                 Ok (includes s searchTerm))
                (let* s := call_toLowerCase (field item "supplier") in
                 Ok (includes s searchTerm))) in
    let matchesCategory :=
      negb (ToBoolean (VStr categoryFilter))
      || strict_eq (field item "category") (VStr categoryFilter) in
    let matchesAvailability :=
      String.eqb availabilityFilter ""
      || strict_eq (field item "available")
                   (VBool (String.eqb availabilityFilter "true")) in
    Ok (matchesSearch && matchesCategory && matchesAvailability)) data.

Definition renderTable (ls : storage) (dom : filters) (currentSort : sort_state)
    (currentPage itemsPerPage : Z) : result (list record * Z) :=
  let data := getData_or_empty "products" ls in
  let* data := applyFilters dom data in
  sort_and_paginate data currentSort currentPage itemsPerPage.

Record form : Type := {
  name : string;
  category : string;
  price : string;
  stock : string;
  supplier : string;
  availability : string
}.

Definition formData (f : form) : record :=
  {[ "name" := VStr (trim (name f));
     "category" := VStr (category f);
     "price" := VNum (parseFloat (VStr (price f)));
     "stock" := VNum (parseInt (stock f) 10);
     "supplier" := VStr (trim (supplier f));
     "available" := VBool (String.eqb (availability f) "Disponible") ]}.

Definition handleFormSubmit (f : form) (editingId : jsval) (ls : storage)
  : storage :=
  let formData := formData f in
  if negb (ToBoolean (field formData "name"))
     || negb (ToBoolean (field formData "category"))
     || isNaN (field formData "price")
  then ls
  else
    let data := getData_or_empty "products" ls in
    let data :=
      if ToBoolean editingId then
        match findIndex (fun item => strict_eq (field item "id") editingId) data with
        | Some index =>
            match data !! index with
            | Some old => <[index := spread old formData]> data
            | None => data
            end
        | None => data
        end
      else
        let formData := <["id" := VNum (generateId "products" ls)]> formData in
        (data ++ [formData])%list in
    setData "products" data ls.

Definition confirmDelete (deleteId : jsval) (ls : storage) : jsval * storage :=
  if negb (ToBoolean deleteId) then (deleteId, ls)
  else
    let data := getData_or_empty "products" ls in
    let data := List.filter (fun item => negb (strict_eq (field item "id") deleteId)) data in
    (VNull, setData "products" data ls).

End Products.

(** ** clients.js *)

Module Clients.
Import JS Script.

(** The filter of [renderClientsTable]; the three controls are read
    without a guard. *)
Definition renderClientsTable_filtered (searchInput filterCity filterType : string)
    (clients : list record) : result (list record) :=
  let search := toLowerCase searchInput in
  let cityFilter := filterCity in
  let typeFilter := filterType in
  Array_filter (fun client =>
    let* matchSearch :=
      orelse (let* s := call_toLowerCase (or_else (field client "name") (VStr "")) in
              Ok (includes s search))
             (let* s := call_toLowerCase (or_else (field client "email") (VStr "")) in
              Ok (includes s search)) in
    let matchCity :=
      negb (ToBoolean (VStr cityFilter))
      || strict_eq (field client "city") (VStr cityFilter) in
    let matchType :=
      negb (ToBoolean (VStr typeFilter))
      || strict_eq (field client "type") (VStr typeFilter) in
    Ok (matchSearch && matchCity && matchType)) clients.

Record form : Type := {
  entityId : string;
  name : string;
  email : string;
  phone : string;
  type : string;
  city : string;
  orders : string;
  address : string
}.

Definition clientData (f : form) (ls : storage) : record :=
  let id := entityId f in
  {[ "id" := VNum (if ToBoolean (VStr id) then parseInt id 0
                   else generateId "clients" ls);
     "name" := VStr (name f);
     "email" := VStr (email f);
     "phone" := VStr (phone f);
     "type" := VStr (type f);
     "city" := VStr (city f);
     "orders" := or_else (VNum (parseInt (orders f) 0)) (VNum (of_Z 0));
     "address" := VStr (address f) ]}.

Definition handleFormSubmit (f : form) (ls : storage) : storage :=
  let clients := getData_or_empty "clients" ls in
  let id := entityId f in
  let clientData := clientData f ls in
  let clients :=
    if ToBoolean (VStr id) then
      let index := findIndex (fun c => loose_eq (field c "id") (VStr id)) clients in
      assign_at clients index clientData
    else (clients ++ [clientData])%list in
  setData "clients" clients ls.

(** [deleteClient(id)]; [confirmed] is the answer to the dialog. *)
Definition deleteClient (id : jsval) (confirmed : bool) (ls : storage) : storage :=
  if confirmed then
    let clients := getData_or_empty "clients" ls in
    let newClients := List.filter (fun c => negb (strict_eq (field c "id") id)) clients in
    setData "clients" newClients ls
  else ls.

End Clients.

(** ** users.js *)

Module Users.
Import JS Script.

Record form : Type := {
  entityId : string;
  name : string;
  email : string;
  role : string;
  status : string;
  phone : string
}.

(** [userData]; [now] is the time stamp the clock gives.  Reading
    [createdAt] of a user that [find] did not return throws. *)
Definition userData (f : form) (now : string) (ls : storage) : result record :=
  let users := getData_or_empty "users" ls in
  let id := entityId f in
  let* createdAt :=
    if ToBoolean (VStr id) then
      match find (fun u => loose_eq (field u "id") (VStr id)) users with
      | Some u => Ok (field u "createdAt")
      | None => Throw TypeError
      end
    else Ok (VStr now) in
  Ok ({[ "id" := VNum (if ToBoolean (VStr id) then parseInt id 0
                       else generateId "users" ls);
         "name" := VStr (name f);
         "email" := VStr (email f);
         "role" := VStr (role f);
         "status" := VStr (status f);
         "phone" := VStr (phone f);
         "createdAt" := createdAt ]} : record).

Definition handleFormSubmit (f : form) (now : string) (ls : storage)
  : result storage :=
  let users := getData_or_empty "users" ls in
  let id := entityId f in
  let* userData := userData f now ls in
  let users :=
    if ToBoolean (VStr id) then
      let index := findIndex (fun u => loose_eq (field u "id") (VStr id)) users in
      assign_at users index userData
    else (users ++ [userData])%list in
  Ok (setData "users" users ls).

(** [deleteUser(id)]; [confirmed] is the answer to the dialog. *)
Definition deleteUser (id : jsval) (confirmed : bool) (ls : storage) : storage :=
  if confirmed then
    let users := getData_or_empty "users" ls in
    let newUsers := List.filter (fun u => negb (strict_eq (field u "id") id)) users in
    setData "users" newUsers ls
  else ls.

End Users.

(** ** deliveries.js *)

Module Deliveries.
Import JS Script.

Record form : Type := {
  entityId : string;
  orderId : string;
  driver : string;
  status : string;
  duration : string;
  address : string;
  notes : string
}.

Definition deliveryData (f : form) (now : string) (ls : storage) : result record :=
  let deliveries := getData_or_empty "deliveries" ls in
  let id := entityId f in
  let* date :=
    if ToBoolean (VStr id) then
      match find (fun d => loose_eq (field d "id") (VStr id)) deliveries with
      | Some d => Ok (field d "date")
      | None => Throw TypeError
      end
    else Ok (VStr now) in
  Ok ({[ "id" := VNum (if ToBoolean (VStr id) then parseInt id 0
                       else generateId "deliveries" ls);
         "orderId" := VStr (orderId f);
         "driver" := VStr (driver f);
         "status" := VStr (status f);
         "duration" := VStr (duration f);
         "address" := VStr (address f);
         "notes" := VStr (notes f);
         "date" := date ]} : record).

Definition handleFormSubmit (f : form) (now : string) (ls : storage)
  : result storage :=
  let deliveries := getData_or_empty "deliveries" ls in
  let id := entityId f in
  let* deliveryData := deliveryData f now ls in
  let deliveries :=
    if ToBoolean (VStr id) then
      let index := findIndex (fun d => loose_eq (field d "id") (VStr id)) deliveries in
      assign_at deliveries index deliveryData
    else (deliveries ++ [deliveryData])%list in
  Ok (setData "deliveries" deliveries ls).

(** The test of [openModal] that preselects the order of the delivery
    being edited: [delivery && delivery.orderId == order.id]. *)
Definition order_selected (delivery : option record) (order : record) : bool :=
  match delivery with
  | Some d => loose_eq (field d "orderId") (field order "id")
  | None => false
  end.

End Deliveries.

(** ** script.js: the pagination controls *)

Module Pager.
Import JS Script.

(** What [createPagination] puts into the elements [pagination] and
    [paginationInfo] when they are in the page: the two arrows, the
    numbered buttons with the flag of the active one, the optional first
    and last buttons with their ellipses, and the three numbers of the
    info text.  A button passes its number to the callback; the arrows
    pass [currentPage - 1] and [currentPage + 1].  The arguments are
    integers, as the pages pass them, and [itemsPerPage] is not 0. *)
Record controls : Type := {
  prevDisabled : bool;
  firstButton : bool;
  leadingDots : bool;
  pageButtons : list (Z * bool);
  trailingDots : bool;
  lastButton : option Z;
  nextDisabled : bool;
  paginationInfo : Z * Z * Z
}.

(** The values of [i] in [for (let i = startPage; i <= endPage; i++)]. *)
Definition page_range (startPage endPage : Z) : list Z :=
  map (fun k => startPage + Z.of_nat k)
      (seq 0 (Z.to_nat (endPage - startPage + 1))).

Definition createPagination (totalItems currentPage itemsPerPage : Z) : controls :=
  let totalPages := totalPages totalItems itemsPerPage in
  let maxVisiblePages := 5 in
  let startPage := Z.max 1 (currentPage - maxVisiblePages / 2) in
  let endPage := Z.min totalPages (startPage + maxVisiblePages - 1) in
  let startPage :=
    if endPage - startPage + 1 <? maxVisiblePages
    then Z.max 1 (endPage - maxVisiblePages + 1)
    else startPage in
  {| prevDisabled := currentPage =? 1;
     firstButton := 1 <? startPage;
     leadingDots := (1 <? startPage) && (2 <? startPage);
     pageButtons := map (fun i => (i, i =? currentPage)) (page_range startPage endPage);
     trailingDots := (endPage <? totalPages) && (endPage <? totalPages - 1);
     lastButton := if endPage <? totalPages then Some totalPages else None;
     nextDisabled := (currentPage =? totalPages) || (totalPages =? 0);
     paginationInfo :=
       (if totalItems =? 0 then 0 else (currentPage - 1) * itemsPerPage + 1,
        Z.min (currentPage * itemsPerPage) totalItems,
        totalItems) |}.

End Pager.

(** ** script.js: the sortable column headers *)

Module Sorting.
Import JS Script.

(** The state that [initTableSorting] creates (and returns) when the
    table is in the page. *)
Definition initTableSorting : sort_state :=
  {| column := None; direction := "asc" |}.

(** The click handler of a header whose [data-sort] is [col]. *)
Definition header_click (currentSort : sort_state) (col : string) : sort_state :=
  if match column currentSort with
     | Some c => String.eqb c col
     | None => false
     end
  then {| column := column currentSort;
          direction := if String.eqb (direction currentSort) "asc"
                       then "desc" else "asc" |}
  else {| column := Some col; direction := "asc" |}.

(** The page variable [currentSort] after the header clicks [cols]: a
    page starts from its own literal, and its callback takes the
    handler's state at every click ([currentSort = sort]). *)
Definition page_sort (literal : sort_state) (cols : list string) : sort_state :=
  match cols with
  | [] => literal
  | _ => fold_left header_click cols initTableSorting
  end.

(** [let currentSort = { column: 'id', direction: 'asc' }] of orders.js
    and products.js. *)
Definition currentSort : sort_state :=
  {| column := Some "id"; direction := "asc" |}.

End Sorting.

(** ** script.js: the CSV export *)

Module Csv.
Import JS Script.

Definition dquote : ascii := "034"%char.
Definition newline : string := String "010"%char EmptyString.

(** [Array.prototype.join] of an array of strings. *)
Fixpoint join (sep : string) (l : list string) : string :=
  match l with
  | [] => ""
  | x :: l' =>
      match l' with
      | [] => x
      | _ => x ++ sep ++ join sep l'
      end
  end.

(** [String(v)] *)
Definition String_of (v : jsval) : result string :=
  match v with
  | VUndef => Ok "undefined"
  | VNull => Ok "null"
  | VBool b => Ok (if b then "true" else "false")
  | VNum n => Number_toString n
  | VStr s => Ok s
  end.

(** [s.replace(/\s/g, '')], for the white space of the ASCII range. *)
Fixpoint remove_spaces (s : string) : string :=
  match s with
  | EmptyString => EmptyString
  | String c s' => if is_space c then remove_spaces s' else String c (remove_spaces s')
  end.

(** [s.replace] of every double quote by two of them. *)
Fixpoint double_quotes (s : string) : string :=
  match s with
  | EmptyString => EmptyString
  | String c s' =>
      if Ascii.eqb c dquote then String dquote (String dquote (double_quotes s'))
      else String c (double_quotes s')
  end.

(** [Array.prototype.map] with a callback that may throw. *)
Fixpoint Array_map {A B} (f : A -> result B) (l : list A) : result (list B) :=
  match l with
  | [] => Ok []
  | x :: l' =>
      let* y := f x in
      let* r := Array_map f l' in
      Ok (y :: r)
  end.

(** One cell of a data row. *)
Definition cell (row : record) (header : string) : result string :=
  let value :=
    or_else (or_else (field row (remove_spaces (toLowerCase header)))
                     (field row header))
            (VStr "") in
  let* text := String_of value in
  Ok (String dquote (double_quotes text ++ String dquote EmptyString)).

(** [csvContent] of [exportToCSV(data, filename, headers)]: the header
    line and one line per record.  The download that follows (the byte
    order mark, the dated file name) is outside the embedding. *)
Definition exportToCSV (data : list record) (headers : list string) : result string :=
  let* rows :=
    Array_map (fun row => let* cells := Array_map (cell row) headers in
                          Ok (join "," cells)) data in
  Ok (join newline (join "," headers :: rows)).

(** [handleExportCSV] of orders.js. *)
Definition Orders_headers : list string :=
  [ "ID"; "Client"; "Produits"; "Quantité"; "Montant"; "Statut"; "Paiement"; "Date" ].

Definition Orders_handleExportCSV (ls : storage) : result string :=
  exportToCSV (getData_or_empty "orders" ls) Orders_headers.

(** The export button of products.js. *)
Definition Products_headers : list string :=
  [ "ID"; "Nom"; "Catégorie"; "Prix"; "Stock"; "Fournisseur"; "Disponible" ].

Definition Products_exportCsv (ls : storage) : result string :=
  exportToCSV (getData_or_empty "products" ls) Products_headers.

End Csv.

(** ** script.js and login.js: the session *)

Module Auth.
Import JS Script.

(** The entry [user] of [localStorage]: [None] when there is none. *)
Abbreviation session := (option stored).

Definition DEMO_USERS : list record :=
  [ {[ "email" := VStr "admin@app.com"; "password" := VStr "admin123";
       "name" := VStr "Admin"; "role" := VStr "admin" ]} ].

(** [checkAuth]: [None] stands for [null] (and the redirection to the
    login page). *)
Definition checkAuth (s : session) : option record :=
  (fun x : stored => (of_json <$> x : record)) <$> s.

(** [applyRoleRestrictions(user)]: the new [window.currentUserRole]. *)
Definition applyRoleRestrictions (user : record) : jsval := field user "role".

(** [initAuth]: the user and [window.currentUserRole], which is undefined
    until a user is found. *)
Definition initAuth (s : session) : option record * jsval :=
  match checkAuth s with
  | Some user => (Some user, applyRoleRestrictions user)
  | None => (None, VUndef)
  end.

(** [isAdmin] of the [renderTable]s. *)
Definition isAdmin (currentUserRole : jsval) : bool :=
  strict_eq currentUserRole (VStr "admin").

(** [login(email, password)] of script.js. *)
Definition login (email password : string) (s : session) : bool * session :=
  match find (fun u => strict_eq (field u "email") (VStr email)
                       && strict_eq (field u "password") (VStr password))
             DEMO_USERS with
  | Some user => (true, Some (omap to_json user))
  | None => (false, s)
  end.

Definition logout (s : session) : session := None.

(** The submit handler of login.js: [true] when it redirects to the
    dashboard. *)
Definition loginForm_submit (email password : string) (s : session)
  : bool * session :=
  if String.eqb email "admin@app.com" && String.eqb password "admin123"
  then (true,
        Some (omap to_json ({[ "name" := VStr "Admin"; "role" := VStr "admin";
                               "email" := VStr email ]} : record)))
  else (false, s).

End Auth.

(** ** orders.js and products.js: the selects and the category filter *)

Module OrdersPage.
Import JS Script.

(** The values of the options that [populateClientSelect] appends:
    [option.value = client.id], which the control holds as a string. *)
Definition populateClientSelect (ls : storage) : result (list string) :=
  let clients := getData_or_empty "clients" ls in
  Csv.Array_map (fun client => Csv.String_of (field client "id")) clients.

End OrdersPage.

Module ProductsPage.
Import JS Script.

(** [new Set(values)] spread back into an array: the values in the order
    of their first occurrence, compared with SameValueZero. *)
Definition same_value_zero (a b : jsval) : bool :=
  match a, b with
  | VNum NaN, VNum NaN => true
  | _, _ => strict_eq a b
  end.

Definition Set_add (s : list jsval) (v : jsval) : list jsval :=
  if existsb (same_value_zero v) s then s else (s ++ [v])%list.

Definition Set_of (values : list jsval) : list jsval :=
  fold_left Set_add values [].

(** The options that [populateCategoryFilter] appends. *)
Definition populateCategoryFilter (ls : storage) : list jsval :=
  let products := getData_or_empty "products" ls in
  Set_of (map (fun p => field p "category") products).

End ProductsPage.

(** ** users.js and deliveries.js: the table filters *)

Module UsersTable.
Import JS Script.

(** The filter of [renderUsersTable]. *)
Definition renderUsersTable_filtered (searchInput filterRole filterStatus : string)
    (users : list record) : result (list record) :=
  let search := toLowerCase searchInput in
  let roleFilter := filterRole in
  let statusFilter := filterStatus in
  Array_filter (fun user =>
    let* matchSearch :=
      orelse (let* s := call_toLowerCase (or_else (field user "name") (VStr "")) in
              Ok (includes s search))
             (let* s := call_toLowerCase (or_else (field user "email") (VStr "")) in
              Ok (includes s search)) in
    let matchRole :=
      negb (ToBoolean (VStr roleFilter))
      || strict_eq (field user "role") (VStr roleFilter) in
    let matchStatus :=
      negb (ToBoolean (VStr statusFilter))
      || strict_eq (field user "status") (VStr statusFilter) in
    Ok (matchSearch && matchRole && matchStatus)) users.

(** [editUser(id)]: the value that [openModal] writes into the hidden
    field [entityId], when a user carries the id. *)
Definition editUser (id : jsval) (ls : storage) : option (result string) :=
  let users := getData_or_empty "users" ls in
  match find (fun u => strict_eq (field u "id") id) users with
  | Some user => Some (Csv.String_of (field user "id"))
  | None => None
  end.

End UsersTable.

Module DeliveriesTable.
Import JS Script.

(** The filter of [renderDeliveriesTable]. *)
Definition renderDeliveriesTable_filtered
    (searchInput filterStatus filterDriver : string)
    (deliveries : list record) : result (list record) :=
  let search := toLowerCase searchInput in
  let statusFilter := filterStatus in
  let driverFilter := filterDriver in
  Array_filter (fun delivery =>
    let* matchSearch :=
      orelse (let* s := call_toLowerCase (or_else (field delivery "address") (VStr "")) in
              Ok (includes s search))
             (let* s := call_toString (or_else (field delivery "orderId") (VStr "")) in
              Ok (includes s search)) in
    let matchStatus :=
      negb (ToBoolean (VStr statusFilter))
      || strict_eq (field delivery "status") (VStr statusFilter) in
    let matchDriver :=
      negb (ToBoolean (VStr driverFilter))
      || strict_eq (field delivery "driver") (VStr driverFilter) in
    Ok (matchSearch && matchStatus && matchDriver)) deliveries.

End DeliveriesTable.

(** ** dashboard.js: the indicators and the recent orders *)

Module Dashboard.
Import JS Script.

Record kpis : Type := {
  totalUsers : Z;
  totalOrders : Z;
  totalRevenue : number;
  pendingOrders : Z
}.

(** [orders.filter(...).reduce((sum, o) => sum + parseFloat(o.amount || 0), 0)],
    the sums by their exact value: the engine's when every running total
    is a binary64 value. *)
Definition revenue (orders : list record) : number :=
  fold_left
    (fun sum o => num_add sum (parseFloat (or_else (field o "amount") (VNum (of_Z 0)))))
    (List.filter (fun o => negb (strict_eq (field o "status") (VStr "Annulée"))) orders)
    (of_Z 0).

Definition updateKPIs (ls : storage) : kpis :=
  let users := getData_or_empty "users" ls in
  let orders := getData_or_empty "orders" ls in
  {| totalUsers := Z.of_nat (length users);
     totalOrders := Z.of_nat (length orders);
     totalRevenue := revenue orders;
     pendingOrders :=
       Z.of_nat (length (List.filter
                           (fun o => strict_eq (field o "status") (VStr "En attente"))
                           orders)) |}.

(** [orders.slice(-5).reverse()] of [renderRecentOrders]. *)
Definition renderRecentOrders (ls : storage) : list record :=
  let orders := getData_or_empty "orders" ls in
  rev (slice orders (-5) (Z.of_nat (length orders))).

End Dashboard.

(** ** script.js: the sample data *)

Module Sample.
Import JS Script.

Definition sample_users : list record :=
  [
    {[ "id" := VNum (of_Z 1); "name" := VStr "Admin Système";
       "email" := VStr "admin@app.com"; "role" := VStr "Admin";
       "status" := VStr "Actif"; "createdAt" := VStr "2024-01-15" ]};
    {[ "id" := VNum (of_Z 2); "name" := VStr "Jean Dupont";
       "email" := VStr "jean.dupont@email.com"; "role" := VStr "Livreur";
       "status" := VStr "Actif"; "createdAt" := VStr "2024-02-10" ]};
    {[ "id" := VNum (of_Z 3); "name" := VStr "Marie Martin";
       "email" := VStr "marie.martin@email.com"; "role" := VStr "Client";
       "status" := VStr "Actif"; "createdAt" := VStr "2024-02-15" ]};
    {[ "id" := VNum (of_Z 4); "name" := VStr "Pierre Bernard";
       "email" := VStr "pierre.bernard@email.com"; "role" := VStr "Livreur";
       "status" := VStr "Inactif"; "createdAt" := VStr "2024-03-01" ]};
    {[ "id" := VNum (of_Z 5); "name" := VStr "Sophie Petit";
       "email" := VStr "sophie.petit@email.com"; "role" := VStr "Client";
       "status" := VStr "Actif"; "createdAt" := VStr "2024-03-05" ]};
    {[ "id" := VNum (of_Z 6); "name" := VStr "Lucas Moreau";
       "email" := VStr "lucas.moreau@email.com"; "role" := VStr "Livreur";
       "status" := VStr "Actif"; "createdAt" := VStr "2024-03-10" ]};
    {[ "id" := VNum (of_Z 7); "name" := VStr "Emma Leroy";
       "email" := VStr "emma.leroy@email.com"; "role" := VStr "Client";
       "status" := VStr "Actif"; "createdAt" := VStr "2024-03-15" ]};
    {[ "id" := VNum (of_Z 8); "name" := VStr "Thomas Roux";
       "email" := VStr "thomas.roux@email.com"; "role" := VStr "Manager";
       "status" := VStr "Actif"; "createdAt" := VStr "2024-03-20" ]};
    {[ "id" := VNum (of_Z 9); "name" := VStr "Julie Fournier";
       "email" := VStr "julie.fournier@email.com"; "role" := VStr "Client";
       "status" := VStr "Inactif"; "createdAt" := VStr "2024-04-01" ]};
    {[ "id" := VNum (of_Z 10); "name" := VStr "Antoine Garcia";
       "email" := VStr "antoine.garcia@email.com"; "role" := VStr "Livreur";
       "status" := VStr "Actif"; "createdAt" := VStr "2024-04-05" ]};
    {[ "id" := VNum (of_Z 11); "name" := VStr "Camille Blanc";
       "email" := VStr "camille.blanc@email.com"; "role" := VStr "Client";
       "status" := VStr "Actif"; "createdAt" := VStr "2024-04-10" ]};
    {[ "id" := VNum (of_Z 12); "name" := VStr "Mathieu Simon";
       "email" := VStr "mathieu.simon@email.com"; "role" := VStr "Livreur";
       "status" := VStr "Actif"; "createdAt" := VStr "2024-04-15" ]} ].

Definition sample_products : list record :=
  [
    {[ "id" := VNum (of_Z 1); "name" := VStr "Pizza Margherita";
       "category" := VStr "Pizza"; "price" := VNum (Fin 12.99);
       "stock" := VNum (of_Z 50); "supplier" := VStr "Pizzeria Roma";
       "available" := VBool true ]};
    {[ "id" := VNum (of_Z 2); "name" := VStr "Burger Classic";
       "category" := VStr "Burger"; "price" := VNum (Fin 9.99);
       "stock" := VNum (of_Z 35); "supplier" := VStr "Burger House";
       "available" := VBool true ]};
    {[ "id" := VNum (of_Z 3); "name" := VStr "Salade César";
       "category" := VStr "Salade"; "price" := VNum (Fin 8.50);
       "stock" := VNum (of_Z 25); "supplier" := VStr "Fresh Garden";
       "available" := VBool true ]};
    {[ "id" := VNum (of_Z 4); "name" := VStr "Sushi Mix";
       "category" := VStr "Japonais"; "price" := VNum (Fin 18.99);
       "stock" := VNum (of_Z 20); "supplier" := VStr "Tokyo Sushi";
       "available" := VBool true ]};
    {[ "id" := VNum (of_Z 5); "name" := VStr "Tacos Mexicain";
       "category" := VStr "Mexicain"; "price" := VNum (Fin 11.50);
       "stock" := VNum (of_Z 40); "supplier" := VStr "Casa Mexico";
       "available" := VBool true ]};
    {[ "id" := VNum (of_Z 6); "name" := VStr "Pasta Carbonara";
       "category" := VStr "Italien"; "price" := VNum (Fin 13.99);
       "stock" := VNum (of_Z 30); "supplier" := VStr "Pizzeria Roma";
       "available" := VBool true ]};
    {[ "id" := VNum (of_Z 7); "name" := VStr "Kebab Complet";
       "category" := VStr "Oriental"; "price" := VNum (Fin 8.99);
       "stock" := VNum (of_Z 45); "supplier" := VStr "Istanbul Grill";
       "available" := VBool true ]};
    {[ "id" := VNum (of_Z 8); "name" := VStr "Poke Bowl"; "category" := VStr "Healthy";
       "price" := VNum (Fin 14.50); "stock" := VNum (of_Z 15);
       "supplier" := VStr "Fresh Garden"; "available" := VBool false ]};
    {[ "id" := VNum (of_Z 9); "name" := VStr "Pad Thai";
       "category" := VStr "Asiatique"; "price" := VNum (Fin 12.50);
       "stock" := VNum (of_Z 25); "supplier" := VStr "Thai Express";
       "available" := VBool true ]};
    {[ "id" := VNum (of_Z 10); "name" := VStr "Crêpe Complète";
       "category" := VStr "Français"; "price" := VNum (Fin 10.99);
       "stock" := VNum (of_Z 0); "supplier" := VStr "Crêperie Bretonne";
       "available" := VBool false ]};
    {[ "id" := VNum (of_Z 11); "name" := VStr "Fish & Chips";
       "category" := VStr "Britannique"; "price" := VNum (Fin 11.99);
       "stock" := VNum (of_Z 30); "supplier" := VStr "British Corner";
       "available" := VBool true ]};
    {[ "id" := VNum (of_Z 12); "name" := VStr "Falafel Wrap";
       "category" := VStr "Oriental"; "price" := VNum (Fin 9.50);
       "stock" := VNum (of_Z 35); "supplier" := VStr "Istanbul Grill";
       "available" := VBool true ]} ].

Definition sample_clients : list record :=
  [
    {[ "id" := VNum (of_Z 1); "name" := VStr "Marie Martin";
       "email" := VStr "marie.martin@email.com"; "phone" := VStr "0612345678";
       "address" := VStr "12 Rue de Paris, 75001 Paris"; "city" := VStr "Paris";
       "type" := VStr "Particulier"; "createdAt" := VStr "2024-01-10" ]};
    {[ "id" := VNum (of_Z 2); "name" := VStr "Restaurant Le Gourmet";
       "email" := VStr "contact@legourmet.fr"; "phone" := VStr "0145678901";
       "address" := VStr "45 Avenue des Champs, 75008 Paris"; "city" := VStr "Paris";
       "type" := VStr "Entreprise"; "createdAt" := VStr "2024-01-15" ]};
    {[ "id" := VNum (of_Z 3); "name" := VStr "Sophie Petit";
       "email" := VStr "sophie.petit@email.com"; "phone" := VStr "0623456789";
       "address" := VStr "8 Rue de Lyon, 69001 Lyon"; "city" := VStr "Lyon";
       "type" := VStr "Particulier"; "createdAt" := VStr "2024-02-01" ]};
    {[ "id" := VNum (of_Z 4); "name" := VStr "Café Central";
       "email" := VStr "info@cafecentral.fr"; "phone" := VStr "0467891234";
       "address" := VStr "22 Place de la Comédie, 34000 Montpellier";
       "city" := VStr "Montpellier"; "type" := VStr "Entreprise";
       "createdAt" := VStr "2024-02-15" ]};
    {[ "id" := VNum (of_Z 5); "name" := VStr "Emma Leroy";
       "email" := VStr "emma.leroy@email.com"; "phone" := VStr "0634567890";
       "address" := VStr "15 Boulevard Victor Hugo, 33000 Bordeaux";
       "city" := VStr "Bordeaux"; "type" := VStr "Particulier";
       "createdAt" := VStr "2024-03-01" ]};
    {[ "id" := VNum (of_Z 6); "name" := VStr "Hôtel Royal";
       "email" := VStr "reservation@hotelroyal.fr"; "phone" := VStr "0491234567";
       "address" := VStr "100 Promenade des Anglais, 06000 Nice";
       "city" := VStr "Nice"; "type" := VStr "Entreprise";
       "createdAt" := VStr "2024-03-10" ]};
    {[ "id" := VNum (of_Z 7); "name" := VStr "Camille Blanc";
       "email" := VStr "camille.blanc@email.com"; "phone" := VStr "0645678901";
       "address" := VStr "3 Rue Nationale, 59000 Lille"; "city" := VStr "Lille";
       "type" := VStr "Particulier"; "createdAt" := VStr "2024-03-20" ]};
    {[ "id" := VNum (of_Z 8); "name" := VStr "Boulangerie Paul";
       "email" := VStr "contact@boulangeripaul.fr"; "phone" := VStr "0320123456";
       "address" := VStr "7 Grand Place, 59000 Lille"; "city" := VStr "Lille";
       "type" := VStr "Entreprise"; "createdAt" := VStr "2024-04-01" ]};
    {[ "id" := VNum (of_Z 9); "name" := VStr "Lucas Noir";
       "email" := VStr "lucas.noir@email.com"; "phone" := VStr "0656789012";
       "address" := VStr "28 Quai des Chartrons, 33000 Bordeaux";
       "city" := VStr "Bordeaux"; "type" := VStr "Particulier";
       "createdAt" := VStr "2024-04-10" ]};
    {[ "id" := VNum (of_Z 10); "name" := VStr "Traiteur Excellence";
       "email" := VStr "traiteur@excellence.fr"; "phone" := VStr "0156789012";
       "address" := VStr "56 Rue du Commerce, 75015 Paris"; "city" := VStr "Paris";
       "type" := VStr "Entreprise"; "createdAt" := VStr "2024-04-15" ]} ].

Definition sample_orders : list record :=
  [
    {[ "id" := VNum (of_Z 1); "clientId" := VNum (of_Z 1);
       "clientName" := VStr "Marie Martin"; "products" := VStr "Pizza Margherita x2";
       "quantity" := VNum (of_Z 2); "amount" := VNum (Fin 25.98);
       "status" := VStr "Livrée"; "paymentStatus" := VStr "Payée";
       "address" := VStr "12 Rue de Paris, 75001 Paris";
       "createdAt" := VStr "2024-04-01" ]};
    {[ "id" := VNum (of_Z 2); "clientId" := VNum (of_Z 3);
       "clientName" := VStr "Sophie Petit"; "products" := VStr "Sushi Mix, Poke Bowl";
       "quantity" := VNum (of_Z 2); "amount" := VNum (Fin 33.49);
       "status" := VStr "En cours"; "paymentStatus" := VStr "Payée";
       "address" := VStr "8 Rue de Lyon, 69001 Lyon";
       "createdAt" := VStr "2024-04-05" ]};
    {[ "id" := VNum (of_Z 3); "clientId" := VNum (of_Z 2);
       "clientName" := VStr "Restaurant Le Gourmet";
       "products" := VStr "Pasta Carbonara x10"; "quantity" := VNum (of_Z 10);
       "amount" := VNum (Fin 139.90); "status" := VStr "Livrée";
       "paymentStatus" := VStr "Payée";
       "address" := VStr "45 Avenue des Champs, 75008 Paris";
       "createdAt" := VStr "2024-04-07" ]};
    {[ "id" := VNum (of_Z 4); "clientId" := VNum (of_Z 5);
       "clientName" := VStr "Emma Leroy"; "products" := VStr "Burger Classic x3";
       "quantity" := VNum (of_Z 3); "amount" := VNum (Fin 29.97);
       "status" := VStr "En attente"; "paymentStatus" := VStr "En attente";
       "address" := VStr "15 Boulevard Victor Hugo, 33000 Bordeaux";
       "createdAt" := VStr "2024-04-10" ]};
    {[ "id" := VNum (of_Z 5); "clientId" := VNum (of_Z 7);
       "clientName" := VStr "Camille Blanc";
       "products" := VStr "Tacos Mexicain, Kebab Complet"; "quantity" := VNum (of_Z 2);
       "amount" := VNum (Fin 20.49); "status" := VStr "Livrée";
       "paymentStatus" := VStr "Payée";
       "address" := VStr "3 Rue Nationale, 59000 Lille";
       "createdAt" := VStr "2024-04-12" ]};
    {[ "id" := VNum (of_Z 6); "clientId" := VNum (of_Z 4);
       "clientName" := VStr "Café Central"; "products" := VStr "Salade César x15";
       "quantity" := VNum (of_Z 15); "amount" := VNum (Fin 127.50);
       "status" := VStr "En cours"; "paymentStatus" := VStr "Payée";
       "address" := VStr "22 Place de la Comédie, 34000 Montpellier";
       "createdAt" := VStr "2024-04-14" ]};
    {[ "id" := VNum (of_Z 7); "clientId" := VNum (of_Z 9);
       "clientName" := VStr "Lucas Noir"; "products" := VStr "Fish & Chips";
       "quantity" := VNum (of_Z 1); "amount" := VNum (Fin 11.99);
       "status" := VStr "Annulée"; "paymentStatus" := VStr "Remboursée";
       "address" := VStr "28 Quai des Chartrons, 33000 Bordeaux";
       "createdAt" := VStr "2024-04-15" ]};
    {[ "id" := VNum (of_Z 8); "clientId" := VNum (of_Z 6);
       "clientName" := VStr "Hôtel Royal"; "products" := VStr "Crêpe Complète x20";
       "quantity" := VNum (of_Z 20); "amount" := VNum (Fin 219.80);
       "status" := VStr "Livrée"; "paymentStatus" := VStr "Payée";
       "address" := VStr "100 Promenade des Anglais, 06000 Nice";
       "createdAt" := VStr "2024-04-16" ]};
    {[ "id" := VNum (of_Z 9); "clientId" := VNum (of_Z 1);
       "clientName" := VStr "Marie Martin"; "products" := VStr "Pad Thai x2";
       "quantity" := VNum (of_Z 2); "amount" := VNum (Fin 25.00);
       "status" := VStr "En attente"; "paymentStatus" := VStr "En attente";
       "address" := VStr "12 Rue de Paris, 75001 Paris";
       "createdAt" := VStr "2024-04-18" ]};
    {[ "id" := VNum (of_Z 10); "clientId" := VNum (of_Z 10);
       "clientName" := VStr "Traiteur Excellence";
       "products" := VStr "Falafel Wrap x30"; "quantity" := VNum (of_Z 30);
       "amount" := VNum (Fin 285.00); "status" := VStr "En cours";
       "paymentStatus" := VStr "Payée";
       "address" := VStr "56 Rue du Commerce, 75015 Paris";
       "createdAt" := VStr "2024-04-20" ]};
    {[ "id" := VNum (of_Z 11); "clientId" := VNum (of_Z 3);
       "clientName" := VStr "Sophie Petit"; "products" := VStr "Pizza Margherita";
       "quantity" := VNum (of_Z 1); "amount" := VNum (Fin 12.99);
       "status" := VStr "Livrée"; "paymentStatus" := VStr "Payée";
       "address" := VStr "8 Rue de Lyon, 69001 Lyon";
       "createdAt" := VStr "2024-04-21" ]};
    {[ "id" := VNum (of_Z 12); "clientId" := VNum (of_Z 8);
       "clientName" := VStr "Boulangerie Paul"; "products" := VStr "Burger Classic x5";
       "quantity" := VNum (of_Z 5); "amount" := VNum (Fin 49.95);
       "status" := VStr "En attente"; "paymentStatus" := VStr "En attente";
       "address" := VStr "7 Grand Place, 59000 Lille";
       "createdAt" := VStr "2024-04-22" ]} ].

Definition sample_deliveries : list record :=
  [
    {[ "id" := VNum (of_Z 1); "orderId" := VNum (of_Z 1);
       "driver" := VStr "Jean Dupont";
       "address" := VStr "12 Rue de Paris, 75001 Paris"; "status" := VStr "Livrée";
       "duration" := VNum (of_Z 25); "notes" := VStr "Client satisfait";
       "createdAt" := VStr "2024-04-01" ]};
    {[ "id" := VNum (of_Z 2); "orderId" := VNum (of_Z 2);
       "driver" := VStr "Lucas Moreau"; "address" := VStr "8 Rue de Lyon, 69001 Lyon";
       "status" := VStr "En cours"; "duration" := VNum (of_Z 30); "notes" := VStr "";
       "createdAt" := VStr "2024-04-05" ]};
    {[ "id" := VNum (of_Z 3); "orderId" := VNum (of_Z 3);
       "driver" := VStr "Antoine Garcia";
       "address" := VStr "45 Avenue des Champs, 75008 Paris";
       "status" := VStr "Livrée"; "duration" := VNum (of_Z 35);
       "notes" := VStr "Livraison express"; "createdAt" := VStr "2024-04-07" ]};
    {[ "id" := VNum (of_Z 4); "orderId" := VNum (of_Z 5);
       "driver" := VStr "Jean Dupont";
       "address" := VStr "3 Rue Nationale, 59000 Lille"; "status" := VStr "Livrée";
       "duration" := VNum (of_Z 20); "notes" := VStr "";
       "createdAt" := VStr "2024-04-12" ]};
    {[ "id" := VNum (of_Z 5); "orderId" := VNum (of_Z 6);
       "driver" := VStr "Mathieu Simon";
       "address" := VStr "22 Place de la Comédie, 34000 Montpellier";
       "status" := VStr "En cours"; "duration" := VNum (of_Z 40);
       "notes" := VStr "Grande commande"; "createdAt" := VStr "2024-04-14" ]};
    {[ "id" := VNum (of_Z 6); "orderId" := VNum (of_Z 8);
       "driver" := VStr "Lucas Moreau";
       "address" := VStr "100 Promenade des Anglais, 06000 Nice";
       "status" := VStr "Livrée"; "duration" := VNum (of_Z 45); "notes" := VStr "";
       "createdAt" := VStr "2024-04-16" ]};
    {[ "id" := VNum (of_Z 7); "orderId" := VNum (of_Z 10);
       "driver" := VStr "Antoine Garcia";
       "address" := VStr "56 Rue du Commerce, 75015 Paris";
       "status" := VStr "En cours"; "duration" := VNum (of_Z 50);
       "notes" := VStr "Commande volume"; "createdAt" := VStr "2024-04-20" ]};
    {[ "id" := VNum (of_Z 8); "orderId" := VNum (of_Z 11);
       "driver" := VStr "Jean Dupont"; "address" := VStr "8 Rue de Lyon, 69001 Lyon";
       "status" := VStr "Livrée"; "duration" := VNum (of_Z 22); "notes" := VStr "";
       "createdAt" := VStr "2024-04-21" ]};
    {[ "id" := VNum (of_Z 9); "orderId" := VNum (of_Z 4);
       "driver" := VStr "Mathieu Simon";
       "address" := VStr "15 Boulevard Victor Hugo, 33000 Bordeaux";
       "status" := VStr "En attente"; "duration" := VNum (of_Z 35);
       "notes" := VStr "Attente confirmation"; "createdAt" := VStr "2024-04-10" ]};
    {[ "id" := VNum (of_Z 10); "orderId" := VNum (of_Z 9);
       "driver" := VStr "Lucas Moreau";
       "address" := VStr "12 Rue de Paris, 75001 Paris"; "status" := VStr "En attente";
       "duration" := VNum (of_Z 25); "notes" := VStr "";
       "createdAt" := VStr "2024-04-18" ]} ].

(** [initSampleData]: a collection is written only when [getData] finds
    nothing under its key. *)
Definition initSampleData (ls : storage) : storage :=
  let ls := match getData "users" ls with
            | Some _ => ls
            | None => setData "users" sample_users ls
            end in
  let ls := match getData "products" ls with
            | Some _ => ls
            | None => setData "products" sample_products ls
            end in
  let ls := match getData "clients" ls with
            | Some _ => ls
            | None => setData "clients" sample_clients ls
            end in
  let ls := match getData "orders" ls with
            | Some _ => ls
            | None => setData "orders" sample_orders ls
            end in
  match getData "deliveries" ls with
  | Some _ => ls
  | None => setData "deliveries" sample_deliveries ls
  end.

End Sample.


(** ** Derived notions used to state the properties *)

Module Notions.
Import JS Script.

(** The value the comparator of [sortData] puts on the left of [<] for a
    field value [x] met together with [y]. *)
Definition sort_key (x y : jsval) : jsval :=
  let x' := if negb (isNaN x) && negb (isNaN y) then VNum (parseFloat x) else x in
  match x' with
  | VStr s => VStr (toLowerCase s)
  | _ => x'
  end.

(** What the comparator returns when [less] and [greater] are the outcomes
    of its two tests. *)
Definition verdict (direction : string) (less greater : bool) : Z :=
  if less then (if String.eqb direction "asc" then -1 else 1)
  else if greater then (if String.eqb direction "asc" then 1 else -1)
  else 0.

(** The comparator does not ask for [a] to come after [b]. *)
Definition not_after {A} (cmp : A -> A -> result Z) (a b : A) : Prop :=
  exists z, cmp a b = Ok z /\ z <= 0.

(** The sort field of [r] holds a finite Number. *)
Definition numeric_at (column : string) (r : record) : Prop :=
  exists q, field r column = VNum (Fin q).

(** What a value and a record read back as after [JSON.stringify] and
    [JSON.parse]. *)
Definition reload (v : jsval) : option jsval := of_json <$> to_json v.

Definition JSON_roundtrip (r : record) : record := of_json <$> omap to_json r.

(** The test with which the order form rejects what was submitted. *)
Definition order_rejected (f : Orders.form) (ls : storage) : bool :=
  negb (ToBoolean (field (Orders.formData f ls) "clientId"))
  || negb (ToBoolean (field (Orders.formData f ls) "products"))
  || negb (ToBoolean (field (Orders.formData f ls) "amount")).

(** A run of decimal digits, and the value it denotes after [a]. *)
Fixpoint all_digits (s : string) : bool :=
  match s with
  | EmptyString => true
  | String c s' => is_digit c && all_digits s'
  end.

Fixpoint digits_value (s : string) (a : Z) : Z :=
  match s with
  | EmptyString => a
  | String c s' => digits_value s' (10 * a + digit_val c)
  end.

(** No two records of the collection carry the same id. *)
Definition ids_unique (data : list record) : Prop :=
  forall (i j : nat) (r r' : record),
    data !! i = Some r -> data !! j = Some r' ->
    strict_eq (field r "id") (field r' "id") = true -> i = j.

(** *** Filter criteria, after the specification

    A criterion is a string read from a control; the empty string is the
    unset criterion and matches every record.  The search criterion is a
    case-insensitive substring test over the searchable text fields of
    the entity (and the decimal text of the order id); the others are
    exact matches of one field. *)

Definition unset_or (criterion : string) (hit : Prop) : Prop :=
  criterion <> "" -> hit.

(** [text] contains [term], letter case apart. *)
Definition contains_ci (text term : string) : Prop :=
  includes (toLowerCase text) (toLowerCase term) = true.

Definition text_of (v : jsval) : string :=
  match v with
  | VStr s => s
  | _ => ""
  end.

(** The decimal text of an integer id. *)
Definition id_text (v : jsval) : string :=
  match v with
  | VNum (Fin q) => Z_toString (Qnum q)
  | _ => ""
  end.

(** An order as the data model has it: textual client name and products,
    an integer id. *)
Definition order_shaped (r : record) : Prop :=
  exists (cn pr : string) (z : Z),
    r !! "clientName" = Some (VStr cn) /\ r !! "products" = Some (VStr pr)
    /\ r !! "id" = Some (VNum (of_Z z)) /\ Z.abs z < 2 ^ 53.

Definition order_matches (search status payment : string) (r : record) : Prop :=
  unset_or search
    (contains_ci (text_of (field r "clientName")) search
     \/ contains_ci (text_of (field r "products")) search
     \/ includes (id_text (field r "id")) (toLowerCase search) = true)
  /\ unset_or status (field r "status" = VStr status)
  /\ unset_or payment (field r "paymentStatus" = VStr payment).

(** A product as the data model has it: textual name and supplier. *)
Definition product_shaped (r : record) : Prop :=
  exists (n su : string),
    r !! "name" = Some (VStr n) /\ r !! "supplier" = Some (VStr su).

Definition product_matches (search category availability : string) (r : record)
  : Prop :=
  unset_or search
    (contains_ci (text_of (field r "name")) search
     \/ contains_ci (text_of (field r "supplier")) search)
  /\ unset_or category (field r "category" = VStr category)
  /\ unset_or availability
       (field r "available" = VBool (String.eqb availability "true")).

(** A client whose name and email are text, or missing or otherwise
    falsy (and then read as the empty text). *)
Definition text_or_falsy (v : jsval) : Prop :=
  is_string v = true \/ ToBoolean v = false.

Definition client_shaped (r : record) : Prop :=
  text_or_falsy (field r "name") /\ text_or_falsy (field r "email").

Definition client_matches (search city type : string) (r : record) : Prop :=
  unset_or search
    (contains_ci (text_of (field r "name")) search
     \/ contains_ci (text_of (field r "email")) search)
  /\ unset_or city (field r "city" = VStr city)
  /\ unset_or type (field r "type" = VStr type).

End Notions.

(** ** Where the embedding is exact

    The embedding carries a Number by its exact value and a string by its
    bytes; the engine rounds to binary64, and folds case and skips white
    space over the whole of Unicode.  The predicates of this module
    delimit the inputs on which the two agree.  The properties that read
    text letter case apart, order it, trim it or parse it, and those that
    add Numbers or print them, are stated for these inputs. *)

Module Domain.
Import JS Script Notions.

(** *** Text

    ASCII characters and the lower-case letters of Latin-1 (U+00DF to
    U+00FF; in UTF-8 the byte 195 followed by a byte from 159 to 191).
    On such text every character is one code unit of the engine's string
    and the bytes order as the code units do, [toLowerCase] changes the
    letters A to Z and nothing else, and the only white space is the
    ASCII one. *)
Fixpoint plain_text (s : string) : bool :=
  match s with
  | EmptyString => true
  | String c s' =>
      if code c <? 128 then plain_text s'
      else if code c =? 195 then
        match s' with
        | String c' s'' =>
            (159 <=? code c') && (code c' <=? 191) && plain_text s''
        | EmptyString => false
        end
      else false
  end.

(** A value that is not a string, or is plain text. *)
Definition plain (v : jsval) : bool :=
  match v with
  | VStr s => plain_text s
  | _ => true
  end.

(** The fields [keys] of a record hold plain values. *)
Definition plain_at (keys : list string) (r : record) : bool :=
  forallb (fun k => plain (field r k)) keys.

(** *** Numbers

    Number.MAX_SAFE_INTEGER is [2^53 - 1]: binary64 holds every integer
    up to [2^53] in magnitude, adds 1 to a safe integer without rounding
    and prints it with all its digits. *)
Definition safe_integer (z : Z) : bool := Z.abs z <? 2 ^ 53.

(** A Number that is [NaN] or a safe integer: what [parseInt] returns
    when the digits it read fit. *)
Definition safe_number (n : number) : bool :=
  match n with
  | NaN => true
  | Fin q => Pos.eqb (Qden q) 1 && safe_integer (Qnum q)
  | _ => false
  end.

(** A rational that is a binary64 value: [m * 2^e] with [|m| < 2^53] and
    [-1074 <= e <= 971]. *)
Definition binary64 (q : Q) : bool :=
  let r := Qred q in
  let n := Z.abs (Qnum r) in
  let d := Zpos (Qden r) in
  if n =? 0 then true
  else if d =? 1 then (n / Z.land n (- n) <? 2 ^ 53) && (n <? 2 ^ 1024)
  else (Z.land d (d - 1) =? 0) && (d <=? 2 ^ 1074) && (n <? 2 ^ 53).

(** A Number that a decimal literal denotes without rounding. *)
Definition exact (n : number) : bool :=
  match n with
  | Fin q => binary64 q
  | _ => true
  end.

(** A value that reads as a Number without rounding: any value but a
    string, and the plain text whose literal is a binary64 value. *)
Definition exactly_read (v : jsval) : bool :=
  match v with
  | VStr s => plain_text s && exact (parseFloat_string s) && exact (StringToNumber s)
  | _ => true
  end.

(** A Number that reading a literal neither flushes to zero nor takes to
    an infinity: zero, or between [2^-1074] and [2^1023] in magnitude. *)
Definition in_range (n : number) : bool :=
  match n with
  | Fin q =>
      let a := Z.abs (Qnum q) # Qden q in
      (Qnum q =? 0)
      || (Qle_bool (1 # 2 ^ 1074) a && Qle_bool a (inject_Z (2 ^ 1023)))
  | _ => true
  end.

(** The running totals of [qs], from the left. *)
Fixpoint partial_sums (a : Q) (qs : list Q) : list Q :=
  match qs with
  | [] => []
  | q :: qs' => (a + q)%Q :: partial_sums (a + q)%Q qs'
  end.

(** Amounts that binary64 adds from the left without rounding. *)
Definition exactly_summed (qs : list Q) : bool :=
  forallb binary64 qs && forallb binary64 (partial_sums 0 qs).

(** *** Comparators

    ECMAScript's consistent comparator, over the elements of [l]: the
    condition under which [Array.prototype.sort] has a defined result. *)
Definition consistent {A} (cmp : A -> A -> result Z) (l : list A) : Prop :=
  (forall a b, In a l -> In b l -> exists z, cmp a b = Ok z)
  /\ (forall a, In a l -> cmp a a = Ok 0)
  /\ (forall a b, In a l -> In b l -> cmp a b = Ok 0 -> cmp b a = Ok 0)
  /\ (forall a b c, In a l -> In b l -> In c l ->
        cmp a b = Ok 0 -> cmp b c = Ok 0 -> cmp a c = Ok 0)
  /\ (forall a b c x y, In a l -> In b l -> In c l ->
        cmp a b = Ok x -> x < 0 -> cmp b c = Ok y -> y < 0 ->
        exists z, cmp a c = Ok z /\ z < 0)
  /\ (forall a b c x y, In a l -> In b l -> In c l ->
        cmp a b = Ok x -> 0 < x -> cmp b c = Ok y -> 0 < y ->
        exists z, cmp a c = Ok z /\ 0 < z).

(** [a] and [b] stand in [out] as they stand in [data]. *)
Definition same_order (a b : record) (out data : list record) : Prop :=
  List.filter (fun r => bool_decide (r = a \/ r = b)) out
  = List.filter (fun r => bool_decide (r = a \/ r = b)) data.

(** *** Forms *)

(** An order form whose client, quantity and amount are plain text that
    is read without rounding: the integers are safe and the amount is in
    range. *)
Definition order_form_exact (f : Orders.form) : bool :=
  plain_text (Orders.client f) && plain_text (Orders.quantity f)
  && plain_text (Orders.amount f)
  && safe_number (parseInt (Orders.client f) 10)
  && safe_number (parseInt (Orders.quantity f) 10)
  && in_range (parseFloat (VStr (Orders.amount f))).

(** A product form whose name, supplier, price and stock are plain text,
    the price in range and the stock a safe integer. *)
Definition product_form_exact (f : Products.form) : bool :=
  plain_text (Products.name f) && plain_text (Products.supplier f)
  && plain_text (Products.price f) && plain_text (Products.stock f)
  && in_range (parseFloat (VStr (Products.price f)))
  && safe_number (parseInt (Products.stock f) 10).

End Domain.

(** ** Derived notions of the page controls and the exports *)

Module Derived.
Import JS Script.

(** Page [i] has a button of its own in the pager. *)
Definition shown (c : Pager.controls) (i : Z) : Prop :=
  (Pager.firstButton c = true /\ i = 1)
  \/ In i (map fst (Pager.pageButtons c))
  \/ Pager.lastButton c = Some i.

(** The page numbers that the enabled controls of the pager pass to the
    callback. *)
Definition targets (c : Pager.controls) (currentPage : Z) : list Z :=
  ((if Pager.prevDisabled c then [] else [currentPage - 1])
   ++ (if Pager.firstButton c then [1] else [])
   ++ map fst (Pager.pageButtons c)
   ++ match Pager.lastButton c with Some n => [n] | None => [] end
   ++ (if Pager.nextDisabled c then [] else [currentPage + 1]))%list.

(** The records of the collection carry the integer ids [ids], in order. *)
Definition integer_ids (data : list record) (ids : list Z) : Prop :=
  Forall2 (fun r i => r !! "id" = Some (VNum (of_Z i))) data ids.

(** A CSV field in double quotes, and the reading of such a field: the
    enclosing quotes are dropped and two quotes inside stand for one; a
    lone quote inside, or a missing closing quote, is no field. *)
Definition quoted (text : string) : string :=
  String Csv.dquote (Csv.double_quotes text ++ String Csv.dquote EmptyString).

Fixpoint unquote_body (s : string) : option string :=
  match s with
  | EmptyString => None
  | String c s' =>
      if Ascii.eqb c Csv.dquote then
        match s' with
        | EmptyString => Some EmptyString
        | String c' s'' =>
            if Ascii.eqb c' Csv.dquote
            then String Csv.dquote <$> unquote_body s''
            else None
        end
      else String c <$> unquote_body s'
  end.

Definition unquote (s : string) : option string :=
  match s with
  | String c s' => if Ascii.eqb c Csv.dquote then unquote_body s' else None
  | EmptyString => None
  end.

(** The keys of an order as the form and the sample data write it. *)
Definition order_keys : list string :=
  [ "id"; "clientId"; "clientName"; "products"; "quantity"; "amount"; "status";
    "paymentStatus"; "address"; "notes"; "createdAt" ].

Definition order_written (r : record) : Prop :=
  forall k, is_Some (r !! k) -> In k order_keys.

(** The keys of a product as the form and the sample data write it. *)
Definition product_keys : list string :=
  [ "id"; "name"; "category"; "price"; "stock"; "supplier"; "available" ].

Definition product_written (r : record) : Prop :=
  forall k, is_Some (r !! k) -> In k product_keys.

(** No two entries of [l] are the same value for [Set]. *)
Definition distinct_values (l : list jsval) : Prop :=
  forall (i j : nat) (a b : jsval),
    l !! i = Some a -> l !! j = Some b ->
    ProductsPage.same_value_zero a b = true -> i = j.

(** The users filter, after the reading of the clients filter: the
    search runs over name and email, role and status are exact matches. *)
Definition user_matches (search role status : string) (r : record) : Prop :=
  Notions.unset_or search
    (Notions.contains_ci (Notions.text_of (field r "name")) search
     \/ Notions.contains_ci (Notions.text_of (field r "email")) search)
  /\ Notions.unset_or role (field r "role" = VStr role)
  /\ Notions.unset_or status (field r "status" = VStr status).

(** The text under which the deliveries filter searches the order of a
    delivery: the string itself, the decimal text of a non-zero integer,
    and the empty text for a falsy value. *)
Definition order_ref_text (v : jsval) : string :=
  match v with
  | VStr s => s
  | VNum (Fin q) => if Qeq_bool q 0 then "" else Z_toString (Qnum q)
  | _ => ""
  end.

(** A delivery whose address is text (or falsy) and whose order reference
    is text, falsy, or an integer Number, as the form and the sample data
    write them. *)
Definition delivery_shaped (r : record) : Prop :=
  Notions.text_or_falsy (field r "address")
  /\ (Notions.text_or_falsy (field r "orderId")
      \/ exists z, field r "orderId" = VNum (of_Z z) /\ Z.abs z < 2 ^ 53).

Definition delivery_matches (search status driver : string) (r : record) : Prop :=
  (Notions.contains_ci (Notions.text_of (field r "address")) search
   \/ includes (order_ref_text (field r "orderId")) (toLowerCase search) = true)
  /\ Notions.unset_or status (field r "status" = VStr status)
  /\ Notions.unset_or driver (field r "driver" = VStr driver).

(** The sum of a list of rationals. *)
Definition Qsum (qs : list Q) : Q := fold_right Qplus 0%Q qs.

(** What an order adds to the revenue of the dashboard. *)
Definition amount_of (o : record) : number :=
  parseFloat (or_else (field o "amount") (VNum (of_Z 0))).

Definition cancelled (o : record) : bool :=
  strict_eq (field o "status") (VStr "Annulée").

(** The test with which the product form rejects what was submitted. *)
Definition product_rejected (f : Products.form) : bool :=
  negb (ToBoolean (field (Products.formData f) "name"))
  || negb (ToBoolean (field (Products.formData f) "category"))
  || isNaN (field (Products.formData f) "price").

(** A string of white space only. *)
Fixpoint all_spaces (s : string) : bool :=
  match s with
  | EmptyString => true
  | String c s' => is_space c && all_spaces s'
  end.

(** The sort field of [r] holds a string that does not read as a
    number. *)
Definition text_at (column : string) (r : record) : Prop :=
  exists s, field r column = VStr s /\ isNaN (VStr s) = true.

(** Executable tests of the shapes above, for checking stored data. *)
Definition written_b (keys : list string) (r : record) : bool :=
  forallb (fun kv : string * jsval => existsb (String.eqb (fst kv)) keys)
          (map_to_list r).

Definition text_or_falsy_b (v : jsval) : bool := is_string v || negb (ToBoolean v).

Definition integer_b (v : jsval) : bool :=
  match v with
  | VNum (Fin q) => Pos.eqb (Qden q) 1 && (Z.abs (Qnum q) <? 2 ^ 53)
  | _ => false
  end.

Definition order_shaped_b (r : record) : bool :=
  is_string (field r "clientName") && is_string (field r "products")
  && integer_b (field r "id").

Definition product_shaped_b (r : record) : bool :=
  is_string (field r "name") && is_string (field r "supplier").

Definition client_shaped_b (r : record) : bool :=
  text_or_falsy_b (field r "name") && text_or_falsy_b (field r "email").

Definition delivery_shaped_b (r : record) : bool :=
  text_or_falsy_b (field r "address")
  && (text_or_falsy_b (field r "orderId") || integer_b (field r "orderId")).

(** Every order names a stored client by id and by name. *)
Definition clients_resolved (orders clients : list record) : Prop :=
  forall o, In o orders ->
    exists c, In c clients
              /\ field c "id" = field o "clientId"
              /\ field c "name" = field o "clientName".

Definition clients_resolved_b (orders clients : list record) : bool :=
  forallb (fun o =>
             existsb (fun c => bool_decide (field c "id" = field o "clientId")
                               && bool_decide (field c "name" = field o "clientName"))
                     clients) orders.

End Derived.

(** * Properties *)

Import JS Script Notions Domain.

(** ** Pagination *)

Lemma clamp_index_nonneg (len i : Z) :
  0 <= len -> 0 <= i -> clamp_index len i = Z.min i len.
Proof.
  intros Hlen Hi. unfold clamp_index.
  destruct (Z.ltb_spec i 0); [lia | reflexivity].
Qed.

Lemma slice_take_drop {A} (l : list A) (start count : Z) :
  0 <= start -> 0 <= count ->
  slice l start (start + count) = take (Z.to_nat count) (drop (Z.to_nat start) l).
Proof.
  intros Hs Hc. unfold slice.
  set (len := Z.of_nat (length l)).
  assert (Hlen : 0 <= len) by (subst len; lia).
  rewrite !clamp_index_nonneg by lia.
  destruct (Z_lt_le_dec start len) as [Hlt | Hge].
  - rewrite (Z.min_l start len) by lia.
    assert (Hd : length (drop (Z.to_nat start) l) = Z.to_nat (len - start)).
    { rewrite length_drop. subst len. lia. }
    destruct (Z_le_gt_dec (start + count) len) as [Hin | Hout].
    + f_equal. lia.
    + rewrite (Z.min_r (start + count) len) by lia.
      rewrite !take_ge; [reflexivity | lia | lia].
  - rewrite (drop_ge l (Z.to_nat (Z.min start len))) by (subst len; lia).
    rewrite (drop_ge l (Z.to_nat start)) by (subst len; lia).
    by rewrite !take_nil.
Qed.

Lemma totalPages_exceeded (total pageSize p : Z) :
  0 < pageSize -> totalPages total pageSize < p -> total <= (p - 1) * pageSize.
Proof.
  unfold totalPages. intros Hps Hp.
  pose proof (Z.mul_div_le (- total) pageSize Hps) as Hle.
  nia.
Qed.

(** C1. For a 1-indexed page number [p] and a positive page size, the page
    cut is the run of at most [pageSize] records that starts at the
    zero-indexed offset [(p - 1) * pageSize]; beyond the last page it is
    empty, the page number is not clamped. *)
Theorem C1_pagination_slice (data : list record) (p pageSize : Z) :
  1 <= p -> 0 < pageSize ->
  paginatedData data p pageSize
    = take (Z.to_nat pageSize) (drop (Z.to_nat ((p - 1) * pageSize)) data)
  /\ (forall i : nat,
        paginatedData data p pageSize !! i
        = if decide (Z.of_nat i < pageSize)
          then data !! (Z.to_nat ((p - 1) * pageSize) + i)%nat
          else None)
  /\ Z.of_nat (length (paginatedData data p pageSize)) <= pageSize
  /\ (totalPages (Z.of_nat (length data)) pageSize < p ->
      paginatedData data p pageSize = []).
Proof.
  intros Hp Hps.
  assert (Heq : paginatedData data p pageSize
    = take (Z.to_nat pageSize) (drop (Z.to_nat ((p - 1) * pageSize)) data)).
  { unfold paginatedData. apply slice_take_drop; nia. }
  split; [exact Heq |]. rewrite Heq. repeat split.
  - intros i. case_decide as Hi.
    + rewrite lookup_take_lt by lia. by rewrite lookup_drop.
    + apply lookup_take_ge. lia.
  - rewrite length_take. lia.
  - intros Hlast. apply totalPages_exceeded in Hlast; [| exact Hps].
    rewrite drop_ge by lia. apply take_nil.
Qed.

Lemma C1_pagination_slice_witness :
  let data : list record := [ {[ "id" := VNum (of_Z 1) ]}; {[ "id" := VNum (of_Z 2) ]};
                              {[ "id" := VNum (of_Z 3) ]} ] in
  paginatedData data 2 2 = [ {[ "id" := VNum (of_Z 3) ]} ]
  /\ paginatedData data 3 2 = [].
Proof.
  intros data. split.
  - rewrite (proj1 (C1_pagination_slice data 2 2 ltac:(lia) ltac:(lia))). reflexivity.
  - apply (C1_pagination_slice data 3 2 ltac:(lia) ltac:(lia)). vm_compute. reflexivity.
Defined.

(** ** Sorting *)

Section StableSort.
Context {A : Type}.
Variable cmp : A -> A -> result Z.
(** The comparator returns on every pair. *)
Hypothesis cmp_total : forall a b, exists z, cmp a b = Ok z.

Lemma insert_by_returns (x : A) (l : list A) :
  exists l', insert_by cmp x l = Ok l' /\ Permutation (x :: l) l'.
Proof.
  induction l as [| y l IH]; simpl.
  - eexists; split; [reflexivity | done].
  - destruct (cmp_total x y) as [c ->]. simpl.
    destruct (c <=? 0).
    + eexists; split; [reflexivity | done].
    + destruct IH as (r & -> & Hp). simpl.
      eexists; split; [reflexivity |].
      rewrite <- Hp. apply perm_swap.
Qed.

Lemma Array_sort_returns (l : list A) :
  exists l', Array_sort cmp l = Ok l' /\ Permutation l l'.
Proof.
  induction l as [| x l IH]; simpl.
  - eexists; split; [reflexivity | done].
  - destruct IH as (s & -> & Hp). simpl.
    destruct (insert_by_returns x s) as (r & Hr & Hpr).
    exists r; split; [exact Hr |].
    rewrite <- Hpr. by constructor.
Qed.

(** Inserting [x] does not move it behind an element of the class [P]
    when [x] compares equal to the members of [P]. *)
Lemma insert_by_filter (P : A -> bool) (x : A) (l l' : list A) :
  (forall y, In y l -> P x = true -> P y = true -> cmp x y = Ok 0) ->
  insert_by cmp x l = Ok l' ->
  List.filter P l' = List.filter P (x :: l).
Proof.
  revert l'. induction l as [| y l IH]; intros l' Heq Hins; simpl in Hins.
  - by inversion Hins.
  - destruct (cmp x y) as [c |] eqn:Hc; simpl in Hins; [| discriminate].
    destruct (Z.leb_spec c 0) as [Hle | Hgt].
    + by inversion Hins.
    + destruct (insert_by cmp x l) as [r |] eqn:Hr; simpl in Hins; [| discriminate].
      inversion Hins; subst l'; clear Hins.
      specialize (IH r (fun z Hz => Heq z (or_intror Hz)) eq_refl).
      simpl in *. rewrite IH.
      destruct (P x) eqn:Hx, (P y) eqn:Hy; try reflexivity.
      specialize (Heq y (or_introl eq_refl) eq_refl Hy).
      rewrite Hc in Heq. inversion Heq. lia.
Qed.

Lemma Array_sort_filter (P : A -> bool) (l l' : list A) :
  (forall a b, In a l -> In b l -> P a = true -> P b = true -> cmp a b = Ok 0) ->
  Array_sort cmp l = Ok l' ->
  List.filter P l' = List.filter P l.
Proof.
  revert l'. induction l as [| x l IH]; intros l' Heq Hs; simpl in Hs.
  - by inversion Hs.
  - destruct (Array_sort cmp l) as [s |] eqn:Hsl; simpl in Hs; [| discriminate].
    destruct (Array_sort_returns l) as (s' & Hs' & Hperm).
    assert (s' = s) by congruence; subst s'.
    rewrite (insert_by_filter P x s l').
    + simpl. rewrite (IH s); [reflexivity | | reflexivity].
      intros a b Ha Hb. apply Heq; by right.
    + intros y Hy. apply Heq; [by left |].
      right. apply (Permutation_in y (Permutation_sym Hperm) Hy).
    + exact Hs.
Qed.

(** On elements among which the comparator is transitive and total the
    result is in order. *)
Variable P : A -> Prop.
Hypothesis cmp_trans : forall a b c,
  P a -> P b -> P c -> not_after cmp a b -> not_after cmp b c -> not_after cmp a c.
Hypothesis cmp_connected : forall a b,
  P a -> P b -> not_after cmp a b \/ not_after cmp b a.

Lemma insert_by_sorted (x : A) (l l' : list A) :
  P x -> Forall P l -> StronglySorted (not_after cmp) l ->
  insert_by cmp x l = Ok l' ->
  StronglySorted (not_after cmp) l'.
Proof.
  intros Hx. revert l'. induction l as [| y l IH]; intros l' HP Hsorted Hins;
    simpl in Hins.
  - inversion Hins; subst. repeat constructor.
  - apply Forall_cons in HP as [Hy HP].
    apply StronglySorted_inv in Hsorted as [Hsorted Hall].
    destruct (cmp x y) as [c |] eqn:Hc; simpl in Hins; [| discriminate].
    destruct (Z.leb_spec c 0) as [Hle | Hgt].
    + inversion Hins; subst l'; clear Hins.
      assert (Hxy : not_after cmp x y) by (by exists c).
      constructor; [by constructor |].
      constructor; [exact Hxy |].
      rewrite Forall_forall in Hall, HP. apply Forall_forall.
      intros z Hz. apply (cmp_trans x y z); auto.
    + destruct (insert_by cmp x l) as [r |] eqn:Hr; simpl in Hins; [| discriminate].
      inversion Hins; subst l'; clear Hins.
      constructor; [by apply IH |].
      destruct (insert_by_returns x l) as (r' & Hr' & Hperm).
      assert (r' = r) by congruence; subst r'.
      rewrite <- Hperm. constructor; [| exact Hall].
      destruct (cmp_connected x y Hx Hy) as [(z & Hz & Hle) | Hyx]; [| exact Hyx].
      rewrite Hc in Hz. inversion Hz. lia.
Qed.

Lemma Array_sort_sorted (l l' : list A) :
  Forall P l -> Array_sort cmp l = Ok l' -> StronglySorted (not_after cmp) l'.
Proof.
  revert l'. induction l as [| x l IH]; intros l' HP Hs; simpl in Hs.
  - inversion Hs. constructor.
  - apply Forall_cons in HP as [Hx HP].
    destruct (Array_sort_returns l) as (s & Hsl & Hperm).
    rewrite Hsl in Hs. simpl in Hs.
    apply (insert_by_sorted x s l'); [exact Hx | | by apply IH | exact Hs].
    by rewrite <- Hperm.
Qed.

End StableSort.


(** *** Consistent comparators

    On the elements of [l] a consistent comparator is a total preorder,
    and the arrangement of [l] that is ordered and keeps the elements
    that compare equal in their order is unique: it is what every
    stable sort returns. *)
Section Consistent.
Context {A : Type} `{EqDecision A}.
Variable cmp : A -> A -> result Z.
Variable l : list A.
Hypothesis cmp_consistent : consistent cmp l.

Lemma consistent_negative (a b : A) (x : Z) :
  In a l -> In b l -> cmp a b = Ok x -> x < 0 ->
  exists y, cmp b a = Ok y /\ 0 < y.
Proof.
  destruct cmp_consistent as (Hret & Hrefl & Hsym & _ & Hneg & _).
  intros Ha Hb Hab Hx.
  destruct (Hret b a Hb Ha) as (y & Hy). exists y. split; [exact Hy |].
  destruct (Z.lt_total y 0) as [Hlt | [-> | Hgt]]; [| | exact Hgt].
  - destruct (Hneg a b a x y Ha Hb Ha Hab Hx Hy Hlt) as (z & Hz & Hz0).
    rewrite (Hrefl a Ha) in Hz. inversion Hz. lia.
  - rewrite (Hsym b a Hb Ha Hy) in Hab. inversion Hab. lia.
Qed.

Lemma consistent_positive (a b : A) (x : Z) :
  In a l -> In b l -> cmp a b = Ok x -> 0 < x ->
  exists y, cmp b a = Ok y /\ y < 0.
Proof.
  destruct cmp_consistent as (Hret & Hrefl & Hsym & _ & _ & Hpos).
  intros Ha Hb Hab Hx.
  destruct (Hret b a Hb Ha) as (y & Hy). exists y. split; [exact Hy |].
  destruct (Z.lt_total y 0) as [Hlt | [-> | Hgt]]; [exact Hlt | |].
  - rewrite (Hsym b a Hb Ha Hy) in Hab. inversion Hab. lia.
  - destruct (Hpos a b a x y Ha Hb Ha Hab Hx Hy Hgt) as (z & Hz & Hz0).
    rewrite (Hrefl a Ha) in Hz. inversion Hz. lia.
Qed.

Lemma consistent_connected (a b : A) :
  In a l -> In b l -> not_after cmp a b \/ not_after cmp b a.
Proof.
  intros Ha Hb.
  destruct cmp_consistent as (Hret & _).
  destruct (Hret a b Ha Hb) as (x & Hx).
  destruct (Z.le_gt_cases x 0) as [Hle | Hgt]; [left; by exists x |].
  destruct (consistent_positive a b x Ha Hb Hx Hgt) as (y & Hy & Hy0).
  right. exists y. split; [exact Hy | lia].
Qed.

(** Two elements neither of which comes after the other compare
    equal. *)
Lemma consistent_both (a b : A) :
  In a l -> In b l -> not_after cmp a b -> not_after cmp b a ->
  cmp a b = Ok 0.
Proof.
  intros Ha Hb (x & Hx & Hx0) (y & Hy & Hy0).
  destruct (Z.eq_dec x 0) as [-> | Hne]; [exact Hx |].
  destruct (consistent_negative a b x Ha Hb Hx) as (y' & Hy' & Hpos); [lia |].
  rewrite Hy in Hy'. inversion Hy'. lia.
Qed.

Lemma consistent_trans (a b c : A) :
  In a l -> In b l -> In c l ->
  not_after cmp a b -> not_after cmp b c -> not_after cmp a c.
Proof.
  intros Ha Hb Hc (x & Hx & Hx0) (y & Hy & Hy0).
  destruct cmp_consistent as (Hret & Hrefl & Hsym & Hzero & Hneg & Hpos).
  destruct (Hret a c Ha Hc) as (z & Hz).
  destruct (Z.le_gt_cases z 0) as [Hle | Hgt]; [by exists z |].
  exfalso.
  (* [c] comes strictly before [a] *)
  destruct (consistent_positive a c z Ha Hc Hz Hgt) as (w & Hw & Hw0).
  destruct (Z.eq_dec x 0) as [-> | Hxne], (Z.eq_dec y 0) as [-> | Hyne].
  - rewrite (Hzero a b c Ha Hb Hc Hx Hy) in Hz. inversion Hz. lia.
  - (* a = b < c < a *)
    destruct (Hneg b c a y w Hb Hc Ha Hy ltac:(lia) Hw Hw0) as (u & Hu & Hu0).
    rewrite (Hsym a b Ha Hb Hx) in Hu. inversion Hu. lia.
  - (* c < a < b = c *)
    destruct (Hneg c a b w x Hc Ha Hb Hw Hw0 Hx ltac:(lia)) as (u & Hu & Hu0).
    rewrite (Hsym b c Hb Hc Hy) in Hu. inversion Hu. lia.
  - destruct (Hneg a b c x y Ha Hb Hc Hx ltac:(lia) Hy ltac:(lia)) as (u & Hu & Hu0).
    rewrite Hz in Hu. inversion Hu. lia.
Qed.

(** There is one ordered arrangement that keeps the elements that
    compare equal in their order. *)
Lemma stable_order_unique (l1 l2 : list A) :
  (forall x, In x l1 -> In x l) ->
  Permutation l1 l2 ->
  StronglySorted (not_after cmp) l1 ->
  StronglySorted (not_after cmp) l2 ->
  (forall a b, cmp a b = Ok 0 ->
     List.filter (fun r => bool_decide (r = a \/ r = b)) l1
     = List.filter (fun r => bool_decide (r = a \/ r = b)) l2) ->
  l1 = l2.
Proof.
  revert l2. induction l1 as [| x t1 IH]; intros l2 Hin Hperm Hs1 Hs2 Hst.
  - by apply Permutation_nil in Hperm.
  - destruct l2 as [| y t2];
      [by apply Permutation_sym, Permutation_nil in Hperm |].
    apply StronglySorted_inv in Hs1 as [Hs1 Hx].
    apply StronglySorted_inv in Hs2 as [Hs2 Hy].
    rewrite Forall_forall in Hx, Hy.
    assert (Hxl : In x l) by (apply Hin; by left).
    assert (Hyl : In y l).
    { apply Hin. apply (Permutation_in y (Permutation_sym Hperm)). by left. }
    assert (Heq : x = y).
    { destruct (decide (x = y)) as [He | Hne]; [exact He |].
      assert (Hyt : In y t1).
      { destruct (Permutation_in y (Permutation_sym Hperm) (or_introl eq_refl))
          as [He | Hy1]; [congruence | exact Hy1]. }
      assert (Hxt : In x t2).
      { destruct (Permutation_in x Hperm (or_introl eq_refl))
          as [He | Hx2]; [congruence | exact Hx2]. }
      apply list_elem_of_In in Hyt, Hxt.
      specialize (Hst x y (consistent_both x y Hxl Hyl (Hx y Hyt) (Hy x Hxt))).
      simpl in Hst.
      rewrite (bool_decide_eq_true_2 (x = x \/ x = y)) in Hst by (by left).
      rewrite (bool_decide_eq_true_2 (y = x \/ y = y)) in Hst by (by right).
      by inversion Hst. }
    subst y. f_equal.
    apply IH; [| by apply Permutation_cons_inv in Hperm | exact Hs1 | exact Hs2 |].
    + intros z Hz. apply Hin. by right.
    + intros a b Hab. specialize (Hst a b Hab). simpl in Hst.
      destruct (bool_decide (x = a \/ x = b)); [by inversion Hst | exact Hst].
Qed.

(** In an ordered list where [x] stands before [y] and [y] before [z],
    with no other occurrence of the three, [x] does not come after
    [z]. *)
Lemma ordered_pairs (R : A -> A -> Prop) (x y z : A) (out : list A) :
  x <> y -> y <> z -> x <> z ->
  StronglySorted R out ->
  List.filter (fun r => bool_decide (r = x \/ r = y)) out = [x; y] ->
  List.filter (fun r => bool_decide (r = y \/ r = z)) out = [y; z] ->
  R x z.
Proof.
  intros Hxy Hyz Hxz. induction out as [| h t IH]; intros Hs H1 H2;
    [discriminate H1 |].
  apply StronglySorted_inv in Hs as [Hs Hh].
  cbn [List.filter] in H1, H2.
  destruct (decide (h = x)) as [-> | Hhx].
  - rewrite (bool_decide_eq_false_2 (x = y \/ x = z)) in H2 by (intros [? | ?]; congruence).
    assert (Hz : In z (List.filter (fun r => bool_decide (r = y \/ r = z)) t)).
    { rewrite H2. right. by left. }
    apply filter_In in Hz as [Hz _].
    rewrite Forall_forall in Hh. apply Hh. by apply list_elem_of_In.
  - destruct (decide (h = y)) as [-> | Hhy].
    + rewrite (bool_decide_eq_true_2 (y = x \/ y = y)) in H1 by (by right).
      inversion H1. congruence.
    + rewrite (bool_decide_eq_false_2 (h = x \/ h = y)) in H1
        by (intros [? | ?]; congruence).
      destruct (decide (h = z)) as [-> | Hhz].
      * rewrite (bool_decide_eq_true_2 (z = y \/ z = z)) in H2 by (by right).
        inversion H2. congruence.
      * rewrite (bool_decide_eq_false_2 (h = y \/ h = z)) in H2
          by (intros [? | ?]; congruence).
        by apply IH.
Qed.

Hypothesis cmp_total : forall a b, exists z, cmp a b = Ok z.

(** The insertion sort returns that arrangement. *)
Lemma Array_sort_consistent (l' : list A) :
  Array_sort cmp l = Ok l' ->
  Permutation l l'
  /\ StronglySorted (not_after cmp) l'
  /\ (forall a b, cmp a b = Ok 0 ->
        List.filter (fun r => bool_decide (r = a \/ r = b)) l'
        = List.filter (fun r => bool_decide (r = a \/ r = b)) l)
  /\ (forall out,
        Permutation l out ->
        StronglySorted (not_after cmp) out ->
        (forall a b, cmp a b = Ok 0 ->
           List.filter (fun r => bool_decide (r = a \/ r = b)) out
           = List.filter (fun r => bool_decide (r = a \/ r = b)) l) ->
        out = l').
Proof.
  intros Hs.
  destruct (Array_sort_returns cmp cmp_total l) as (s & Hs' & Hperm).
  assert (s = l') by congruence; subst s.
  assert (Hsorted : StronglySorted (not_after cmp) l').
  { apply (Array_sort_sorted cmp cmp_total (fun a => In a l)
             consistent_trans consistent_connected l l'); [| exact Hs].
    apply Forall_forall. intros x Hx. by apply list_elem_of_In. }
  assert (Hstable : forall a b, cmp a b = Ok 0 ->
            List.filter (fun r => bool_decide (r = a \/ r = b)) l'
            = List.filter (fun r => bool_decide (r = a \/ r = b)) l).
  { intros a b Hab.
    apply (Array_sort_filter cmp cmp_total); [| exact Hs].
    destruct cmp_consistent as (_ & Hrefl & Hsym & _).
    intros x y Hx Hy Hxa Hyb.
    apply bool_decide_eq_true in Hxa, Hyb.
    destruct Hxa as [-> | ->], Hyb as [-> | ->]; auto. }
  split; [exact Hperm |]. split; [exact Hsorted |]. split; [exact Hstable |].
  intros out Hpo Hso Hsto.
  apply stable_order_unique; [| | exact Hso | exact Hsorted |].
  - intros x Hx. apply (Permutation_in x (Permutation_sym Hpo) Hx).
  - by rewrite <- Hpo.
  - intros a b Hab. by rewrite (Hsto a b Hab), (Hstable a b Hab).
Qed.

End Consistent.

Lemma Qltb_irrefl (q : Q) : Qltb q q = false.
Proof. unfold Qltb. apply Z.ltb_irrefl. Qed.

Lemma num_ltb_irrefl (n : number) : num_ltb n n = false.
Proof. destruct n; simpl; auto using Qltb_irrefl. Qed.

Lemma str_ltb_irrefl (s : string) : str_ltb s s = false.
Proof.
  induction s as [| c s IH]; simpl; [reflexivity |].
  by rewrite Z.ltb_irrefl.
Qed.

Lemma lt_irrefl (v : jsval) : lt v v = false.
Proof.
  destruct v; unfold lt;
    first [apply str_ltb_irrefl | apply num_ltb_irrefl].
Qed.

Lemma comparator_unfold (column direction : string) (a b : record) :
  comparator column direction a b =
  Ok (verdict direction
        (lt (sort_key (field a column) (field b column))
            (sort_key (field b column) (field a column)))
        (lt (sort_key (field b column) (field a column))
            (sort_key (field a column) (field b column)))).
Proof.
  unfold comparator, sort_key, verdict.
  rewrite (andb_comm (negb (isNaN (field b column)))).
  destruct (negb (isNaN (field a column)) && negb (isNaN (field b column))).
  - simpl. by repeat case_match.
  - destruct (field a column), (field b column); simpl; by repeat case_match.
Qed.

Lemma comparator_total (column direction : string) (a b : record) :
  exists z, comparator column direction a b = Ok z.
Proof. rewrite comparator_unfold. eauto. Qed.

Lemma comparator_refl (column direction : string) (a : record) :
  comparator column direction a a = Ok 0.
Proof. rewrite comparator_unfold. simpl. by rewrite lt_irrefl. Qed.

Lemma comparator_zero (column direction : string) (a b : record) :
  comparator column direction a b = Ok 0 <->
  lt (sort_key (field a column) (field b column))
     (sort_key (field b column) (field a column)) = false /\
  lt (sort_key (field b column) (field a column))
     (sort_key (field a column) (field b column)) = false.
Proof.
  rewrite comparator_unfold. unfold verdict. simpl.
  destruct (lt _ _), (lt _ _), (String.eqb direction "asc"); split;
    intros H; try (destruct H; discriminate); try (inversion H); auto.
Qed.

Lemma comparator_zero_sym (column direction : string) (a b : record) :
  comparator column direction a b = Ok 0 ->
  comparator column direction b a = Ok 0.
Proof. rewrite !comparator_zero. tauto. Qed.

Lemma sortData_returns (data : list record) (column direction : string) :
  exists out, sortData data column direction = Ok out /\ Permutation data out.
Proof. apply Array_sort_returns, comparator_total. Qed.

Lemma comparator_numeric (column direction : string) (a b : record) :
  isNaN (field a column) = false -> isNaN (field b column) = false ->
  comparator column direction a b
  = Ok (verdict direction
          (num_ltb (parseFloat (field a column)) (parseFloat (field b column)))
          (num_ltb (parseFloat (field b column)) (parseFloat (field a column)))).
Proof.
  intros Ha Hb. rewrite comparator_unfold. unfold sort_key.
  rewrite Ha, Hb. reflexivity.
Qed.

Lemma Qltb_lt (x y : Q) : Qltb x y = true <-> (x < y)%Q.
Proof. unfold Qltb, Qlt. apply Z.ltb_lt. Qed.

Lemma Qltb_ge (x y : Q) : Qltb x y = false <-> (y <= x)%Q.
Proof.
  rewrite <- not_true_iff_false, Qltb_lt. split; [apply Qnot_lt_le | apply Qle_not_lt].
Qed.

(** The sign of the comparator on two finite Numbers. *)
Lemma comparator_numbers (column direction : string) (a b : record) (x y : Q) :
  field a column = VNum (Fin x) -> field b column = VNum (Fin y) ->
  exists z,
    comparator column direction a b = Ok z
    /\ (z = 0 <-> (x == y)%Q)
    /\ (z < 0 <-> if String.eqb direction "asc" then (x < y)%Q else (y < x)%Q)
    /\ (0 < z <-> if String.eqb direction "asc" then (y < x)%Q else (x < y)%Q).
Proof.
  intros Ha Hb.
  rewrite comparator_numeric by (by rewrite ?Ha, ?Hb).
  rewrite Ha, Hb. cbn [parseFloat num_ltb].
  eexists; split; [reflexivity |]. unfold verdict.
  destruct (Qlt_le_dec x y) as [Hxy | Hyx].
  - rewrite (proj2 (Qltb_lt x y) Hxy).
    destruct (String.eqb direction "asc"); repeat split; intros; try lia; try lra.
  - rewrite (proj2 (Qltb_ge x y) Hyx).
    destruct (Qlt_le_dec y x) as [Hlt | Hle].
    + rewrite (proj2 (Qltb_lt y x) Hlt).
      destruct (String.eqb direction "asc"); repeat split; intros; try lia; try lra.
    + rewrite (proj2 (Qltb_ge y x) Hle).
      destruct (String.eqb direction "asc"); repeat split; intros; try lia; try lra.
Qed.

(** On a column that holds a finite Number in every record the comparator
    is consistent. *)
Lemma comparator_consistent_numbers (data : list record) (column direction : string) :
  Forall (numeric_at column) data ->
  consistent (comparator column direction) data.
Proof.
  intros Hnum. rewrite Forall_forall in Hnum.
  assert (Hat : forall a, In a data -> exists x, field a column = VNum (Fin x)).
  { intros a Ha. apply Hnum. by apply list_elem_of_In. }
  split; [intros a b _ _; apply comparator_total |].
  split; [intros a _; apply comparator_refl |].
  split; [intros a b _ _; apply comparator_zero_sym |].
  split; [| split].
  - intros a b c Ha Hb Hc Hab Hbc.
    destruct (Hat a Ha) as (x & Hx), (Hat b Hb) as (y & Hy), (Hat c Hc) as (z & Hz).
    destruct (comparator_numbers column direction a b x y Hx Hy) as (u & Hu & Hu0 & _).
    destruct (comparator_numbers column direction b c y z Hy Hz) as (v & Hv & Hv0 & _).
    destruct (comparator_numbers column direction a c x z Hx Hz) as (w & Hw & Hw0 & _).
    rewrite Hu in Hab. rewrite Hv in Hbc. inversion Hab; inversion Hbc; subst u v.
    rewrite Hw. f_equal. apply Hw0.
    rewrite (proj1 Hu0 eq_refl). apply Hv0. reflexivity.
  - intros a b c u v Ha Hb Hc Hab Hu Hbc Hv.
    destruct (Hat a Ha) as (x & Hx), (Hat b Hb) as (y & Hy), (Hat c Hc) as (z & Hz).
    destruct (comparator_numbers column direction a b x y Hx Hy) as (u' & Hu' & _ & Hun & _).
    destruct (comparator_numbers column direction b c y z Hy Hz) as (v' & Hv' & _ & Hvn & _).
    destruct (comparator_numbers column direction a c x z Hx Hz) as (w & Hw & _ & Hwn & _).
    rewrite Hu' in Hab. rewrite Hv' in Hbc. inversion Hab; inversion Hbc; subst u' v'.
    exists w. split; [exact Hw |]. apply Hwn.
    apply Hun in Hu. apply Hvn in Hv.
    destruct (String.eqb direction "asc"); lra.
  - intros a b c u v Ha Hb Hc Hab Hu Hbc Hv.
    destruct (Hat a Ha) as (x & Hx), (Hat b Hb) as (y & Hy), (Hat c Hc) as (z & Hz).
    destruct (comparator_numbers column direction a b x y Hx Hy) as (u' & Hu' & _ & _ & Hup).
    destruct (comparator_numbers column direction b c y z Hy Hz) as (v' & Hv' & _ & _ & Hvp).
    destruct (comparator_numbers column direction a c x z Hx Hz) as (w & Hw & _ & _ & Hwp).
    rewrite Hu' in Hab. rewrite Hv' in Hbc. inversion Hab; inversion Hbc; subst u' v'.
    exists w. split; [exact Hw |]. apply Hwp.
    apply Hup in Hu. apply Hvp in Hv.
    destruct (String.eqb direction "asc"); lra.
Qed.




Lemma field_singleton (k : string) (v : jsval) : field {[ k := v ]} k = v.
Proof. unfold field. by rewrite lookup_singleton_eq. Qed.

Lemma comparator_strings (column direction : string) (a b : record) (s t : string) :
  field a column = VStr s -> field b column = VStr t ->
  isNaN (VStr s) || isNaN (VStr t) = true ->
  comparator column direction a b
  = Ok (verdict direction
          (str_ltb (toLowerCase s) (toLowerCase t))
          (str_ltb (toLowerCase t) (toLowerCase s))).
Proof.
  intros Ha Hb Hnan. rewrite comparator_unfold. unfold sort_key.
  rewrite Ha, Hb.
  assert (negb (isNaN (VStr s)) && negb (isNaN (VStr t)) = false) as ->.
  { destruct (isNaN (VStr s)), (isNaN (VStr t)); done. }
  assert (negb (isNaN (VStr t)) && negb (isNaN (VStr s)) = false) as ->.
  { destruct (isNaN (VStr s)), (isNaN (VStr t)); done. }
  reflexivity.
Qed.

Lemma not_after_numeric (column direction : string) (a b : record) (x y : Q) :
  field a column = VNum (Fin x) -> field b column = VNum (Fin y) ->
  not_after (comparator column direction) a b <->
  if String.eqb direction "asc" then (x <= y)%Q else (y <= x)%Q.
Proof.
  intros Ha Hb. unfold not_after.
  rewrite comparator_numeric by (by rewrite ?Ha, ?Hb).
  rewrite Ha, Hb. cbn [parseFloat num_ltb].
  set (v := verdict direction (Qltb x y) (Qltb y x)).
  transitivity (v <= 0).
  { split; [intros (z & Hz & Hle); inversion Hz; by subst | intros; by exists v]. }
  subst v. unfold verdict.
  destruct (Qlt_le_dec x y) as [Hxy | Hyx].
  - rewrite (proj2 (Qltb_lt x y) Hxy).
    destruct (String.eqb direction "asc").
    + split; [intros _; by apply Qlt_le_weak | lia].
    + split; [lia | intros Hle; exfalso; by apply (Qlt_not_le x y)].
  - rewrite (proj2 (Qltb_ge x y) Hyx).
    destruct (Qlt_le_dec y x) as [Hlt | Hle].
    + rewrite (proj2 (Qltb_lt y x) Hlt).
      destruct (String.eqb direction "asc").
      * split; [lia | intros Hxy; exfalso; by apply (Qlt_not_le y x)].
      * split; [done | lia].
    + rewrite (proj2 (Qltb_ge y x) Hle).
      destruct (String.eqb direction "asc"); split; (done || lia).
Qed.

(** On a column of finite Numbers the result of [sortData] is in the order
    that the direction asks for. *)
Lemma sortData_sorted_numbers (data out : list record) (column direction : string) :
  Forall (numeric_at column) data ->
  sortData data column direction = Ok out ->
  StronglySorted (not_after (comparator column direction)) out.
Proof.
  apply (Array_sort_sorted (comparator column direction)
           (comparator_total column direction) (numeric_at column)).
  - intros a b c (x & Hx) (y & Hy) (z & Hz).
    rewrite (not_after_numeric _ _ a b x y Hx Hy),
            (not_after_numeric _ _ b c y z Hy Hz),
            (not_after_numeric _ _ a c x z Hx Hz).
    destruct (String.eqb direction "asc"); intros H1 H2;
      [exact (Qle_trans _ _ _ H1 H2) | exact (Qle_trans _ _ _ H2 H1)].
  - intros a b (x & Hx) (y & Hy).
    rewrite (not_after_numeric _ _ a b x y Hx Hy),
            (not_after_numeric _ _ b a y x Hy Hx).
    destruct (String.eqb direction "asc");
      destruct (Qlt_le_dec x y) as [Hlt | Hle]; auto using Qlt_le_weak.
Qed.

(** Sorting three one-field records whose values are strings, on the
    column that holds them. *)
Ltac sort_singletons :=
  unfold sortData; cbn [Array_sort insert_by bind];
  repeat (rewrite comparator_unfold, !field_singleton;
          match goal with
          | |- context [verdict ?d ?l ?g] =>
              let z := eval vm_compute in (verdict d l g) in
              change (verdict d l g) with z
          end;
          cbn [Array_sort insert_by bind Z.leb Z.compare]);
  reflexivity.

Lemma sort_numeric_strings (column : string) :
  sortData [ {[ column := VStr "10" ]}; {[ column := VStr "2" ]};
             {[ column := VStr "1" ]} ] column "asc"
  = Ok [ {[ column := VStr "1" ]}; {[ column := VStr "2" ]};
         {[ column := VStr "10" ]} ].
Proof. sort_singletons. Qed.

Lemma sort_text_strings (column : string) :
  sortData [ {[ column := VStr "b10" ]}; {[ column := VStr "B2" ]};
             {[ column := VStr "b1" ]} ] column "asc"
  = Ok [ {[ column := VStr "b1" ]}; {[ column := VStr "b10" ]};
         {[ column := VStr "B2" ]} ].
Proof. sort_singletons. Qed.

(** C4, as stated, fails: on the text column [name] the values 10, 2, 1
    are still sorted numerically, not as 1, 10, 2; and a string that does
    not parse, met with a Number, compares equal to it instead of being
    ordered as text. *)
Lemma C4_counterexample :
  sortData [ {[ "name" := VStr "10" ]}; {[ "name" := VStr "2" ]};
             {[ "name" := VStr "1" ]} ] "name" "asc"
  = Ok [ {[ "name" := VStr "1" ]}; {[ "name" := VStr "2" ]};
         {[ "name" := VStr "10" ]} ]
  /\ sortData [ {[ "name" := VStr "10" ]}; {[ "name" := VStr "2" ]};
                {[ "name" := VStr "1" ]} ] "name" "asc"
     <> Ok [ {[ "name" := VStr "1" ]}; {[ "name" := VStr "10" ]};
             {[ "name" := VStr "2" ]} ]
  /\ comparator "name" "asc" {[ "name" := VStr "abc" ]} {[ "name" := VNum (of_Z 5) ]}
     = Ok 0
  /\ str_ltb "5" "abc" = true.
Proof.
  split; [vm_compute; reflexivity |].
  split; [| split; vm_compute; reflexivity].
  intros H.
  assert (Hk : (fun r => match r with
                         | Ok (x :: _ :: _) => field x "name"
                         | _ => VUndef
                         end)
                 (sortData [ {[ "name" := VStr "10" ]}; {[ "name" := VStr "2" ]};
                             {[ "name" := VStr "1" ]} ] "name" "asc")
               = VStr "1") by (vm_compute; reflexivity).
  assert (Hm : (fun r => match r with
                         | Ok (_ :: y :: _) => field y "name"
                         | _ => VUndef
                         end)
                 (sortData [ {[ "name" := VStr "10" ]}; {[ "name" := VStr "2" ]};
                             {[ "name" := VStr "1" ]} ] "name" "asc")
               = VStr "2") by (vm_compute; reflexivity).
  rewrite H in Hm. vm_compute in Hm. discriminate Hm.
Qed.

(** C4, amended. Two values neither of which is NaN under [isNaN] are
    compared by their [parseFloat] values; two strings of which one is NaN
    under [isNaN] are compared in case-insensitive code-unit order.  The
    comparator knows no kind of field: on every column the values 10, 2, 1
    come out as 1, 2, 10, and values that do not parse, as b10, B2, b1,
    come out in text order b1, b10, B2.  The values are those that are
    read without rounding and the strings are plain text. *)
Theorem C4_comparator_numeric_or_text :
  (forall (column direction : string) (a b : record),
     exactly_read (field a column) = true -> exactly_read (field b column) = true ->
     isNaN (field a column) = false -> isNaN (field b column) = false ->
     comparator column direction a b
     = Ok (verdict direction
             (num_ltb (parseFloat (field a column)) (parseFloat (field b column)))
             (num_ltb (parseFloat (field b column)) (parseFloat (field a column)))))
  /\ (forall (column direction : string) (a b : record) (s t : string),
        plain_text s = true -> plain_text t = true ->
        field a column = VStr s -> field b column = VStr t ->
        isNaN (VStr s) || isNaN (VStr t) = true ->
        comparator column direction a b
        = Ok (verdict direction
                (str_ltb (toLowerCase s) (toLowerCase t))
                (str_ltb (toLowerCase t) (toLowerCase s))))
  /\ (forall column : string,
        sortData [ {[ column := VStr "10" ]}; {[ column := VStr "2" ]};
                   {[ column := VStr "1" ]} ] column "asc"
        = Ok [ {[ column := VStr "1" ]}; {[ column := VStr "2" ]};
               {[ column := VStr "10" ]} ])
  /\ (forall column : string,
        sortData [ {[ column := VStr "b10" ]}; {[ column := VStr "B2" ]};
                   {[ column := VStr "b1" ]} ] column "asc"
        = Ok [ {[ column := VStr "b1" ]}; {[ column := VStr "b10" ]};
               {[ column := VStr "B2" ]} ]).
Proof.
  split; [intros column direction a b _ _; apply comparator_numeric |].
  split; [intros column direction a b s t _ _; apply comparator_strings |].
  split; [exact sort_numeric_strings | exact sort_text_strings].
Qed.

Lemma C4_comparator_numeric_or_text_witness :
  comparator "amount" "asc" {[ "amount" := VStr "10" ]} {[ "amount" := VNum (of_Z 2) ]}
  = Ok 1
  /\ comparator "name" "asc" {[ "name" := VStr "Zoe" ]} {[ "name" := VStr "adam" ]}
     = Ok 1.
Proof.
  destruct C4_comparator_numeric_or_text as (Hnum & Hstr & _).
  split.
  - rewrite Hnum; vm_compute; reflexivity.
  - rewrite (Hstr _ _ _ _ "Zoe" "adam"); vm_compute; reflexivity.
Defined.

Lemma num_ltb_NaN_r (n : number) : num_ltb n NaN = false.
Proof. by destruct n. Qed.

Lemma lt_undef_r (v : jsval) : lt v VUndef = false.
Proof. destruct v; apply num_ltb_NaN_r. Qed.

Lemma lt_undef_l (v : jsval) : lt VUndef v = false.
Proof. by destruct v. Qed.

Lemma sort_key_undef_l (y : jsval) : sort_key VUndef y = VUndef.
Proof. reflexivity. Qed.

Lemma comparator_missing (column direction : string) (a b : record) :
  a !! column = None ->
  comparator column direction a b = Ok 0 /\ comparator column direction b a = Ok 0.
Proof.
  intros Ha.
  assert (Hf : field a column = VUndef) by (unfold field; by rewrite Ha).
  assert (H0 : comparator column direction a b = Ok 0).
  { apply comparator_zero. rewrite Hf, sort_key_undef_l.
    split; [apply lt_undef_l | apply lt_undef_r]. }
  split; [exact H0 | by apply comparator_zero_sym].
Qed.

Lemma sort_and_paginate_returns (data : list record) (currentSort : sort_state)
    (currentPage itemsPerPage : Z) :
  exists page, sort_and_paginate data currentSort currentPage itemsPerPage
               = Ok (page, Z.of_nat (length data)).
Proof.
  unfold sort_and_paginate.
  destruct (column currentSort) as [c |]; [| simpl; eauto].
  destruct (ToBoolean (VStr c)); [| simpl; eauto].
  destruct (sortData_returns data c (direction currentSort)) as (out & -> & Hperm).
  simpl. rewrite <- (Permutation_length Hperm). eauto.
Qed.

(** C5, as stated, fails: a record without the sort field compares equal
    to a record that has it, where the empty string would sort first; and
    the filter stage of the orders page throws on a record without a
    client name. *)
Lemma C5_counterexample :
  comparator "name" "asc" {[ "id" := VNum (of_Z 1) ]}
                          {[ "id" := VNum (of_Z 2); "name" := VStr "abc" ]}
  = Ok 0
  /\ comparator "name" "asc" {[ "id" := VNum (of_Z 1); "name" := VStr "" ]}
                             {[ "id" := VNum (of_Z 2); "name" := VStr "abc" ]}
     = Ok (-1)
  /\ Orders.applyFilters
       {| Orders.searchInput := Some "a"; Orders.filterStatus := Some "";
          Orders.filterPayment := Some "" |}
       [ {[ "id" := VNum (of_Z 1) ]} ]
     = Throw TypeError.
Proof. repeat split; vm_compute; reflexivity. Qed.

(** C5, amended. The sort and the page cut return on every array of flat
    records; in the comparator two strings of plain text of which one does
    not parse as a number are compared as lower-cased text, and a record
    whose sort field is missing compares equal to every record. *)
Theorem C5_sort_and_paginate_total :
  (forall (data : list record) (column direction : string),
     exists out, sortData data column direction = Ok out /\ Permutation data out)
  /\ (forall (data : list record) (currentSort : sort_state) (currentPage itemsPerPage : Z),
        exists page,
          sort_and_paginate data currentSort currentPage itemsPerPage
          = Ok (page, Z.of_nat (length data)))
  /\ (forall (column direction : string) (a b : record) (s t : string),
        plain_text s = true -> plain_text t = true ->
        field a column = VStr s -> field b column = VStr t ->
        isNaN (VStr s) || isNaN (VStr t) = true ->
        comparator column direction a b
        = Ok (verdict direction
                (str_ltb (toLowerCase s) (toLowerCase t))
                (str_ltb (toLowerCase t) (toLowerCase s))))
  /\ (forall (column direction : string) (a b : record),
        a !! column = None ->
        comparator column direction a b = Ok 0
        /\ comparator column direction b a = Ok 0).
Proof.
  split; [exact sortData_returns |].
  split; [exact sort_and_paginate_returns |].
  split; [intros column direction a b s t _ _; apply comparator_strings
         | exact comparator_missing].
Qed.

Lemma C5_sort_and_paginate_total_witness :
  comparator "name" "desc" {[ "name" := VStr "12px" ]} {[ "name" := VStr "9" ]}
  = Ok 1
  /\ comparator "name" "desc" {[ "id" := VNum (of_Z 1) ]} {[ "name" := VStr "9" ]}
     = Ok 0.
Proof.
  destruct C5_sort_and_paginate_total as (_ & _ & Hstr & Hmiss).
  split.
  - rewrite (Hstr _ _ _ _ "12px" "9"); vm_compute; reflexivity.
  - refine (proj1 (Hmiss _ _ _ _ _)). vm_compute. reflexivity.
Defined.

(** ** Id allocation *)

Lemma Qltb_inject_Z (x y : Z) : Qltb (inject_Z x) (inject_Z y) = (x <? y).
Proof. unfold Qltb. simpl. by rewrite !Z.mul_1_r. Qed.

Lemma num_max_of_Z (x y : Z) : num_max (of_Z x) (of_Z y) = of_Z (Z.max x y).
Proof.
  unfold num_max, of_Z. simpl. rewrite Qltb_inject_Z.
  destruct (Z.ltb_spec x y); f_equal; f_equal; lia.
Qed.

Lemma num_add_of_Z (x y : Z) : num_add (of_Z x) (of_Z y) = of_Z (x + y).
Proof.
  unfold num_add, of_Z, inject_Z, Qplus. simpl.
  f_equal. f_equal. lia.
Qed.

(** The ids of a collection all of whose records carry an integer id. *)
Lemma Math_max_integers (data : list record) (z : Z) (ids : list Z) :
  Forall2 (fun r i => r !! "id" = Some (VNum (of_Z i))) data (z :: ids) ->
  exists m, Math_max (map (fun item => field item "id") data) = of_Z m
            /\ In m (z :: ids) /\ forall i, In i (z :: ids) -> i <= m.
Proof.
  revert data z. induction ids as [| z' ids IH]; intros data z Hids.
  - inversion Hids as [| r i data' ids' Hr Hrest]; subst.
    inversion Hrest; subst. exists z. unfold Math_max, field. simpl. rewrite Hr.
    simpl. split; [reflexivity |]. split; [by left |].
    intros i [-> | []]. lia.
  - inversion Hids as [| r i data' ids' Hr Hrest]; subst.
    destruct (IH data' z' Hrest) as (m & Hm & Hin & Hmax).
    exists (Z.max z m). split.
    + unfold Math_max in *. simpl. rewrite Hm.
      unfold field at 1. rewrite Hr. simpl. apply num_max_of_Z.
    + split.
      * destruct (Z.max_spec z m) as [[_ ->] | [_ ->]]; [by right | by left].
      * intros i [-> | Hi]; [lia |]. specialize (Hmax i Hi). lia.
Qed.

Lemma generateId_of_integers (data : list record) (ids : list Z) :
  Forall2 (fun r i => r !! "id" = Some (VNum (of_Z i))) data ids ->
  exists n,
    generateId_of data = of_Z n
    /\ (ids = [] -> n = 1)
    /\ (ids <> [] -> In (n - 1) ids /\ forall i, In i ids -> i <= n - 1)
    /\ (forall i, In i ids -> i < n).
Proof.
  intros Hids. destruct ids as [| z ids].
  - inversion Hids; subst. exists 1.
    split; [reflexivity |]. split; [done |]. split; [done |]. intros i [].
  - destruct (Math_max_integers data z ids Hids) as (m & Hm & Hin & Hmax).
    exists (m + 1). split.
    + unfold generateId_of. inversion Hids; subst. simpl length.
      replace (0 <? Z.of_nat (S (length l))) with true
        by (symmetry; apply Z.ltb_lt; lia).
      rewrite Hm. apply num_add_of_Z.
    + split; [discriminate |]. split.
      * intros _. replace (m + 1 - 1) with m by lia. split; [exact Hin | exact Hmax].
      * intros i Hi. specialize (Hmax i Hi). lia.
Qed.

(** C6. On a collection of records whose ids are safe integers (below
    2^53 in magnitude, so that adding 1 does not round) the allocator
    returns one more than the greatest id, and 1 on the empty collection;
    the id it returns is at most 2^53 in magnitude, a value that binary64
    holds, and is greater than every id of the collection.  On ids 1 and
    3 it returns 4. *)
Theorem C6_generateId_max_plus_one (data : list record) (ids : list Z) :
  Forall2 (fun r i => r !! "id" = Some (VNum (of_Z i))) data ids ->
  Forall (fun i => safe_integer i = true) ids ->
  (exists n,
     generateId_of data = of_Z n
     /\ Z.abs n <= 2 ^ 53
     /\ (ids = [] -> n = 1)
     /\ (ids <> [] -> In (n - 1) ids /\ forall i, In i ids -> i <= n - 1)
     /\ (forall i, In i ids ->
           i < n /\ num_ltb (of_Z i) (generateId_of data) = true
           /\ strict_eq (VNum (of_Z i)) (VNum (generateId_of data)) = false))
  /\ generateId_of [ {[ "id" := VNum (of_Z 1) ]}; {[ "id" := VNum (of_Z 3) ]} ] = of_Z 4
  /\ generateId_of [] = of_Z 1
  /\ forall (dataKey : string) (ls : storage),
       generateId dataKey ls = generateId_of (getData_or_empty dataKey ls).
Proof.
  intros Hids Hsafe.
  split; [| repeat split; vm_compute; reflexivity].
  destruct (generateId_of_integers data ids Hids) as (n & Hgen & Hempty & Hmax & Hlt).
  exists n. split; [exact Hgen |].
  split.
  { destruct ids as [| z ids]; [rewrite Hempty by reflexivity; lia |].
    destruct Hmax as [Hin _]; [discriminate |].
    rewrite Forall_forall in Hsafe. apply list_elem_of_In in Hin.
    specialize (Hsafe _ Hin). unfold safe_integer in Hsafe.
    apply Z.ltb_lt in Hsafe. lia. }
  split; [exact Hempty |]. split; [exact Hmax |].
  intros i Hi. specialize (Hlt i Hi). rewrite Hgen.
  split; [exact Hlt |]. unfold of_Z. simpl.
  rewrite Qltb_inject_Z. split; [apply Z.ltb_lt; lia |].
  unfold Qeq_bool. simpl. apply Z.eqb_neq. lia.
Qed.

Lemma C6_generateId_max_plus_one_witness :
  exists n,
    generateId_of [ {[ "id" := VNum (of_Z 7); "name" := VStr "a" ]};
                    {[ "id" := VNum (of_Z 2) ]} ] = of_Z n
    /\ 7 < n /\ 2 < n.
Proof.
  assert (Hids : Forall2 (fun (r : record) i => r !! "id" = Some (VNum (of_Z i)))
                   [ {[ "id" := VNum (of_Z 7); "name" := VStr "a" ]};
                     {[ "id" := VNum (of_Z 2) ]} ] [7; 2]).
  { repeat constructor; vm_compute; reflexivity. }
  assert (Hsafe : Forall (fun i => safe_integer i = true) [7; 2]).
  { repeat constructor. }
  destruct (C6_generateId_max_plus_one _ _ Hids Hsafe)
    as [(n & Hn & _ & _ & _ & Hgt) _].
  exists n. split; [exact Hn |].
  split; [apply (Hgt 7); simpl; auto | apply (Hgt 2); simpl; auto].
Defined.

(** ** Filtering *)

Lemma Array_filter_pure {A} (p : A -> result bool) (f : A -> bool) (l : list A) :
  Forall (fun x => p x = Ok (f x)) l ->
  Array_filter p l = Ok (List.filter f l).
Proof.
  induction 1 as [| x l Hx _ IH]; simpl; [reflexivity |].
  rewrite Hx, IH. simpl. by destruct (f x).
Qed.

Lemma filter_all {A} (f : A -> bool) (l : list A) :
  Forall (fun x => f x = true) l -> List.filter f l = l.
Proof.
  induction 1 as [| x l Hx _ IH]; simpl; [reflexivity |].
  by rewrite Hx, IH.
Qed.

Lemma toLowerCase_empty (s : string) : toLowerCase s = "" <-> s = "".
Proof. destruct s; simpl; split; congruence. Qed.

Lemma ToBoolean_VStr (s : string) : ToBoolean (VStr s) = negb (String.eqb s "").
Proof. by destruct s. Qed.

Lemma includes_empty (s : string) : includes s "" = true.
Proof. by destruct s. Qed.

Lemma strict_eq_VStr (v : jsval) (s : string) :
  strict_eq v (VStr s) = true <-> v = VStr s.
Proof.
  destruct v; simpl; try (split; [discriminate | congruence]).
  rewrite String.eqb_eq. split; congruence.
Qed.

Lemma strict_eq_VBool (v : jsval) (b : bool) :
  strict_eq v (VBool b) = true <-> v = VBool b.
Proof.
  destruct v; simpl; try (split; [discriminate | congruence]).
  rewrite Bool.eqb_true_iff. split; congruence.
Qed.

Lemma unset_or_bool (c : string) (b : bool) (P : Prop) :
  (b = true <-> P) ->
  negb (ToBoolean (VStr c)) || b = true <-> unset_or c P.
Proof.
  intros Hb. rewrite ToBoolean_VStr, negb_involutive. unfold unset_or.
  destruct (String.eqb_spec c "") as [-> | Hne]; simpl.
  - split; [intros _ H; by destruct H | done].
  - rewrite Hb. split; [auto | intros H; by apply H].
Qed.

Lemma unset_or_search (search : string) (b : bool) (P : Prop) :
  (b = true <-> P) ->
  negb (ToBoolean (VStr (toLowerCase search))) || b = true <-> unset_or search P.
Proof.
  intros Hb. rewrite ToBoolean_VStr, negb_involutive. unfold unset_or.
  destruct (String.eqb_spec (toLowerCase search) "") as [He | Hne]; simpl.
  - apply (proj1 (toLowerCase_empty _)) in He.
    split; [intros _ H; contradiction | done].
  - rewrite Hb. split; [auto |]. intros H. apply H. intros ->. by apply Hne.
Qed.

Lemma Number_toString_of_Z (z : Z) :
  Z.abs z < 2 ^ 53 -> Number_toString (of_Z z) = Ok (Z_toString z).
Proof.
  intros Hz. unfold Number_toString, of_Z, inject_Z. simpl Qden. simpl Qnum.
  destruct (Z.ltb_spec (Z.abs z) (2 ^ 53)); [reflexivity | lia].
Qed.

Lemma empty_control (o : option string) :
  default "" o = "" -> default "" (toLowerCase <$> o) = "".
Proof. destruct o as [s |]; simpl; [apply toLowerCase_empty | done]. Qed.

(** The orders page. *)

Lemma Orders_applyFilters_unset (dom : Orders.filters) (data : list record) :
  default "" (Orders.searchInput dom) = "" ->
  default "" (Orders.filterStatus dom) = "" ->
  default "" (Orders.filterPayment dom) = "" ->
  Orders.applyFilters dom data = Ok data.
Proof.
  intros Hs Hst Hp. unfold Orders.applyFilters.
  rewrite (empty_control _ Hs), Hst, Hp.
  rewrite (Array_filter_pure _ (fun _ => true)).
  - by rewrite filter_all; [| apply Forall_forall].
  - apply Forall_forall. by intros r _.
Qed.

Lemma Orders_applyFilters_shaped (dom : Orders.filters) (data : list record) :
  Forall order_shaped data ->
  exists f : record -> bool,
    Orders.applyFilters dom data = Ok (List.filter f data)
    /\ forall r, In r data ->
         (f r = true <->
          order_matches (default "" (Orders.searchInput dom))
                        (default "" (Orders.filterStatus dom))
                        (default "" (Orders.filterPayment dom)) r).
Proof.
  intros Hwf.
  set (search := default "" (Orders.searchInput dom)).
  set (st := default "" (Orders.filterStatus dom)).
  set (pay := default "" (Orders.filterPayment dom)).
  assert (Hterm : default "" (toLowerCase <$> Orders.searchInput dom) = toLowerCase search).
  { subst search. by destruct (Orders.searchInput dom). }
  exists (fun item =>
    (negb (ToBoolean (VStr (toLowerCase search)))
     || (includes (toLowerCase (text_of (field item "clientName"))) (toLowerCase search)
         || (includes (toLowerCase (text_of (field item "products"))) (toLowerCase search)
             || includes (id_text (field item "id")) (toLowerCase search))))
    && (negb (ToBoolean (VStr st)) || strict_eq (field item "status") (VStr st))
    && (negb (ToBoolean (VStr pay)) || strict_eq (field item "paymentStatus") (VStr pay))).
  split.
  - unfold Orders.applyFilters. rewrite Hterm. fold st pay.
    apply Array_filter_pure.
    eapply Forall_impl; [exact Hwf |].
    intros r (cn & pr & z & Hcn & Hpr & Hid & Hz). unfold field.
    rewrite Hcn, Hpr, Hid. cbn [call_toLowerCase call_toString].
    rewrite (Number_toString_of_Z z Hz).
    unfold orelse. cbn [bind text_of id_text of_Z inject_Z Qnum].
    destruct (negb (ToBoolean (VStr (toLowerCase search)))); [reflexivity |].
    cbn [bind orb]. destruct (includes (toLowerCase cn) _); [reflexivity |].
    cbn [bind orb]. by destruct (includes (toLowerCase pr) _).
  - intros r _. unfold order_matches.
    rewrite !andb_true_iff.
    rewrite (unset_or_bool st _ _ (strict_eq_VStr _ _)).
    rewrite (unset_or_bool pay _ _ (strict_eq_VStr _ _)).
    rewrite (unset_or_search search _ (contains_ci (text_of (field r "clientName")) search
        \/ contains_ci (text_of (field r "products")) search
        \/ includes (id_text (field r "id")) (toLowerCase search) = true)).
    + tauto.
    + rewrite !orb_true_iff. unfold contains_ci. tauto.
Qed.

(** The products page. *)

Lemma Products_applyFilters_unset (dom : Products.filters) (data : list record) :
  default "" (Products.searchInput dom) = "" ->
  default "" (Products.filterCategory dom) = "" ->
  default "" (Products.filterAvailability dom) = "" ->
  Products.applyFilters dom data = Ok data.
Proof.
  intros Hs Hc Ha. unfold Products.applyFilters.
  rewrite (empty_control _ Hs), Hc, Ha.
  rewrite (Array_filter_pure _ (fun _ => true)).
  - by rewrite filter_all; [| apply Forall_forall].
  - apply Forall_forall. by intros r _.
Qed.

Lemma Products_applyFilters_shaped (dom : Products.filters) (data : list record) :
  Forall product_shaped data ->
  exists f : record -> bool,
    Products.applyFilters dom data = Ok (List.filter f data)
    /\ forall r, In r data ->
         (f r = true <->
          product_matches (default "" (Products.searchInput dom))
                          (default "" (Products.filterCategory dom))
                          (default "" (Products.filterAvailability dom)) r).
Proof.
  intros Hwf.
  set (search := default "" (Products.searchInput dom)).
  set (cat := default "" (Products.filterCategory dom)).
  set (av := default "" (Products.filterAvailability dom)).
  assert (Hterm : default "" (toLowerCase <$> Products.searchInput dom)
                  = toLowerCase search).
  { subst search. by destruct (Products.searchInput dom). }
  exists (fun item =>
    (negb (ToBoolean (VStr (toLowerCase search)))
     || (includes (toLowerCase (text_of (field item "name"))) (toLowerCase search)
         || includes (toLowerCase (text_of (field item "supplier"))) (toLowerCase search)))
    && (negb (ToBoolean (VStr cat)) || strict_eq (field item "category") (VStr cat))
    && (String.eqb av ""
        || strict_eq (field item "available") (VBool (String.eqb av "true")))).
  split.
  - unfold Products.applyFilters. rewrite Hterm. fold cat av.
    apply Array_filter_pure.
    eapply Forall_impl; [exact Hwf |].
    intros r (n & su & Hn & Hsu). unfold field.
    rewrite Hn, Hsu. cbn [call_toLowerCase].
    unfold orelse. cbn [bind text_of].
    destruct (negb (ToBoolean (VStr (toLowerCase search)))); [reflexivity |].
    cbn [bind orb]. by destruct (includes (toLowerCase n) _).
  - intros r _. unfold product_matches.
    rewrite !andb_true_iff.
    rewrite (unset_or_bool cat _ _ (strict_eq_VStr _ _)).
    rewrite (unset_or_search search _
               (contains_ci (text_of (field r "name")) search
                \/ contains_ci (text_of (field r "supplier")) search)).
    + assert (Hav : String.eqb av ""
                    || strict_eq (field r "available") (VBool (String.eqb av "true"))
                    = true
                    <-> unset_or av (field r "available" = VBool (String.eqb av "true"))).
      { unfold unset_or. rewrite orb_true_iff, strict_eq_VBool, String.eqb_eq.
        destruct (String.eqb_spec av ""); [tauto |]. tauto. }
      tauto.
    + rewrite !orb_true_iff. unfold contains_ci. tauto.
Qed.

(** The clients page. *)

Lemma or_else_text (v : jsval) :
  text_or_falsy v -> or_else v (VStr "") = VStr (text_of v).
Proof.
  unfold or_else. intros [Hs | Hf].
  - destruct v; try discriminate. simpl text_of. by destruct s.
  - rewrite Hf. destruct v as [| | b | n | s]; try reflexivity.
    by destruct s.
Qed.

Lemma Clients_filter_shaped (search city type : string) (clients : list record) :
  Forall client_shaped clients ->
  exists f : record -> bool,
    Clients.renderClientsTable_filtered search city type clients
    = Ok (List.filter f clients)
    /\ forall r, In r clients ->
         (f r = true <-> client_matches search city type r).
Proof.
  intros Hwf.
  exists (fun client =>
    (includes (toLowerCase (text_of (field client "name"))) (toLowerCase search)
     || includes (toLowerCase (text_of (field client "email"))) (toLowerCase search))
    && (negb (ToBoolean (VStr city)) || strict_eq (field client "city") (VStr city))
    && (negb (ToBoolean (VStr type)) || strict_eq (field client "type") (VStr type))).
  split.
  - unfold Clients.renderClientsTable_filtered.
    apply Array_filter_pure.
    eapply Forall_impl; [exact Hwf |].
    intros r [Hn He].
    rewrite (or_else_text _ Hn), (or_else_text _ He). cbn [call_toLowerCase].
    unfold orelse. cbn [bind].
    by destruct (includes (toLowerCase (text_of (field r "name"))) _).
  - intros r _. unfold client_matches.
    rewrite !andb_true_iff.
    rewrite (unset_or_bool city _ _ (strict_eq_VStr _ _)).
    rewrite (unset_or_bool type _ _ (strict_eq_VStr _ _)).
    assert (Hs : includes (toLowerCase (text_of (field r "name"))) (toLowerCase search)
                 || includes (toLowerCase (text_of (field r "email"))) (toLowerCase search)
                 = true
                 <-> unset_or search
                       (contains_ci (text_of (field r "name")) search
                        \/ contains_ci (text_of (field r "email")) search)).
    { unfold unset_or, contains_ci. rewrite orb_true_iff.
      destruct (String.eqb_spec search "") as [-> | Hne]; [| tauto].
      simpl toLowerCase. rewrite !includes_empty. tauto. }
    tauto.
Qed.

Lemma unset_or_unset (P : Prop) : unset_or "" P.
Proof. intros H. by destruct H. Qed.

(** The orders page runs the three stages in this order, and counts the
    records after the filter. *)
Lemma Orders_renderTable_stages (ls : storage) (dom : Orders.filters)
    (currentSort : sort_state) (currentPage itemsPerPage : Z) :
  Forall order_shaped (getData_or_empty "orders" ls) ->
  exists (filtered sorted : list record),
    Orders.applyFilters dom (getData_or_empty "orders" ls) = Ok filtered
    /\ Permutation filtered sorted
    /\ Orders.renderTable ls dom currentSort currentPage itemsPerPage
       = Ok (paginatedData sorted currentPage itemsPerPage,
             Z.of_nat (length filtered)).
Proof.
  intros Hwf.
  destruct (Orders_applyFilters_shaped dom _ Hwf) as (f & Hf & _).
  unfold Orders.renderTable. rewrite Hf. cbn [bind].
  exists (List.filter f (getData_or_empty "orders" ls)).
  unfold sort_and_paginate.
  destruct (column currentSort) as [c |]; [| by eexists].
  destruct (ToBoolean (VStr c)); [| by eexists].
  destruct (sortData_returns (List.filter f (getData_or_empty "orders" ls)) c
              (direction currentSort)) as (out & Hout & Hperm).
  exists out. rewrite Hout. cbn [bind].
  by rewrite <- (Permutation_length Hperm).
Qed.




(** ** Storage *)

Lemma reload_of_json (j : json) : reload (of_json j) = Some (of_json j).
Proof. by destruct j. Qed.

Lemma JSON_roundtrip_lookup (r : record) (k : string) :
  JSON_roundtrip r !! k = r !! k ≫= reload.
Proof.
  unfold JSON_roundtrip, reload. rewrite lookup_fmap, lookup_omap.
  by destruct (r !! k).
Qed.

Lemma JSON_roundtrip_parsed (x : stored) :
  JSON_roundtrip (of_json <$> x) = of_json <$> x.
Proof.
  apply map_eq. intros k. rewrite JSON_roundtrip_lookup, lookup_fmap.
  destruct (x !! k) as [j |]; simpl; [apply reload_of_json | reflexivity].
Qed.

Lemma JSON_parse_stringify (d : list record) :
  JSON_parse (JSON_stringify d) = map JSON_roundtrip d.
Proof. unfold JSON_parse, JSON_stringify. by rewrite map_map. Qed.

Lemma loaded_roundtrip (key : string) (ls : storage) :
  map JSON_roundtrip (getData_or_empty key ls) = getData_or_empty key ls.
Proof.
  unfold getData_or_empty, getData.
  destruct (ls !! key) as [t |]; simpl; [| reflexivity].
  unfold JSON_parse. rewrite map_map. apply map_ext.
  intros x. apply JSON_roundtrip_parsed.
Qed.

Lemma loaded_record_roundtrip (key : string) (ls : storage) (i : nat) (r : record) :
  getData_or_empty key ls !! i = Some r -> JSON_roundtrip r = r.
Proof.
  intros Hr. pose proof (loaded_roundtrip key ls) as Hl.
  apply (f_equal (fun l => l !! i)) in Hl.
  change (map JSON_roundtrip) with (fmap (M := list) JSON_roundtrip) in Hl.
  rewrite list_lookup_fmap, Hr in Hl. simpl in Hl. congruence.
Qed.

Lemma getData_setData (key : string) (d : list record) (ls : storage) :
  getData_or_empty key (setData key d ls) = map JSON_roundtrip d.
Proof.
  unfold getData_or_empty, getData, setData.
  rewrite lookup_insert_eq. simpl. apply JSON_parse_stringify.
Qed.

Lemma getData_setData_loaded (key : string) (ls : storage) :
  getData_or_empty key (setData key (getData_or_empty key ls) ls)
  = getData_or_empty key ls.
Proof. rewrite getData_setData. apply loaded_roundtrip. Qed.

Lemma setData_other (key key' : string) (d : list record) (ls : storage) :
  key' <> key -> setData key d ls !! key' = ls !! key'.
Proof. intros Hne. unfold setData. by rewrite lookup_insert_ne. Qed.

Lemma findIndex_Some {A} (p : A -> bool) (l : list A) (i : nat) :
  findIndex p l = Some i ->
  exists x, l !! i = Some x /\ p x = true
            /\ forall j y, (j < i)%nat -> l !! j = Some y -> p y = false.
Proof.
  revert i. induction l as [| a l IH]; intros i Hi; simpl in Hi; [discriminate |].
  destruct (p a) eqn:Hp.
  - inversion Hi; subst. exists a. repeat split; [done |]. intros j y Hj. lia.
  - destruct (findIndex p l) as [n |]; [| discriminate].
    inversion Hi; subst. destruct (IH n eq_refl) as (x & Hx & Hpx & Hmin).
    exists x. repeat split; [done | done |].
    intros [| j] y Hj Hy; simpl in Hy; [congruence |].
    apply (Hmin j y); [lia | done].
Qed.

Lemma findIndex_None {A} (p : A -> bool) (l : list A) :
  findIndex p l = None -> forall x, In x l -> p x = false.
Proof.
  induction l as [| a l IH]; intros Hn x Hx; simpl in *; [done |].
  destruct (p a) eqn:Hp; [discriminate |].
  destruct (findIndex p l); [discriminate |].
  destruct Hx as [-> | Hx]; auto.
Qed.

(** ** The update paths that merge *)

(** The array that the update path of the orders and of the products form
    writes back, and what is read from the storage afterwards. *)
Lemma merge_update (key : string) (ls : storage) (p : record -> bool) (fd : record) :
  let data := getData_or_empty key ls in
  let written :=
    match findIndex p data with
    | Some index =>
        match data !! index with
        | Some old => <[index := spread old fd]> data
        | None => data
        end
    | None => data
    end in
  let data' := getData_or_empty key (setData key written ls) in
  length data' = length data
  /\ forall i r, data !! i = Some r ->
       exists r', data' !! i = Some r'
         /\ (forall k, fd !! k = None -> r' !! k = r !! k)
         /\ (findIndex p data <> Some i -> r' = r)
         /\ (findIndex p data = Some i -> r' = JSON_roundtrip (spread r fd)).
Proof.
  intros data written data'. subst data'. rewrite getData_setData.
  destruct (findIndex p data) as [index |] eqn:Hfind.
  - destruct (findIndex_Some p data index Hfind) as (old & Hold & _).
    subst written. rewrite Hold.
    change (map JSON_roundtrip) with (fmap (M := list) JSON_roundtrip).
    rewrite list_fmap_insert.
    change (fmap (M := list) JSON_roundtrip data) with (map JSON_roundtrip data).
    subst data. rewrite loaded_roundtrip.
    split; [apply length_insert |].
    intros i r Hr. destruct (decide (i = index)) as [-> | Hne].
    + exists (JSON_roundtrip (spread old fd)).
      assert (r = old) by congruence; subst r.
      split; [apply list_lookup_insert_eq; by eapply lookup_lt_Some |].
      split; [| split; [congruence | reflexivity]].
      intros k Hk. rewrite JSON_roundtrip_lookup. unfold spread.
      rewrite lookup_union_r by exact Hk.
      rewrite <- JSON_roundtrip_lookup.
      by rewrite (loaded_record_roundtrip key ls index old Hold).
    + exists r. split; [by rewrite list_lookup_insert_ne |].
      split; [reflexivity |]. split; [reflexivity | congruence].
  - subst written data. rewrite loaded_roundtrip.
    split; [reflexivity |]. intros i r Hr. exists r.
    split; [exact Hr |]. split; [reflexivity |]. split; [reflexivity | discriminate].
Qed.

Lemma Orders_formData_id (f : Orders.form) (ls : storage) :
  Orders.formData f ls !! "id" = None.
Proof. reflexivity. Qed.

Lemma Orders_update (f : Orders.form) (editingId : jsval)
    (today : string) (ls : storage) :
  ToBoolean editingId = true ->
  let data := getData_or_empty "orders" ls in
  let ls' := Orders.handleFormSubmit f editingId today ls in
  let data' := getData_or_empty "orders" ls' in
  let edited := findIndex (fun item => strict_eq (field item "id") editingId) data in
  length data' = length data
  /\ (forall i r, data !! i = Some r ->
        exists r', data' !! i = Some r'
          /\ (forall k, Orders.formData f ls !! k = None -> r' !! k = r !! k)
          /\ r' !! "id" = r !! "id"
          /\ (edited <> Some i -> r' = r)
          /\ (edited = Some i -> order_rejected f ls = false ->
              r' = JSON_roundtrip (spread r (Orders.formData f ls))))
  /\ (order_rejected f ls = true -> ls' = ls)
  /\ (forall key, key <> "orders" -> ls' !! key = ls !! key).
Proof.
  intros Hedit data ls' data' edited.
  subst ls' data'. unfold Orders.handleFormSubmit. fold (order_rejected f ls).
  destruct (order_rejected f ls).
  - split; [reflexivity |]. split; [| split; [reflexivity | reflexivity]].
    intros i r Hr. exists r. repeat split; try done.
  - rewrite Hedit.
    destruct (merge_update "orders" ls
                (fun item => strict_eq (field item "id") editingId)
                (Orders.formData f ls)) as [Hlen Hrec].
    split; [exact Hlen |]. split; [| split; [discriminate |]].
    + intros i r Hr. destruct (Hrec i r Hr) as (r' & Hr' & Hkeep & Hother & Hmerged).
      exists r'. split; [exact Hr' |]. split; [exact Hkeep |].
      split; [apply Hkeep, Orders_formData_id |].
      split; [exact Hother | intros He _; by apply Hmerged].
    + intros key Hkey. by apply setData_other.
Qed.

(** C7. On the update path of the order form the collection keeps its
    length; in the record being edited every field that the submitted
    values do not name, the id among them, keeps its value, and the
    submitted values that pass the validation are merged over it; every
    other record, and every other collection, is unchanged. *)
Theorem C7_order_update_preserves (f : Orders.form) (editingId : jsval)
    (today : string) (ls : storage) :
  ToBoolean editingId = true ->
  let data := getData_or_empty "orders" ls in
  let ls' := Orders.handleFormSubmit f editingId today ls in
  let data' := getData_or_empty "orders" ls' in
  let edited := findIndex (fun item => strict_eq (field item "id") editingId) data in
  length data' = length data
  /\ (forall i r, data !! i = Some r ->
        exists r', data' !! i = Some r'
          /\ (forall k, Orders.formData f ls !! k = None -> r' !! k = r !! k)
          /\ r' !! "id" = r !! "id"
          /\ (edited <> Some i -> r' = r)
          /\ (edited = Some i -> order_rejected f ls = false ->
              r' = JSON_roundtrip (spread r (Orders.formData f ls))))
  /\ (order_rejected f ls = true -> ls' = ls)
  /\ (forall key, key <> "orders" -> ls' !! key = ls !! key).
Proof. exact (Orders_update f editingId today ls). Qed.

Lemma C7_order_update_preserves_witness :
  let ls : storage :=
    {[ "orders" :=
         [ ({[ "id" := JNum 1; "clientId" := JNum 1; "clientName" := JStr "Marie Martin";
               "products" := JStr "Pizza Margherita x2"; "quantity" := JNum 2;
               "amount" := JNum 25.98; "status" := JStr "En cours";
               "paymentStatus" := JStr "En attente"; "address" := JStr "12 Rue de Paris";
               "createdAt" := JStr "2024-04-01" ]} : stored);
           ({[ "id" := JNum 2; "clientId" := JNum 3; "clientName" := JStr "Sophie Petit";
               "products" := JStr "Sushi Mix"; "quantity" := JNum 1;
               "amount" := JNum 18.99; "status" := JStr "En cours";
               "paymentStatus" := JStr "En attente"; "address" := JStr "8 Rue de Lyon";
               "createdAt" := JStr "2024-04-05" ]} : stored) ];
       "clients" :=
         [ ({[ "id" := JNum 1; "name" := JStr "Marie Martin" ]} : stored) ] ]} in
  let f := {| Orders.client := "1"; Orders.product := "Pizza Margherita x3";
              Orders.quantity := "3"; Orders.amount := "38.97";
              Orders.status := "En cours"; Orders.payment := "En attente";
              Orders.address := "12 Rue de Paris"; Orders.notes := Some "" |} in
  let data' := getData_or_empty "orders"
                 (Orders.handleFormSubmit f (VNum (of_Z 1)) "2026-01-01" ls) in
  ToBoolean (VNum (of_Z 1)) = true
  /\ length data' = 2%nat
  /\ exists r', data' !! 0%nat = Some r'
       /\ r' !! "createdAt" = Some (VStr "2024-04-01")
       /\ r' !! "id" = Some (VNum (of_Z 1))
       /\ r' !! "products" = Some (VStr "Pizza Margherita x3").
Proof.
  intros ls f data'.
  assert (Hedit : ToBoolean (VNum (of_Z 1)) = true) by reflexivity.
  split; [exact Hedit |].
  destruct (C7_order_update_preserves f (VNum (of_Z 1)) "2026-01-01" ls Hedit)
    as (Hlen & Hrec & _).
  split; [exact Hlen |].
  destruct (Hrec 0%nat (JSON_roundtrip
              {[ "id" := VNum (of_Z 1); "clientId" := VNum (of_Z 1);
                 "clientName" := VStr "Marie Martin";
                 "products" := VStr "Pizza Margherita x2"; "quantity" := VNum (of_Z 2);
                 "amount" := VNum (Fin 25.98); "status" := VStr "En cours";
                 "paymentStatus" := VStr "En attente"; "address" := VStr "12 Rue de Paris";
                 "createdAt" := VStr "2024-04-01" ]}))
    as (r' & Hr' & Hkeep & Hid & _ & Hmerged); [vm_compute; reflexivity |].
  exists r'. split; [exact Hr' |].
  split; [rewrite Hkeep; vm_compute; reflexivity |].
  split; [rewrite Hid; vm_compute; reflexivity |].
  rewrite Hmerged; vm_compute; reflexivity.
Defined.

(** ** The update paths that replace *)

Lemma find_findIndex {A} (p : A -> bool) (l : list A) (i : nat) :
  findIndex p l = Some i -> exists x, find p l = Some x /\ l !! i = Some x.
Proof.
  revert i. induction l as [| a l IH]; intros i Hi; simpl in *; [discriminate |].
  destruct (p a).
  - inversion Hi; subst. by exists a.
  - destruct (findIndex p l) as [n |]; [| discriminate].
    inversion Hi; subst. destruct (IH n eq_refl) as (x & Hx & Hl). by exists x.
Qed.

Lemma find_None_findIndex {A} (p : A -> bool) (l : list A) :
  find p l = None <-> findIndex p l = None.
Proof.
  induction l as [| a l IH]; simpl; [done |].
  destruct (p a); [split; discriminate |].
  rewrite IH. destruct (findIndex p l); simpl; split; congruence.
Qed.

(** What is read back after the update path of the clients, users and
    deliveries forms has assigned [rec] at the index that [findIndex]
    returned. *)
Lemma replace_update (key : string) (ls : storage) (p : record -> bool) (rec : record) :
  let data := getData_or_empty key ls in
  let data' := getData_or_empty key
                 (setData key (assign_at data (findIndex p data) rec) ls) in
  length data' = length data
  /\ forall i r, data !! i = Some r ->
       (findIndex p data = Some i -> data' !! i = Some (JSON_roundtrip rec))
       /\ (findIndex p data <> Some i -> data' !! i = Some r).
Proof.
  intros data data'. subst data'. rewrite getData_setData.
  destruct (findIndex p data) as [index |] eqn:Hfind; unfold assign_at.
  - change (map JSON_roundtrip) with (fmap (M := list) JSON_roundtrip).
    rewrite list_fmap_insert.
    change (fmap (M := list) JSON_roundtrip data) with (map JSON_roundtrip data).
    subst data. rewrite loaded_roundtrip.
    split; [apply length_insert |].
    intros i r Hr. split.
    + intros Hi. inversion Hi; subst.
      apply list_lookup_insert_eq. by eapply lookup_lt_Some.
    + intros Hi. rewrite list_lookup_insert_ne; [exact Hr | congruence].
  - subst data. rewrite loaded_roundtrip.
    split; [reflexivity |]. intros i r Hr. split; [discriminate | done].
Qed.

Lemma JSON_roundtrip_absent (rec : record) (k : string) :
  rec !! k = None -> JSON_roundtrip rec !! k = None.
Proof. intros Hk. by rewrite JSON_roundtrip_lookup, Hk. Qed.

Lemma Products_merge (f : Products.form) (editingId : jsval) (ls : storage) :
  ToBoolean editingId = true ->
  let data := getData_or_empty "products" ls in
  let data' := getData_or_empty "products" (Products.handleFormSubmit f editingId ls) in
  forall i r, data !! i = Some r ->
    exists r', data' !! i = Some r'
      /\ forall k, Products.formData f !! k = None -> r' !! k = r !! k.
Proof.
  intros Hedit data data' i r Hr. subst data'. unfold Products.handleFormSubmit.
  destruct (negb (ToBoolean (field (Products.formData f) "name"))
            || negb (ToBoolean (field (Products.formData f) "category"))
            || isNaN (field (Products.formData f) "price")).
  - exists r. by split.
  - rewrite Hedit.
    destruct (merge_update "products" ls
                (fun item => strict_eq (field item "id") editingId)
                (Products.formData f)) as [_ Hrec].
    destruct (Hrec i r Hr) as (r' & Hr' & Hkeep & _).
    exists r'. by split.
Qed.

Lemma Clients_replace (f : Clients.form) (ls : storage) (i : nat) :
  Clients.entityId f <> "" ->
  let data := getData_or_empty "clients" ls in
  let data' := getData_or_empty "clients" (Clients.handleFormSubmit f ls) in
  findIndex (fun c => loose_eq (field c "id") (VStr (Clients.entityId f))) data = Some i ->
  data' !! i = Some (JSON_roundtrip (Clients.clientData f ls))
  /\ forall k, Clients.clientData f ls !! k = None ->
       exists r', data' !! i = Some r' /\ r' !! k = None.
Proof.
  intros Hid data data' Hfind. subst data'. unfold Clients.handleFormSubmit.
  assert (Ht : ToBoolean (VStr (Clients.entityId f)) = true).
  { rewrite ToBoolean_VStr. by destruct (String.eqb_spec (Clients.entityId f) ""). }
  rewrite Ht.
  destruct (find_findIndex _ _ _ Hfind) as (old & _ & Hold).
  destruct (replace_update "clients" ls
              (fun c => loose_eq (field c "id") (VStr (Clients.entityId f)))
              (Clients.clientData f ls)) as [_ Hrec].
  destruct (Hrec i old Hold) as [Hnew _].
  split; [by apply Hnew |].
  intros k Hk. eexists. split; [by apply Hnew |]. by apply JSON_roundtrip_absent.
Qed.

Lemma Users_replace (f : Users.form) (now : string) (ls : storage) (i : nat) :
  Users.entityId f <> "" ->
  let data := getData_or_empty "users" ls in
  findIndex (fun u => loose_eq (field u "id") (VStr (Users.entityId f))) data = Some i ->
  exists (ls' : storage) (userData : record),
    Users.handleFormSubmit f now ls = Ok ls'
    /\ Users.userData f now ls = Ok userData
    /\ getData_or_empty "users" ls' !! i = Some (JSON_roundtrip userData)
    /\ forall k, userData !! k = None ->
         exists r', getData_or_empty "users" ls' !! i = Some r' /\ r' !! k = None.
Proof.
  intros Hid data Hfind. unfold Users.handleFormSubmit.
  assert (Ht : ToBoolean (VStr (Users.entityId f)) = true).
  { rewrite ToBoolean_VStr. by destruct (String.eqb_spec (Users.entityId f) ""). }
  destruct (find_findIndex _ _ _ Hfind) as (old & Hfound & Hold).
  assert (Hdata : exists u, Users.userData f now ls = Ok u).
  { unfold Users.userData. rewrite Ht. fold data. rewrite Hfound. simpl. eauto. }
  destruct Hdata as (u & Hu). rewrite Hu. cbn [bind]. rewrite Ht.
  destruct (replace_update "users" ls
              (fun c => loose_eq (field c "id") (VStr (Users.entityId f))) u)
    as [_ Hrec].
  destruct (Hrec i old Hold) as [Hnew _].
  eexists _, u. split; [reflexivity |]. split; [reflexivity |].
  split; [by apply Hnew |].
  intros k Hk. eexists. split; [by apply Hnew |]. by apply JSON_roundtrip_absent.
Qed.

(** C8, as stated, fails: the update path of the products form merges as
    well; a field that the form does not submit, here [notes], survives
    the update of a product. *)
Lemma C8_counterexample :
  let ls : storage :=
    {[ "products" :=
         [ ({[ "id" := JNum 1; "name" := JStr "Pizza Margherita";
               "category" := JStr "Pizza"; "price" := JNum 12.99; "stock" := JNum 50;
               "supplier" := JStr "Pizzeria Roma"; "available" := JBool true;
               "notes" := JStr "promo" ]} : stored) ] ]} in
  let f := {| Products.name := "Pizza Regina"; Products.category := "Pizza";
              Products.price := "13.50"; Products.stock := "40";
              Products.supplier := "Pizzeria Roma";
              Products.availability := "Disponible" |} in
  let data' := getData_or_empty "products"
                 (Products.handleFormSubmit f (VNum (of_Z 1)) ls) in
  Products.formData f !! "notes" = None
  /\ (data' !! 0%nat) ≫= (fun r => r !! "name") = Some (VStr "Pizza Regina")
  /\ (data' !! 0%nat) ≫= (fun r => r !! "notes") = Some (VStr "promo").
Proof. repeat split; vm_compute; reflexivity. Qed.

(** C8, amended. The update paths of the orders form and of the products
    form merge the submitted values over the stored record: a field that
    they do not name keeps its value.  The update paths of the clients form
    and of the users form replace the stored record by the submitted
    object: a field that this object does not name is gone. *)
Theorem C8_merge_or_replace :
  (forall (f : Orders.form) (editingId : jsval) (today : string) (ls : storage)
          (i : nat) (r : record),
     ToBoolean editingId = true ->
     getData_or_empty "orders" ls !! i = Some r ->
     exists r',
       getData_or_empty "orders" (Orders.handleFormSubmit f editingId today ls) !! i
       = Some r'
       /\ forall k, Orders.formData f ls !! k = None -> r' !! k = r !! k)
  /\ (forall (f : Products.form) (editingId : jsval) (ls : storage)
             (i : nat) (r : record),
        ToBoolean editingId = true ->
        getData_or_empty "products" ls !! i = Some r ->
        exists r',
          getData_or_empty "products" (Products.handleFormSubmit f editingId ls) !! i
          = Some r'
          /\ forall k, Products.formData f !! k = None -> r' !! k = r !! k)
  /\ (forall (f : Clients.form) (ls : storage) (i : nat),
        Clients.entityId f <> "" ->
        findIndex (fun c => loose_eq (field c "id") (VStr (Clients.entityId f)))
                  (getData_or_empty "clients" ls) = Some i ->
        getData_or_empty "clients" (Clients.handleFormSubmit f ls) !! i
        = Some (JSON_roundtrip (Clients.clientData f ls))
        /\ forall k, Clients.clientData f ls !! k = None ->
             exists r',
               getData_or_empty "clients" (Clients.handleFormSubmit f ls) !! i = Some r'
               /\ r' !! k = None)
  /\ (forall (f : Users.form) (now : string) (ls : storage) (i : nat),
        Users.entityId f <> "" ->
        findIndex (fun u => loose_eq (field u "id") (VStr (Users.entityId f)))
                  (getData_or_empty "users" ls) = Some i ->
        exists (ls' : storage) (userData : record),
          Users.handleFormSubmit f now ls = Ok ls'
          /\ Users.userData f now ls = Ok userData
          /\ getData_or_empty "users" ls' !! i = Some (JSON_roundtrip userData)
          /\ forall k, userData !! k = None ->
               exists r', getData_or_empty "users" ls' !! i = Some r' /\ r' !! k = None).
Proof.
  split; [| split; [| split]].
  - intros f editingId today ls i r Hedit Hr.
    destruct (Orders_update f editingId today ls Hedit) as (_ & Hrec & _).
    destruct (Hrec i r Hr) as (r' & Hr' & Hkeep & _).
    exists r'. by split.
  - intros f editingId ls i r Hedit Hr. by apply Products_merge.
  - intros f ls i Hid Hfind. by apply Clients_replace.
  - intros f now ls i Hid Hfind. by apply Users_replace.
Qed.

Lemma C8_merge_or_replace_witness :
  let ls : storage :=
    {[ "clients" :=
         [ ({[ "id" := JNum 1; "name" := JStr "Marie Martin";
               "email" := JStr "marie.martin@email.com"; "phone" := JStr "0612345678";
               "address" := JStr "12 Rue de Paris"; "city" := JStr "Paris";
               "type" := JStr "Particulier"; "createdAt" := JStr "2024-01-10" ]}
            : stored) ] ]} in
  let f := {| Clients.entityId := "1"; Clients.name := "Marie Martin";
              Clients.email := "marie@email.com"; Clients.phone := "0612345678";
              Clients.type := "Particulier"; Clients.city := "Paris";
              Clients.orders := "0"; Clients.address := "12 Rue de Paris" |} in
  Clients.entityId f <> ""
  /\ exists r',
       getData_or_empty "clients" (Clients.handleFormSubmit f ls) !! 0%nat = Some r'
       /\ r' !! "createdAt" = None.
Proof.
  intros ls f.
  assert (Hid : Clients.entityId f <> "") by discriminate.
  split; [exact Hid |].
  destruct C8_merge_or_replace as (_ & _ & Hclients & _).
  destruct (Hclients f ls 0%nat Hid) as [_ Hgone]; [vm_compute; reflexivity |].
  apply Hgone. vm_compute. reflexivity.
Defined.

(** ** Deletion *)

Lemma num_eqb_common (x y z : number) :
  num_eqb x z = true -> num_eqb y z = true -> num_eqb x y = true.
Proof.
  destruct x, y, z; simpl; try discriminate; try reflexivity.
  rewrite !Qeq_bool_iff. intros H1 H2. by rewrite H1, H2.
Qed.

Lemma strict_eq_common (a b v : jsval) :
  strict_eq a v = true -> strict_eq b v = true -> strict_eq a b = true.
Proof.
  destruct a, b, v; simpl; try discriminate; try reflexivity.
  - rewrite !Bool.eqb_true_iff. congruence.
  - apply num_eqb_common.
  - rewrite !String.eqb_eq. congruence.
Qed.

Lemma filter_none {A} (keep : A -> bool) (l : list A) :
  (forall x, In x l -> keep x = true) -> List.filter keep l = l.
Proof. intros H. apply filter_all, Forall_forall. intros x Hx. apply H. by apply list_elem_of_In. Qed.

Lemma filter_one {A} (keep : A -> bool) (l : list A) (i : nat) (x : A) :
  l !! i = Some x -> keep x = false ->
  (forall j y, l !! j = Some y -> j <> i -> keep y = true) ->
  List.filter keep l = delete i l.
Proof.
  revert i. induction l as [| a l IH]; intros i Hi Hx Hrest; [done |].
  destruct i as [| i]; simpl in *.
  - inversion Hi; subst. rewrite Hx. apply filter_none.
    intros y Hy. apply list_elem_of_In, list_elem_of_lookup in Hy as [j Hj].
    apply (Hrest (S j) y); [exact Hj | lia].
  - rewrite (Hrest 0%nat a eq_refl) by lia. f_equal.
    apply IH; [exact Hi | exact Hx |].
    intros j y Hj Hne. apply (Hrest (S j) y); [exact Hj | lia].
Qed.

Lemma filter_idem {A} (keep : A -> bool) (l : list A) :
  List.filter keep (List.filter keep l) = List.filter keep l.
Proof.
  apply filter_none. intros x Hx. by apply filter_In in Hx as [_ ?].
Qed.

Lemma loaded_filter (key : string) (ls : storage) (keep : record -> bool) :
  getData_or_empty key (setData key (List.filter keep (getData_or_empty key ls)) ls)
  = List.filter keep (getData_or_empty key ls).
Proof.
  rewrite getData_setData.
  rewrite <- (map_id (List.filter keep (getData_or_empty key ls))) at 2.
  apply map_ext_in. intros r Hr. apply filter_In in Hr as [Hr _].
  apply list_elem_of_In, list_elem_of_lookup in Hr as [i Hi].
  by apply (loaded_record_roundtrip key ls i).
Qed.

(** What a collection reads as after the records whose id is [v] have been
    filtered out of it and the rest has been written back. *)
Lemma delete_by_id (data : list record) (v : jsval) :
  let keep := fun r : record => negb (strict_eq (field r "id") v) in
  ((forall r, In r data -> strict_eq (field r "id") v = false) ->
   List.filter keep data = data)
  /\ (ids_unique data ->
      forall i r, data !! i = Some r -> strict_eq (field r "id") v = true ->
        List.filter keep data = delete i data
        /\ S (length (List.filter keep data)) = length data)
  /\ List.filter keep (List.filter keep data) = List.filter keep data.
Proof.
  intros keep. split; [| split].
  - intros Habs. apply filter_none. intros r Hr. unfold keep. by rewrite (Habs r Hr).
  - intros Huniq i r Hi Hr.
    assert (Heq : List.filter keep data = delete i data).
    { apply (filter_one keep data i r Hi).
      - unfold keep. by rewrite Hr.
      - intros j y Hj Hne. unfold keep.
        destruct (strict_eq (field y "id") v) eqn:Hy; [| reflexivity].
        exfalso. apply Hne. apply (Huniq j i y r Hj Hi).
        by apply (strict_eq_common _ _ v). }
    split; [exact Heq |]. rewrite Heq, length_delete by eauto.
    apply lookup_lt_Some in Hi. lia.
  - apply filter_idem.
Qed.

Lemma delete_twice (key : string) (keep : record -> bool) (ls : storage) :
  let ls' := setData key (List.filter keep (getData_or_empty key ls)) ls in
  getData_or_empty key (setData key (List.filter keep (getData_or_empty key ls')) ls')
  = getData_or_empty key ls'.
Proof.
  intros ls'. rewrite (loaded_filter key ls').
  subst ls'. rewrite loaded_filter. apply filter_idem.
Qed.

Lemma strict_eq_of_Z (a b : Z) :
  strict_eq (VNum (of_Z a)) (VNum (of_Z b)) = true -> a = b.
Proof.
  simpl. unfold Qeq_bool. simpl. intros H. apply Z.eqb_eq in H. lia.
Qed.

(** Records with pairwise distinct integer ids have unique ids. *)
Lemma ids_unique_integers (data : list record) (ids : list Z) :
  Forall2 (fun r z => field r "id" = VNum (of_Z z)) data ids ->
  NoDup ids -> ids_unique data.
Proof.
  intros Hids Hnd i j r r' Hi Hj Heq.
  destruct (Forall2_lookup_l _ _ _ _ _ Hids Hi) as (a & Ha & Hra).
  destruct (Forall2_lookup_l _ _ _ _ _ Hids Hj) as (b & Hb & Hrb).
  rewrite Hra, Hrb in Heq. apply strict_eq_of_Z in Heq. subst b.
  by apply (NoDup_lookup ids i j a).
Qed.

Lemma ToBoolean_positive_id (id : Z) : 0 < id -> ToBoolean (VNum (of_Z id)) = true.
Proof.
  intros Hid. simpl. unfold Qeq_bool. simpl.
  destruct (Z.eqb_spec (id * 1) (0 * 1)); [lia | reflexivity].
Qed.

Lemma Orders_confirmDelete_filter (id : Z) (ls : storage) :
  0 < id ->
  Orders.confirmDelete (VNum (of_Z id)) ls
  = (VNull,
     setData "orders"
       (List.filter (fun r => negb (strict_eq (field r "id") (VNum (of_Z id))))
                    (getData_or_empty "orders" ls)) ls).
Proof.
  intros Hid. unfold Orders.confirmDelete.
  by rewrite (ToBoolean_positive_id id Hid).
Qed.

(** C9. Deleting a positive integer id that no record carries leaves the
    collection as it is; when the ids are unique, deleting the id of the
    record at index [i] removes that record and no other, the rest keeping
    their order; deleting the same id once more changes nothing.  This holds
    for the confirmed deletion of the orders page and for [deleteUser]. *)
Theorem C9_delete_by_id (id : Z) (ls : storage) :
  0 < id ->
  let v := VNum (of_Z id) in
  (let data := getData_or_empty "orders" ls in
   let ls' := snd (Orders.confirmDelete (Orders.deleteItem v) ls) in
   let data' := getData_or_empty "orders" ls' in
   fst (Orders.confirmDelete (Orders.deleteItem v) ls) = VNull
   /\ ((forall r, In r data -> strict_eq (field r "id") v = false) -> data' = data)
   /\ (ids_unique data ->
       forall i r, data !! i = Some r -> strict_eq (field r "id") v = true ->
         data' = delete i data /\ S (length data') = length data)
   /\ getData_or_empty "orders" (snd (Orders.confirmDelete (Orders.deleteItem v) ls'))
      = data')
  /\ (let data := getData_or_empty "users" ls in
      let ls' := Users.deleteUser v true ls in
      let data' := getData_or_empty "users" ls' in
      ((forall r, In r data -> strict_eq (field r "id") v = false) -> data' = data)
      /\ (ids_unique data ->
          forall i r, data !! i = Some r -> strict_eq (field r "id") v = true ->
            data' = delete i data /\ S (length data') = length data)
      /\ getData_or_empty "users" (Users.deleteUser v true ls') = data').
Proof.
  intros Hid v. split.
  - cbv zeta. unfold Orders.deleteItem. subst v.
    rewrite !(Orders_confirmDelete_filter id) by exact Hid. cbn [fst snd].
    rewrite delete_twice, loaded_filter.
    destruct (delete_by_id (getData_or_empty "orders" ls) (VNum (of_Z id)))
      as (Habs & Hone & _).
    split; [reflexivity |]. split; [exact Habs |]. split; [exact Hone | reflexivity].
  - cbv zeta. unfold Users.deleteUser. rewrite delete_twice, loaded_filter.
    destruct (delete_by_id (getData_or_empty "users" ls) v) as (Habs & Hone & _).
    split; [exact Habs |]. split; [exact Hone | reflexivity].
Qed.

Lemma C9_delete_by_id_witness :
  let ls : storage :=
    {[ "orders" :=
         [ ({[ "id" := JNum 1; "clientName" := JStr "Marie Martin" ]} : stored);
           ({[ "id" := JNum 2; "clientName" := JStr "Sophie Petit" ]} : stored);
           ({[ "id" := JNum 3; "clientName" := JStr "Emma Leroy" ]} : stored) ] ]} in
  let ls' := snd (Orders.confirmDelete (VNum (of_Z 2)) ls) in
  0 < 2
  /\ getData_or_empty "orders" ls' = delete 1%nat (getData_or_empty "orders" ls)
  /\ getData_or_empty "orders" (snd (Orders.confirmDelete (VNum (of_Z 2)) ls'))
     = getData_or_empty "orders" ls'.
Proof.
  intros ls ls'. split; [lia |].
  destruct (C9_delete_by_id 2 ls ltac:(lia)) as [(_ & _ & Hone & Htwice) _].
  split; [| exact Htwice].
  assert (Huniq : ids_unique (getData_or_empty "orders" ls)).
  { apply (ids_unique_integers _ [1; 2; 3]).
    - repeat constructor; vm_compute; reflexivity.
    - repeat (apply NoDup_cons_2; [rewrite ?not_elem_of_cons;
        repeat split; try lia; apply not_elem_of_nil |]). apply NoDup_nil_2. }
  apply (Hone Huniq 1%nat
           {[ "id" := VNum (of_Z 2); "clientName" := VStr "Sophie Petit" ]});
    vm_compute; reflexivity.
Defined.

(** ** The decimal text of an integer reads back as that integer *)

Lemma is_digit_facts (c : ascii) :
  is_digit c = true ->
  is_space c = false
  /\ sign (String c EmptyString) = (false, String c EmptyString)
  /\ hex_val c = Some (digit_val c)
  /\ (0 <= digit_val c < 10)
  /\ Ascii.eqb c "I"%char = false
  /\ (code c =? 120) || (code c =? 88) = false
  /\ (code c =? 111) || (code c =? 79) = false
  /\ (code c =? 98) || (code c =? 66) = false
  /\ (code c =? 101) || (code c =? 69) = false.
Proof.
  destruct c as [[] [] [] [] [] [] [] []]; intros H; try discriminate H;
    vm_compute; repeat split; congruence.
Qed.

Lemma digit_char_is_digit (d : Z) :
  0 <= d < 10 ->
  is_digit (ascii_of_N (Z.to_N (48 + d))) = true
  /\ digit_val (ascii_of_N (Z.to_N (48 + d))) = d.
Proof.
  intros Hd.
  assert (Hcases : d = 0 \/ d = 1 \/ d = 2 \/ d = 3 \/ d = 4 \/ d = 5 \/ d = 6
                   \/ d = 7 \/ d = 8 \/ d = 9) by lia.
  repeat (destruct Hcases as [-> | Hcases]; [split; reflexivity |]).
  subst d. split; reflexivity.
Qed.

Lemma sign_digit (c : ascii) (s : string) :
  is_digit c = true -> sign (String c s) = (false, String c s).
Proof.
  intros Hc. destruct (is_digit_facts c Hc) as (_ & Hs & _).
  unfold sign in *. repeat case_match; congruence.
Qed.

Lemma digits_all (s : string) (a : Z) (k : nat) :
  all_digits s = true ->
  digits s a k = (digits_value s a, (k + String.length s)%nat, EmptyString).
Proof.
  revert a k. induction s as [| c s IH]; intros a k Hs; simpl in *.
  - by rewrite Nat.add_0_r.
  - apply andb_true_iff in Hs as [Hc Hs]. rewrite Hc, IH by exact Hs.
    f_equal. f_equal. lia.
Qed.

Lemma radix_digits_all (s : string) (a : Z) (k : nat) :
  all_digits s = true ->
  radix_digits 10 s a k = (digits_value s a, (k + String.length s)%nat, EmptyString).
Proof.
  revert a k. induction s as [| c s IH]; intros a k Hs; simpl in *.
  - by rewrite Nat.add_0_r.
  - apply andb_true_iff in Hs as [Hc Hs].
    destruct (is_digit_facts c Hc) as (_ & _ & Hh & Hv & _).
    rewrite Hh. destruct (Z.ltb_spec (digit_val c) 10); [| lia].
    rewrite IH by exact Hs. f_equal. f_equal. lia.
Qed.

Lemma append_nil (t : string) : "" ++ t = t.
Proof. reflexivity. Qed.

Lemma append_cons (c : ascii) (s t : string) : String c s ++ t = String c (s ++ t).
Proof. reflexivity. Qed.

Lemma all_digits_app (s t : string) :
  all_digits (s ++ t) = all_digits s && all_digits t.
Proof.
  induction s as [| c s IH]; [reflexivity |].
  rewrite append_cons. simpl. by rewrite IH, andb_assoc.
Qed.

Lemma digits_value_app (s t : string) (a : Z) :
  digits_value (s ++ t) a = digits_value t (digits_value s a).
Proof.
  revert a. induction s as [| c s IH]; intros a; [reflexivity |].
  rewrite append_cons. simpl. apply IH.
Qed.

Lemma string_app_assoc (s t u : string) : (s ++ t) ++ u = s ++ (t ++ u).
Proof.
  induction s as [| c s IH]; [reflexivity |].
  rewrite !append_cons. by rewrite IH.
Qed.

Lemma string_app_nil_r (s : string) : s ++ "" = s.
Proof.
  induction s as [| c s IH]; [reflexivity |].
  rewrite append_cons. by rewrite IH.
Qed.

Lemma decimal_digits_app (fuel : nat) (n : Z) (acc : string) :
  decimal_digits fuel n acc = decimal_digits fuel n "" ++ acc.
Proof.
  revert n acc. induction fuel as [| f IH]; intros n acc; simpl; [reflexivity |].
  destruct (n <? 10); [reflexivity |].
  rewrite (IH (n / 10) (String _ acc)), (IH (n / 10) (String _ "")).
  by rewrite string_app_assoc.
Qed.

Lemma decimal_digits_nonempty (fuel : nat) (n : Z) :
  decimal_digits fuel n "" <> "".
Proof.
  destruct fuel as [| f]; simpl; [discriminate |].
  destruct (n <? 10); [discriminate |].
  rewrite decimal_digits_app. destruct (decimal_digits f (n / 10) "");
    [rewrite append_nil | rewrite append_cons]; discriminate.
Qed.

Lemma decimal_digits_spec (fuel : nat) (n : Z) :
  0 <= n < 10 ^ (Z.of_nat fuel + 1) ->
  all_digits (decimal_digits fuel n "") = true
  /\ digits_value (decimal_digits fuel n "") 0 = n.
Proof.
  revert n. induction fuel as [| f IH]; intros n Hn.
  - simpl in *. assert (Hm : n mod 10 = n) by (apply Z.mod_small; lia).
    rewrite Hm. destruct (digit_char_is_digit n ltac:(lia)) as [Hd Hv].
    rewrite Hd, Hv. split; [reflexivity | lia].
  - cbn [decimal_digits].
    destruct (digit_char_is_digit (n mod 10)) as [Hd Hv];
      [apply Z.mod_pos_bound; lia |].
    destruct (Z.ltb_spec n 10) as [Hlt | Hge].
    + simpl. rewrite Hd, Hv. split; [reflexivity |].
      rewrite Z.mod_small by lia. lia.
    + rewrite decimal_digits_app.
      destruct (IH (n / 10)) as [Hall Hval].
      { split; [apply Z.div_pos; lia |].
        apply Z.div_lt_upper_bound; [lia |].
        replace (Z.of_nat (S f) + 1) with (Z.succ (Z.of_nat f + 1)) in Hn by lia.
        rewrite Z.pow_succ_r in Hn by lia. lia. }
      rewrite all_digits_app, digits_value_app, Hall, Hval. simpl.
      rewrite Hd, Hv. split; [reflexivity |].
      pose proof (Z.div_mod n 10 ltac:(lia)). lia.
Qed.

Lemma log2_fuel (a : Z) : 0 <= a -> a < 10 ^ (Z.of_nat (Z.to_nat (Z.log2 a)) + 1).
Proof.
  intros Ha. rewrite Z2Nat.id by apply Z.log2_nonneg.
  destruct (Z.eq_dec a 0) as [-> | Hne]; [reflexivity |].
  pose proof (Z.log2_spec a ltac:(lia)) as [_ Hup].
  pose proof (Z.log2_nonneg a) as Hl.
  eapply Z.lt_le_trans; [exact Hup |].
  replace (Z.succ (Z.log2 a)) with (Z.log2 a + 1) by lia.
  apply Z.pow_le_mono_l. lia.
Qed.

(** The text of an integer: an optional minus and a non-empty run of
    digits whose value is the magnitude. *)
Lemma Z_toString_shape (z : Z) :
  exists ds : string,
    all_digits ds = true /\ ds <> "" /\ digits_value ds 0 = Z.abs z
    /\ Z_toString z = if z <? 0 then String "-"%char ds else ds.
Proof.
  exists (decimal_digits (Z.to_nat (Z.log2 (Z.abs z))) (Z.abs z) "").
  destruct (decimal_digits_spec (Z.to_nat (Z.log2 (Z.abs z))) (Z.abs z)) as [Hall Hval].
  { split; [lia | apply log2_fuel; lia]. }
  split; [exact Hall |]. split; [apply decimal_digits_nonempty |].
  split; [exact Hval | reflexivity].
Qed.

Lemma trimStart_head (c : ascii) (s : string) :
  is_space c = false -> trimStart (String c s) = String c s.
Proof. intros Hc. simpl. by rewrite Hc. Qed.

Lemma rev_onto_rev_onto (s acc acc' : string) :
  rev_onto (rev_onto s acc) acc' = rev_onto acc (s ++ acc').
Proof.
  revert acc acc'. induction s as [| c s IH]; intros acc acc'; [reflexivity |].
  rewrite append_cons. simpl. by rewrite IH.
Qed.

Lemma str_rev_involutive (s : string) : str_rev (str_rev s) = s.
Proof. unfold str_rev. rewrite rev_onto_rev_onto. simpl. apply string_app_nil_r. Qed.

Lemma rev_onto_head_digit (s acc : string) :
  all_digits s = true -> s <> "" ->
  exists c r, rev_onto s acc = String c r /\ is_digit c = true.
Proof.
  revert acc. induction s as [| c s IH]; intros acc Hall Hne; [done |].
  simpl in *. apply andb_true_iff in Hall as [Hc Hall].
  destruct s as [| c' s'].
  - simpl. eauto.
  - apply (IH (String c acc)); [exact Hall | discriminate].
Qed.

Lemma trim_integer_text (neg : bool) (ds : string) :
  all_digits ds = true -> ds <> "" ->
  trim (if neg then String "-"%char ds else ds)
  = if neg then String "-"%char ds else ds.
Proof.
  intros Hall Hne. unfold trim.
  assert (Hstart : trimStart (if neg then String "-"%char ds else ds)
                   = if neg then String "-"%char ds else ds).
  { destruct neg; [reflexivity |].
    destruct ds as [| c ds']; [done |]. simpl in Hall.
    apply andb_true_iff in Hall as [Hc _].
    apply trimStart_head. by destruct (is_digit_facts c Hc). }
  rewrite Hstart. unfold trimEnd.
  assert (Hrev : exists c r, str_rev (if neg then String "-"%char ds else ds) = String c r
                             /\ is_digit c = true).
  { unfold str_rev. destruct neg; simpl; by apply rev_onto_head_digit. }
  destruct Hrev as (c & r & Hr & Hc). rewrite Hr.
  rewrite trimStart_head by (by destruct (is_digit_facts c Hc)).
  rewrite <- Hr. apply str_rev_involutive.
Qed.

Lemma non_decimal_digits (ds : string) :
  all_digits ds = true -> non_decimal_literal ds = None.
Proof.
  intros Hall. unfold non_decimal_literal.
  destruct ds as [| c0 [| c s']]; try reflexivity.
  { by repeat case_match. }
  simpl in Hall. apply andb_true_iff in Hall as [_ Hall].
  apply andb_true_iff in Hall as [Hc _].
  destruct (is_digit_facts c Hc) as (_ & _ & _ & _ & _ & Hx & Ho & Hb & _).
  rewrite Hx, Ho, Hb. simpl. by repeat case_match.
Qed.

Lemma unsigned_decimal_digits (ds : string) :
  all_digits ds = true -> ds <> "" ->
  unsigned_decimal ds = Some (of_Z (digits_value ds 0 * 1), EmptyString).
Proof.
  intros Hall Hne. unfold unsigned_decimal.
  destruct ds as [| c ds']; [done |].
  pose proof Hall as Hall'. simpl in Hall'. apply andb_true_iff in Hall' as [Hc _].
  destruct (is_digit_facts c Hc) as (_ & _ & _ & _ & HI & _).
  assert (Hinf : startsWith (String c ds') "Infinity" = false).
  { simpl. by rewrite HI. }
  rewrite Hinf, (digits_all _ 0 0%nat Hall). reflexivity.
Qed.

Lemma StringToNumber_Z_toString (z : Z) :
  num_eqb (StringToNumber (Z_toString z)) (of_Z z) = true.
Proof.
  destruct (Z_toString_shape z) as (ds & Hall & Hne & Hval & ->).
  unfold StringToNumber. rewrite (trim_integer_text (z <? 0) ds Hall Hne).
  destruct (Z.ltb_spec z 0) as [Hneg | Hpos].
  - unfold decimal_literal. cbn [non_decimal_literal sign].
    rewrite (unsigned_decimal_digits ds Hall Hne), Hval.
    simpl. unfold Qeq_bool. simpl. apply Z.eqb_eq. lia.
  - rewrite (non_decimal_digits ds Hall).
    assert (Hnz : match ds with
                  | EmptyString => of_Z 0
                  | String _ _ =>
                      match decimal_literal ds with
                      | Some (v, EmptyString) => v
                      | _ => NaN
                      end
                  end = of_Z (digits_value ds 0 * 1)).
    { destruct ds as [| c ds'] eqn:Hds; [done |]. rewrite <- Hds in *.
      unfold decimal_literal.
      assert (Hs : sign ds = (false, ds)).
      { rewrite Hds. apply sign_digit. rewrite Hds in Hall. simpl in Hall.
        by apply andb_true_iff in Hall as [? _]. }
      rewrite Hs, (unsigned_decimal_digits ds Hall Hne). reflexivity. }
    assert (Hgoal : match ds with
                    | EmptyString => of_Z 0
                    | String _ _ =>
                        match None (A := number * string) with
                        | Some (v, EmptyString) => v
                        | _ =>
                            match decimal_literal ds with
                            | Some (v, EmptyString) => v
                            | _ => NaN
                            end
                        end
                    end = of_Z (digits_value ds 0 * 1)).
    { rewrite <- Hnz. by destruct ds. }
    rewrite Hgoal, Hval. simpl. unfold Qeq_bool. simpl. apply Z.eqb_eq. lia.
Qed.

Lemma parseInt_Z_toString (z : Z) : parseInt (Z_toString z) 0 = of_Z z.
Proof.
  destruct (Z_toString_shape z) as (ds & Hall & Hne & Hval & ->).
  unfold parseInt, parseInt_string.
  destruct ds as [| c ds'] eqn:Hds; [done |]. rewrite <- Hds in *.
  assert (Hc : is_digit c = true).
  { rewrite Hds in Hall. simpl in Hall. by apply andb_true_iff in Hall as [? _]. }
  assert (Hsign : sign (trimStart (if z <? 0 then String "-"%char ds else ds))
                  = (z <? 0, ds)).
  { destruct (z <? 0); [reflexivity |].
    rewrite Hds, trimStart_head by (by destruct (is_digit_facts c Hc)).
    by apply sign_digit. }
  rewrite Hsign.
  assert (Hradix : match ds with
                   | String "0"%char (String c s') =>
                       if ((code c =? 120) || (code c =? 88)) && ((0 =? 0) || (0 =? 16))
                       then (16, s')
                       else (if 0 =? 0 then 10 else 0, ds)
                   | _ => (if 0 =? 0 then 10 else 0, ds)
                   end = (10, ds)).
  { rewrite Hds. destruct ds' as [| c' s'']; [by repeat case_match |].
    assert (Hc' : is_digit c' = true).
    { rewrite Hds in Hall. simpl in Hall.
      apply andb_true_iff in Hall as [_ Hall].
      by apply andb_true_iff in Hall as [? _]. }
    destruct (is_digit_facts c' Hc') as (_ & _ & _ & _ & _ & Hx & _).
    rewrite Hx. by repeat case_match. }
  rewrite Hradix, (radix_digits_all ds 0 0%nat Hall), Hval.
  rewrite Hds. simpl String.length. cbn [Nat.add].
  destruct (Z.ltb_spec z 0); unfold of_Z; f_equal; f_equal; lia.
Qed.

Lemma loose_eq_integer_text (z : Z) :
  loose_eq (VStr (Z_toString z)) (VNum (of_Z z)) = true
  /\ loose_eq (VNum (of_Z z)) (VStr (Z_toString z)) = true.
Proof.
  pose proof (StringToNumber_Z_toString z) as H. split; [exact H |].
  simpl. simpl in H. destruct (StringToNumber (Z_toString z)); try discriminate.
  simpl in *. rewrite Qeq_bool_iff in *. by symmetry.
Qed.

Lemma Z_toString_nonempty (z : Z) : Z_toString z <> "".
Proof.
  destruct (Z_toString_shape z) as (ds & _ & Hne & _ & ->).
  by destruct (z <? 0).
Qed.

(** ** The deliveries form *)

Lemma parseInt_integer (s : string) (radix : Z) :
  parseInt s radix = NaN \/ exists z, parseInt s radix = of_Z z.
Proof.
  unfold parseInt, parseInt_string.
  destruct (sign (trimStart s)) as [neg s1].
  destruct (match s1 with
            | String "0"%char (String c s') =>
                if ((code c =? 120) || (code c =? 88)) && ((radix =? 0) || (radix =? 16))
                then (16, s')
                else (if radix =? 0 then 10 else radix, s1)
            | _ => (if radix =? 0 then 10 else radix, s1)
            end) as [r s2].
  destruct (radix_digits r s2 0 0%nat) as [[v n] rest].
  destruct n; eauto.
Qed.

Lemma reload_VStr (s : string) : reload (VStr s) = Some (VStr s).
Proof. reflexivity. Qed.

Lemma reload_VNum_not_string (n : number) :
  exists v, reload (VNum n) = Some v /\ is_string v = false
            /\ forall z, n = of_Z z -> v = VNum (of_Z z).
Proof.
  destruct n; eexists; (split; [reflexivity |]); (split; [reflexivity |]);
    intros z Hz; try discriminate. by inversion Hz.
Qed.

Lemma strict_eq_string_number (s : string) (n : number) :
  strict_eq (VStr s) (VNum n) = false.
Proof. reflexivity. Qed.

Lemma loose_eq_string_number (s : string) (n : number) :
  loose_eq (VStr s) (VNum n) = num_eqb (StringToNumber s) n.
Proof. reflexivity. Qed.

Lemma ToBoolean_nonempty (s : string) : s <> "" -> ToBoolean (VStr s) = true.
Proof. intros Hs. rewrite ToBoolean_VStr. by destruct (String.eqb_spec s ""). Qed.

(** The object that the deliveries form builds, once the date is known. *)
Lemma Deliveries_deliveryData_fields (f : Deliveries.form) (now : string)
    (ls : storage) (rec : record) :
  Deliveries.deliveryData f now ls = Ok rec ->
  rec !! "orderId" = Some (VStr (Deliveries.orderId f))
  /\ rec !! "duration" = Some (VStr (Deliveries.duration f))
  /\ rec !! "id"
     = Some (VNum (if ToBoolean (VStr (Deliveries.entityId f))
                   then parseInt (Deliveries.entityId f) 0
                   else generateId "deliveries" ls)).
Proof.
  unfold Deliveries.deliveryData.
  destruct (if ToBoolean (VStr (Deliveries.entityId f))
            then match find _ _ with Some d => Ok (field d "date") | None => Throw TypeError end
            else Ok (VStr now)) as [date |]; cbn [bind]; [| discriminate].
  intros Hrec. inversion Hrec; subst rec. repeat split; reflexivity.
Qed.

Lemma stored_fields (rec : record) (f : Deliveries.form) (n : number) :
  rec !! "orderId" = Some (VStr (Deliveries.orderId f)) ->
  rec !! "duration" = Some (VStr (Deliveries.duration f)) ->
  rec !! "id" = Some (VNum n) ->
  JSON_roundtrip rec !! "orderId" = Some (VStr (Deliveries.orderId f))
  /\ JSON_roundtrip rec !! "duration" = Some (VStr (Deliveries.duration f))
  /\ exists v, JSON_roundtrip rec !! "id" = Some v /\ is_string v = false
               /\ forall z, n = of_Z z -> v = VNum (of_Z z).
Proof.
  intros Ho Hd Hi. rewrite !JSON_roundtrip_lookup, Ho, Hd, Hi. simpl.
  repeat split. apply reload_VNum_not_string.
Qed.

Lemma Deliveries_create (f : Deliveries.form) (now : string) (ls : storage) :
  Deliveries.entityId f = "" ->
  exists (ls' : storage) (rec : record),
    Deliveries.deliveryData f now ls = Ok rec
    /\ Deliveries.handleFormSubmit f now ls = Ok ls'
    /\ rec !! "id" = Some (VNum (generateId "deliveries" ls))
    /\ getData_or_empty "deliveries" ls'
       = (getData_or_empty "deliveries" ls ++ [JSON_roundtrip rec])%list.
Proof.
  intros Hid.
  assert (Hrec : exists rec, Deliveries.deliveryData f now ls = Ok rec).
  { unfold Deliveries.deliveryData. rewrite Hid. simpl. eauto. }
  destruct Hrec as (rec & Hrec).
  destruct (Deliveries_deliveryData_fields f now ls rec Hrec) as (_ & _ & Hi).
  rewrite Hid in Hi. simpl in Hi.
  unfold Deliveries.handleFormSubmit. rewrite Hrec, Hid. cbn [bind]. simpl ToBoolean.
  eexists _, rec. split; [reflexivity |]. split; [reflexivity |].
  split; [exact Hi |].
  rewrite getData_setData, map_app, loaded_roundtrip. reflexivity.
Qed.

Lemma Deliveries_update (f : Deliveries.form) (now : string) (ls : storage) (i : nat) :
  Deliveries.entityId f <> "" ->
  findIndex (fun d => loose_eq (field d "id") (VStr (Deliveries.entityId f)))
            (getData_or_empty "deliveries" ls) = Some i ->
  exists (ls' : storage) (rec : record),
    Deliveries.deliveryData f now ls = Ok rec
    /\ Deliveries.handleFormSubmit f now ls = Ok ls'
    /\ rec !! "id" = Some (VNum (parseInt (Deliveries.entityId f) 0))
    /\ getData_or_empty "deliveries" ls' !! i = Some (JSON_roundtrip rec)
    /\ length (getData_or_empty "deliveries" ls')
       = length (getData_or_empty "deliveries" ls).
Proof.
  intros Hid Hfind.
  pose proof (ToBoolean_nonempty _ Hid) as Ht.
  destruct (find_findIndex _ _ _ Hfind) as (old & Hfound & Hold).
  assert (Hrec : exists rec, Deliveries.deliveryData f now ls = Ok rec).
  { unfold Deliveries.deliveryData. rewrite Ht, Hfound. simpl. eauto. }
  destruct Hrec as (rec & Hrec).
  destruct (Deliveries_deliveryData_fields f now ls rec Hrec) as (_ & _ & Hi).
  rewrite Ht in Hi.
  unfold Deliveries.handleFormSubmit. rewrite Hrec. cbn [bind]. rewrite Ht.
  destruct (replace_update "deliveries" ls
              (fun d => loose_eq (field d "id") (VStr (Deliveries.entityId f))) rec)
    as [Hlen Hrepl].
  destruct (Hrepl i old Hold) as [Hnew _].
  eexists _, rec. split; [reflexivity |]. split; [reflexivity |].
  split; [exact Hi |]. split; [by apply Hnew | exact Hlen].
Qed.

Lemma Deliveries_update_missing (f : Deliveries.form) (now : string) (ls : storage) :
  Deliveries.entityId f <> "" ->
  findIndex (fun d => loose_eq (field d "id") (VStr (Deliveries.entityId f)))
            (getData_or_empty "deliveries" ls) = None ->
  Deliveries.handleFormSubmit f now ls = Throw TypeError.
Proof.
  intros Hid Hfind.
  pose proof (ToBoolean_nonempty _ Hid) as Ht.
  apply find_None_findIndex in Hfind.
  unfold Deliveries.handleFormSubmit, Deliveries.deliveryData.
  by rewrite Ht, Hfind.
Qed.

Lemma Deliveries_update_found (f : Deliveries.form) (ls : storage) (z : Z) (d : record) :
  Deliveries.entityId f = Z_toString z ->
  In d (getData_or_empty "deliveries" ls) ->
  field d "id" = VNum (of_Z z) ->
  exists i,
    findIndex (fun d => loose_eq (field d "id") (VStr (Deliveries.entityId f)))
              (getData_or_empty "deliveries" ls) = Some i.
Proof.
  intros Hid Hd Hdz.
  destruct (findIndex _ _) as [i |] eqn:Hfind; [eauto |].
  pose proof (findIndex_None _ _ Hfind d Hd) as Hno. simpl in Hno.
  rewrite Hdz, Hid in Hno.
  by rewrite (proj2 (loose_eq_integer_text z)) in Hno.
Qed.

(** C10. The record that the deliveries form builds carries the order id
    and the duration as the strings read from the form, and a Number as id:
    the allocated id on creation, [parseInt] of the hidden id field, an
    integer or NaN, on update.  The form returns on creation and on the
    update of a delivery that is found, and a delivery whose integer id was
    written to the hidden field as its decimal text is found and keeps that
    id.  What is read back from storage at the place of the record has the
    two strings and an id that is no string.  The decimal text of an order
    id never equals the id strictly, and equals it loosely, as the
    preselection of [openModal] compares them. *)
Theorem C10_delivery_raw_strings (f : Deliveries.form) (now : string) (ls : storage) :
  (forall rec, Deliveries.deliveryData f now ls = Ok rec ->
     rec !! "orderId" = Some (VStr (Deliveries.orderId f))
     /\ rec !! "duration" = Some (VStr (Deliveries.duration f))
     /\ exists n, rec !! "id" = Some (VNum n)
          /\ (Deliveries.entityId f <> "" ->
              n = parseInt (Deliveries.entityId f) 0
              /\ (n = NaN \/ exists z, n = of_Z z))
          /\ (Deliveries.entityId f = "" -> n = generateId "deliveries" ls)
          /\ JSON_roundtrip rec !! "orderId" = Some (VStr (Deliveries.orderId f))
          /\ JSON_roundtrip rec !! "duration" = Some (VStr (Deliveries.duration f))
          /\ exists v, JSON_roundtrip rec !! "id" = Some v /\ is_string v = false
               /\ forall z, n = of_Z z -> v = VNum (of_Z z))
  /\ (Deliveries.entityId f = "" ->
      exists (ls' : storage) (rec : record),
        Deliveries.deliveryData f now ls = Ok rec
        /\ Deliveries.handleFormSubmit f now ls = Ok ls'
        /\ getData_or_empty "deliveries" ls'
           = (getData_or_empty "deliveries" ls ++ [JSON_roundtrip rec])%list
        /\ forall ids : list Z,
             Forall2 (fun r i => r !! "id" = Some (VNum (of_Z i)))
                     (getData_or_empty "deliveries" ls) ids ->
             exists z, rec !! "id" = Some (VNum (of_Z z))
                       /\ forall i, In i ids -> i < z)
  /\ (forall i : nat,
        Deliveries.entityId f <> "" ->
        findIndex (fun d => loose_eq (field d "id") (VStr (Deliveries.entityId f)))
                  (getData_or_empty "deliveries" ls) = Some i ->
        exists (ls' : storage) (rec : record),
          Deliveries.deliveryData f now ls = Ok rec
          /\ Deliveries.handleFormSubmit f now ls = Ok ls'
          /\ getData_or_empty "deliveries" ls' !! i = Some (JSON_roundtrip rec))
  /\ (forall (z : Z) (d : record),
        Deliveries.entityId f = Z_toString z ->
        In d (getData_or_empty "deliveries" ls) ->
        field d "id" = VNum (of_Z z) ->
        exists (i : nat) (ls' : storage) (rec : record),
          Deliveries.handleFormSubmit f now ls = Ok ls'
          /\ getData_or_empty "deliveries" ls' !! i = Some (JSON_roundtrip rec)
          /\ rec !! "id" = Some (VNum (of_Z z))
          /\ JSON_roundtrip rec !! "id" = Some (VNum (of_Z z)))
  /\ (forall (delivery order : record) (k : Z),
        field delivery "orderId" = VStr (Z_toString k) ->
        field order "id" = VNum (of_Z k) ->
        strict_eq (field delivery "orderId") (field order "id") = false
        /\ Deliveries.order_selected (Some delivery) order = true).
Proof.
  split; [| split; [| split; [| split]]].
  - intros rec Hrec.
    destruct (Deliveries_deliveryData_fields f now ls rec Hrec) as (Ho & Hd & Hi).
    split; [exact Ho |]. split; [exact Hd |].
    eexists. split; [exact Hi |].
    destruct (stored_fields rec f _ Ho Hd Hi) as (Hso & Hsd & Hsi).
    split.
    + intros Hid. rewrite (ToBoolean_nonempty _ Hid).
      split; [reflexivity | apply parseInt_integer].
    + split; [intros ->; reflexivity |]. split; [exact Hso |]. split; [exact Hsd | exact Hsi].
  - intros Hid. destruct (Deliveries_create f now ls Hid) as (ls' & rec & Hr & Hs & Hi & Hg).
    exists ls', rec. split; [exact Hr |]. split; [exact Hs |]. split; [exact Hg |].
    intros ids Hids.
    destruct (generateId_of_integers _ ids Hids) as (z & Hz & _ & _ & Hlt).
    exists z. split; [| exact Hlt].
    rewrite Hi. unfold generateId. by rewrite Hz.
  - intros i Hid Hfind.
    destruct (Deliveries_update f now ls i Hid Hfind) as (ls' & rec & Hr & Hs & _ & Hg & _).
    by exists ls', rec.
  - intros z d Hid Hd Hdz.
    destruct (Deliveries_update_found f ls z d Hid Hd Hdz) as (i & Hfind).
    assert (Hne : Deliveries.entityId f <> "").
    { rewrite Hid. apply Z_toString_nonempty. }
    destruct (Deliveries_update f now ls i Hne Hfind) as (ls' & rec & Hr & Hs & Hi & Hg & _).
    rewrite Hid, parseInt_Z_toString in Hi.
    exists i, ls', rec. split; [exact Hs |]. split; [exact Hg |]. split; [exact Hi |].
    by rewrite JSON_roundtrip_lookup, Hi.
  - intros delivery order k Hd Ho. unfold Deliveries.order_selected.
    rewrite Hd, Ho. split; [reflexivity | apply loose_eq_integer_text].
Qed.

Lemma C10_delivery_raw_strings_witness :
  let ls : storage :=
    {[ "deliveries" :=
         [ ({[ "id" := JNum 1; "orderId" := JNum 1; "driver" := JStr "Jean Dupont";
               "status" := JStr "En cours"; "duration" := JNum 25;
               "date" := JStr "2024-04-01" ]} : stored) ] ]} in
  let f := {| Deliveries.entityId := "1"; Deliveries.orderId := "2";
              Deliveries.driver := "Jean Dupont"; Deliveries.status := "En cours";
              Deliveries.duration := "30"; Deliveries.address := "8 Rue de Lyon";
              Deliveries.notes := "" |} in
  Deliveries.entityId f <> ""
  /\ exists (ls' : storage) (rec : record),
       Deliveries.handleFormSubmit f "2026-01-01T00:00:00.000Z" ls = Ok ls'
       /\ getData_or_empty "deliveries" ls' !! 0%nat = Some (JSON_roundtrip rec)
       /\ rec !! "orderId" = Some (VStr "2")
       /\ rec !! "duration" = Some (VStr "30").
Proof.
  intros ls f.
  assert (Hid : Deliveries.entityId f <> "") by discriminate.
  split; [exact Hid |].
  destruct (C10_delivery_raw_strings f "2026-01-01T00:00:00.000Z" ls)
    as (Hfields & _ & Hupd & _).
  destruct (Hupd 0%nat Hid) as (ls' & rec & Hrec & Hsub & Hget);
    [vm_compute; reflexivity |].
  destruct (Hfields rec Hrec) as (Ho & Hd & _).
  exists ls', rec. repeat split; assumption.
Defined.

(** * Further properties of the code *)

Import Derived.

(** ** The pagination controls *)

Lemma totalPages_spec (total pageSize : Z) :
  0 < pageSize ->
  (totalPages total pageSize - 1) * pageSize < total
  /\ total <= totalPages total pageSize * pageSize.
Proof.
  intros Hps. unfold totalPages.
  pose proof (Z.div_mod (- total) pageSize ltac:(lia)) as Hdm.
  pose proof (Z.mod_pos_bound (- total) pageSize Hps) as Hb.
  nia.
Qed.

Lemma in_page_range (s e i : Z) : In i (Pager.page_range s e) <-> s <= i <= e.
Proof.
  unfold Pager.page_range. rewrite in_map_iff. split.
  - intros (k & <- & Hk). apply in_seq in Hk. lia.
  - intros H. exists (Z.to_nat (i - s)). split; [lia |].
    apply in_seq. lia.
Qed.

Lemma length_page_range (s e : Z) :
  Z.of_nat (length (Pager.page_range s e)) = Z.max 0 (e - s + 1).
Proof. unfold Pager.page_range. rewrite length_map, length_seq. lia. Qed.

Lemma paginatedData_length (data : list record) (p pageSize : Z) :
  1 <= p -> 0 < pageSize ->
  Z.of_nat (length (paginatedData data p pageSize))
  = Z.max 0 (Z.min pageSize (Z.of_nat (length data) - (p - 1) * pageSize)).
Proof.
  intros Hp Hps. unfold paginatedData.
  rewrite slice_take_drop by nia.
  rewrite length_take, length_drop. nia.
Qed.

Lemma paginatedData_lookup (data : list record) (p pageSize : Z) (k : nat) :
  1 <= p -> 0 < pageSize ->
  paginatedData data p pageSize !! k
  = if decide (Z.of_nat k < pageSize)
    then data !! (Z.to_nat ((p - 1) * pageSize) + k)%nat
    else None.
Proof.
  intros Hp Hps. unfold paginatedData.
  rewrite slice_take_drop by nia.
  case_decide.
  - rewrite lookup_take_lt by lia. apply lookup_drop.
  - apply lookup_take_ge. lia.
Qed.

(** The window of [createPagination] and the facts that the source
    computes about it. *)
Lemma createPagination_window (total p pageSize : Z) :
  0 < pageSize -> 1 <= p <= totalPages total pageSize ->
  let tp := totalPages total pageSize in
  let c := Pager.createPagination total p pageSize in
  exists s e,
    map fst (Pager.pageButtons c) = Pager.page_range s e
    /\ Pager.pageButtons c = map (fun i => (i, i =? p)) (Pager.page_range s e)
    /\ 1 <= s <= p /\ p <= e <= tp
    /\ e - s + 1 = Z.min 5 tp
    /\ Pager.firstButton c = (1 <? s)
    /\ Pager.leadingDots c = (2 <? s)
    /\ Pager.trailingDots c = (e <? tp - 1)
    /\ Pager.lastButton c = (if e <? tp then Some tp else None).
Proof.
  intros Hps Hp tp c. unfold c, Pager.createPagination. fold tp.
  change (5 / 2) with 2. cbn [Pager.pageButtons Pager.firstButton Pager.leadingDots
    Pager.trailingDots Pager.lastButton].
  set (s0 := Z.max 1 (p - 2)).
  set (e := Z.min tp (s0 + 5 - 1)).
  set (s := if e - s0 + 1 <? 5 then Z.max 1 (e - 5 + 1) else s0).
  exists s, e.
  assert (Hs : 1 <= s <= p /\ p <= e <= tp /\ e - s + 1 = Z.min 5 tp).
  { unfold s, e, s0. destruct (Z.ltb_spec (Z.min tp (Z.max 1 (p - 2) + 5 - 1)
                                           - Z.max 1 (p - 2) + 1) 5); lia. }
  split; [rewrite map_map; cbn; apply map_id |].
  split; [reflexivity |].
  split; [lia |]. split; [lia |]. split; [lia |].
  split; [reflexivity |].
  split.
  { destruct (Z.ltb_spec 1 s), (Z.ltb_spec 2 s); cbn; try reflexivity; lia. }
  split; [| reflexivity].
  destruct (Z.ltb_spec e tp), (Z.ltb_spec e (tp - 1)); cbn; try reflexivity; lia.
Qed.

(** X1 (createPagination).  On a page that exists, the numbered buttons
    are a run of consecutive pages of length min(5, totalPages) that
    contains the current page, which alone is flagged active; every
    page either has a button (numbered, first or last) or lies behind an
    ellipsis on its side of the window, an ellipsis is drawn only where
    a page is hidden, and no button names a page that does not exist. *)
Theorem X1_pager_window (total p pageSize : Z) :
  0 < pageSize -> 1 <= p <= totalPages total pageSize ->
  let tp := totalPages total pageSize in
  let c := Pager.createPagination total p pageSize in
  let window := map fst (Pager.pageButtons c) in
  Z.of_nat (length (Pager.pageButtons c)) = Z.min 5 tp
  /\ (exists s e, window = Pager.page_range s e)
  /\ (forall i b, In (i, b) (Pager.pageButtons c) -> (b = true <-> i = p))
  /\ In (p, true) (Pager.pageButtons c)
  /\ (forall i, shown c i -> 1 <= i <= tp)
  /\ (forall i, 1 <= i <= tp ->
        shown c i
        \/ (Pager.leadingDots c = true /\ forall j, In j window -> i < j)
        \/ (Pager.trailingDots c = true /\ forall j, In j window -> j < i))
  /\ (Pager.leadingDots c = true -> ~ shown c 2)
  /\ (Pager.trailingDots c = true -> ~ shown c (tp - 1)).
Proof.
  intros Hps Hp tp c window.
  destruct (createPagination_window total p pageSize Hps Hp)
    as (s & e & Hw & Hb & Hs & He & Hlen & Hfirst & Hlead & Htrail & Hlast).
  fold tp c in Hw, Hb, Hfirst, Hlead, Htrail, Hlast, He, Hlen.
  assert (Hin : forall i, In i window <-> s <= i <= e).
  { intros i. unfold window. rewrite Hw. apply in_page_range. }
  assert (Hshown : forall i, shown c i <-> (1 < s /\ i = 1) \/ s <= i <= e \/ (e < tp /\ i = tp)).
  { intros i. unfold shown. fold window. rewrite Hin, Hfirst, Hlast.
    destruct (Z.ltb_spec 1 s), (Z.ltb_spec e tp); split;
      intros [[? ?] | [? | ?]]; try discriminate; try lia;
      try (right; left; lia); try (right; right; split; [lia | congruence]);
      try (left; split; [reflexivity | lia]); try (left; lia);
      try (right; right; f_equal; lia).
    all: try (inversion H1; subst; right; right; lia).
    all: try (inversion H2; subst; right; right; lia). }
  split; [| split; [| split; [| split; [| split; [| split; [| split]]]]]].
  - rewrite Hb, length_map, length_page_range. lia.
  - exists s, e. exact Hw.
  - intros i b Hi. rewrite Hb in Hi. apply in_map_iff in Hi.
    destruct Hi as (j & [= <- <-] & _). apply Z.eqb_eq.
  - rewrite Hb. apply in_map_iff. exists p. rewrite Z.eqb_refl. split; [reflexivity |].
    apply in_page_range. lia.
  - intros i Hi. apply Hshown in Hi. lia.
  - intros i Hi.
    destruct (Z_lt_le_dec i s) as [Hlt | Hge].
    + destruct (Z.eq_dec i 1) as [-> | Hne].
      * left. apply Hshown. left. lia.
      * right. left. split.
        -- rewrite Hlead. apply Z.ltb_lt. lia.
        -- intros j Hj. apply Hin in Hj. lia.
    + destruct (Z_le_gt_dec i e) as [Hle | Hgt].
      * left. apply Hshown. right. left. lia.
      * destruct (Z.eq_dec i tp) as [-> | Hne].
        -- left. apply Hshown. right. right. lia.
        -- right. right. split.
           ++ rewrite Htrail. apply Z.ltb_lt. lia.
           ++ intros j Hj. apply Hin in Hj. lia.
  - rewrite Hlead. intros H2 Hsh. apply Z.ltb_lt in H2. apply Hshown in Hsh. lia.
  - rewrite Htrail. intros H2 Hsh. apply Z.ltb_lt in H2. apply Hshown in Hsh. lia.
Qed.

Lemma X1_pager_window_witness :
  let c := Pager.createPagination 95 5 10 in
  0 < 10 /\ 1 <= 5 <= totalPages 95 10
  /\ map fst (Pager.pageButtons c) = [3; 4; 5; 6; 7]
  /\ Pager.leadingDots c = true /\ ~ shown c 2
  /\ In (5, true) (Pager.pageButtons c).
Proof.
  pose proof (X1_pager_window 95 5 10 ltac:(lia) ltac:(vm_compute; split; discriminate))
    as (_ & _ & _ & Hin & _ & _ & Hd & _).
  split; [lia |]. split; [vm_compute; split; discriminate |].
  split; [reflexivity |]. split; [reflexivity |].
  split; [apply Hd; reflexivity | exact Hin].
Defined.

(** X2 (createPagination, with the page cut of renderTable).  On a page
    that exists the info text names exactly the rows of the page cut:
    rows [start] to [end] of the collection, counted from 1, and
    [end - start + 1] of them.  On an empty collection the text reads
    0-0 of 0, there is no numbered button and both arrows are disabled. *)
Theorem X2_pager_info (data : list record) (p pageSize : Z) :
  0 < pageSize ->
  let total := Z.of_nat (length data) in
  let c := Pager.createPagination total p pageSize in
  (1 <= p <= totalPages total pageSize ->
   exists first last,
     Pager.paginationInfo c = (first, last, total)
     /\ 1 <= first <= last /\ last <= total
     /\ Z.of_nat (length (paginatedData data p pageSize)) = last - first + 1
     /\ forall k : nat,
          Z.of_nat k < last - first + 1 ->
          paginatedData data p pageSize !! k = data !! (Z.to_nat (first - 1) + k)%nat)
  /\ (data = [] -> p = 1 ->
      Pager.paginationInfo c = (0, 0, 0)
      /\ Pager.pageButtons c = []
      /\ Pager.firstButton c = false /\ Pager.lastButton c = None
      /\ Pager.prevDisabled c = true /\ Pager.nextDisabled c = true
      /\ paginatedData data p pageSize = []).
Proof.
  intros Hps total c. split.
  - intros Hp.
    destruct (totalPages_spec total pageSize Hps) as [Hlo Hhi].
    assert (Htotal : 0 < total) by nia.
    exists ((p - 1) * pageSize + 1), (Z.min (p * pageSize) total).
    split.
    { unfold c, Pager.createPagination. cbn [Pager.paginationInfo].
      destruct (Z.eqb_spec total 0); [lia | reflexivity]. }
    assert (Hlt : (p - 1) * pageSize < total) by nia.
    split; [nia |]. split; [lia |]. split.
    + rewrite paginatedData_length by lia. nia.
    + intros k Hk. rewrite paginatedData_lookup by lia.
      case_decide; [| nia].
      f_equal. f_equal. lia.
  - intros -> ->. subst total c. cbn [length Z.of_nat].
    assert (Htp : totalPages 0 pageSize = 0).
    { unfold totalPages. cbn. rewrite Z.div_0_l by lia. reflexivity. }
    unfold Pager.createPagination. change (Z.of_nat 0) with 0. rewrite Htp. cbn.
    repeat split; try reflexivity.
    all: destruct pageSize; try lia; try reflexivity.
Qed.

Lemma X2_pager_info_witness :
  let data : list record :=
    [ {[ "id" := VNum (of_Z 1) ]}; {[ "id" := VNum (of_Z 2) ]};
      {[ "id" := VNum (of_Z 3) ]} ] in
  0 < 2 /\ 1 <= 2 <= totalPages 3 2
  /\ exists first last,
       Pager.paginationInfo (Pager.createPagination 3 2 2) = (first, last, 3)
       /\ first = 3 /\ last = 3
       /\ Z.of_nat (length (paginatedData data 2 2)) = last - first + 1.
Proof.
  intros data.
  assert (Hv : 1 <= 2 <= totalPages (Z.of_nat (length data)) 2)
    by (vm_compute; split; discriminate).
  destruct (X2_pager_info data 2 2 ltac:(lia)) as [H _].
  destruct (H Hv) as (first & last & Hinfo & _ & _ & Hlen & _).
  split; [lia |]. split; [exact Hv |].
  exists first, last.
  assert (Hfl : first = 3 /\ last = 3).
  { vm_compute in Hinfo. inversion Hinfo. split; reflexivity. }
  split; [exact Hinfo |]. split; [apply Hfl |]. split; [apply Hfl | exact Hlen].
Defined.

(** X3 (createPagination, with the page cut of renderTable).  On a page
    that exists, the previous arrow is disabled exactly on page 1 and the
    next arrow exactly on the last page, and every enabled control passes
    to the callback a page that exists and whose cut is not empty. *)
Theorem X3_pager_targets (data : list record) (p pageSize : Z) :
  0 < pageSize ->
  let total := Z.of_nat (length data) in
  let tp := totalPages total pageSize in
  let c := Pager.createPagination total p pageSize in
  1 <= p <= tp ->
  (Pager.prevDisabled c = true <-> p = 1)
  /\ (Pager.nextDisabled c = true <-> p = tp)
  /\ forall t, In t (targets c p) ->
       1 <= t <= tp /\ paginatedData data t pageSize <> [].
Proof.
  intros Hps total tp c Hp.
  destruct (createPagination_window total p pageSize Hps Hp)
    as (s & e & Hw & _ & Hs & He & _ & Hfirst & _ & _ & Hlast).
  fold tp c in Hw, Hfirst, Hlast, He.
  assert (Hprev : Pager.prevDisabled c = (p =? 1)) by reflexivity.
  assert (Hnext : Pager.nextDisabled c = (p =? tp) || (tp =? 0)) by reflexivity.
  assert (Hnext' : Pager.nextDisabled c = (p =? tp)).
  { rewrite Hnext. destruct (Z.eqb_spec tp 0); [lia |]. apply orb_false_r. }
  split; [rewrite Hprev; apply Z.eqb_eq |].
  split; [rewrite Hnext'; apply Z.eqb_eq |].
  assert (Hpage : forall t, 1 <= t <= tp -> paginatedData data t pageSize <> []).
  { intros t Ht Hnil.
    pose proof (paginatedData_length data t pageSize ltac:(lia) Hps) as Hlen.
    rewrite Hnil in Hlen. cbn [length Z.of_nat] in Hlen.
    destruct (totalPages_spec total pageSize Hps) as [Hlo _]. fold tp in Hlo.
    fold total in Hlen. nia. }
  intros t Ht.
  assert (Hrange : 1 <= t <= tp); [| split; [exact Hrange | apply Hpage, Hrange]].
  unfold targets in Ht. rewrite Hprev, Hnext', Hfirst, Hlast, Hw in Ht.
  rewrite !in_app_iff in Ht.
  destruct Ht as [Ht | [Ht | [Ht | [Ht | Ht]]]].
  - destruct (Z.eqb_spec p 1); [destruct Ht |].
    destruct Ht as [<- | []]. lia.
  - destruct (Z.ltb_spec 1 s); [| destruct Ht].
    destruct Ht as [<- | []]. lia.
  - apply in_page_range in Ht. lia.
  - destruct (Z.ltb_spec e tp); [| destruct Ht].
    destruct Ht as [<- | []]. lia.
  - destruct (Z.eqb_spec p tp); [destruct Ht |].
    destruct Ht as [<- | []]. lia.
Qed.

Lemma X3_pager_targets_witness :
  let data : list record :=
    [ {[ "id" := VNum (of_Z 1) ]}; {[ "id" := VNum (of_Z 2) ]};
      {[ "id" := VNum (of_Z 3) ]} ] in
  0 < 2 /\ 1 <= 1 <= totalPages 3 2
  /\ targets (Pager.createPagination 3 1 2) 1 = [1; 2; 2]
  /\ paginatedData data 2 2 <> [].
Proof.
  intros data.
  assert (Hv : 1 <= 1 <= totalPages (Z.of_nat (length data)) 2)
    by (vm_compute; split; discriminate).
  destruct (X3_pager_targets data 1 2 ltac:(lia) Hv) as (_ & _ & Ht).
  split; [lia |]. split; [exact Hv |]. split; [reflexivity |].
  apply (Ht 2). vm_compute. right. left. reflexivity.
Defined.

(** ** The sortable headers *)

Lemma header_click_column (st : sort_state) (col : string) :
  column (Sorting.header_click st col) = Some col.
Proof.
  unfold Sorting.header_click. destruct (column st) as [c |] eqn:Hc; [| reflexivity].
  destruct (String.eqb_spec c col) as [-> | Hne]; reflexivity.
Qed.

Lemma header_click_direction (st : sort_state) (col : string) :
  direction (Sorting.header_click st col) = "asc"
  \/ direction (Sorting.header_click st col) = "desc".
Proof.
  unfold Sorting.header_click. destruct (column st) as [c |]; [| left; reflexivity].
  destruct (String.eqb c col); [| left; reflexivity].
  destruct (String.eqb (direction st) "asc"); [right | left]; reflexivity.
Qed.

Lemma clicks_snoc (cols : list string) (col : string) (st : sort_state) :
  fold_left Sorting.header_click (cols ++ [col])%list st
  = Sorting.header_click (fold_left Sorting.header_click cols st) col.
Proof. apply fold_left_app. Qed.

Lemma clicks_direction (cols : list string) :
  let st := fold_left Sorting.header_click cols Sorting.initTableSorting in
  direction st = "asc" \/ direction st = "desc".
Proof.
  induction cols as [| col cols IH] using rev_ind; [left; reflexivity |].
  cbn zeta. rewrite clicks_snoc. apply header_click_direction.
Qed.

Lemma header_click_twice (st : sort_state) (col : string) :
  column st = Some col ->
  direction st = "asc" \/ direction st = "desc" ->
  Sorting.header_click (Sorting.header_click st col) col = st.
Proof.
  destruct st as [c d]. cbn [column direction]. intros -> Hd.
  unfold Sorting.header_click. cbn [column direction]. rewrite !String.eqb_refl.
  cbn [column direction]. rewrite String.eqb_refl.
  destruct Hd as [-> | ->]; reflexivity.
Qed.

(** X4 (the click handler of initTableSorting).  After any sequence of
    header clicks the direction is asc or desc and the column is the one
    clicked last; a click on another column sorts it ascending, a click
    on the sorted column flips the direction, two clicks on it restore
    the state, and [n + 1] clicks on one fresh column leave it ascending
    exactly when [n] is even. *)
Theorem X4_header_click_toggle (cols : list string) (col : string) :
  let st := fold_left Sorting.header_click cols Sorting.initTableSorting in
  (direction st = "asc" \/ direction st = "desc")
  /\ (cols <> [] -> column st = last cols)
  /\ column (Sorting.header_click st col) = Some col
  /\ (column st <> Some col -> direction (Sorting.header_click st col) = "asc")
  /\ (column st = Some col ->
      direction (Sorting.header_click st col) <> direction st
      /\ Sorting.header_click (Sorting.header_click st col) col = st)
  /\ (forall n : nat,
        column st <> Some col ->
        direction (fold_left Sorting.header_click (repeat col (S n)) st)
        = if Nat.even n then "asc" else "desc").
Proof.
  intros st. pose proof (clicks_direction cols) as Hd. fold st in Hd. cbn zeta in Hd.
  split; [exact Hd |].
  split.
  { intros Hne. unfold st.
    destruct cols as [| c cols _] using rev_ind; [congruence |].
    rewrite clicks_snoc, header_click_column, last_snoc. reflexivity. }
  split; [apply header_click_column |].
  split.
  { intros Hc. unfold Sorting.header_click.
    destruct (column st) as [c |]; [| reflexivity].
    destruct (String.eqb_spec c col) as [-> | Hne]; [congruence | reflexivity]. }
  split.
  { intros Hc. split; [| apply header_click_twice; assumption].
    unfold Sorting.header_click. rewrite Hc, String.eqb_refl. cbn [direction].
    destruct Hd as [-> | ->]; cbn; discriminate. }
  intros n Hc.
  assert (H1 : column (Sorting.header_click st col) = Some col
               /\ direction (Sorting.header_click st col) = "asc").
  { split; [apply header_click_column |].
    unfold Sorting.header_click.
    destruct (column st) as [c |]; [| reflexivity].
    destruct (String.eqb_spec c col) as [-> | Hne]; [congruence | reflexivity]. }
  cbn [repeat fold_left].
  generalize dependent (Sorting.header_click st col). clear.
  induction n as [n IH] using (well_founded_induction lt_wf).
  intros s [Hcol Hdir].
  destruct n as [| [| n]]; [exact Hdir | |].
  - cbn [repeat fold_left Nat.even]. unfold Sorting.header_click.
    rewrite Hcol, String.eqb_refl, Hdir. reflexivity.
  - change (repeat col (S (S n))) with (col :: col :: repeat col n).
    cbn [fold_left]. rewrite header_click_twice by (rewrite ?Hdir; auto).
    change (Nat.even (S (S n))) with (Nat.even n).
    apply IH; [lia | split; assumption].
Qed.

Lemma X4_header_click_toggle_witness :
  let st := fold_left Sorting.header_click ["client"; "amount"] Sorting.initTableSorting in
  ["client"; "amount"] <> []
  /\ column st = Some "amount"
  /\ (column st <> Some "status" ->
      direction (Sorting.header_click st "status") = "asc")
  /\ (column st = Some "amount" ->
      Sorting.header_click (Sorting.header_click st "amount") "amount" = st).
Proof.
  intros st.
  pose proof (X4_header_click_toggle ["client"; "amount"] "status") as (_ & Hc & _ & Ha & _).
  pose proof (X4_header_click_toggle ["client"; "amount"] "amount") as (_ & _ & _ & _ & Hb & _).
  split; [discriminate |].
  split; [exact (Hc ltac:(discriminate)) |].
  split; [exact Ha |].
  intros H. exact (proj2 (Hb H)).
Defined.

(** X5 (initTableSorting with the callbacks of orders.js and products.js).
    The handler keeps a state of its own that starts without a column, so
    the first click on a header always sorts ascending, whatever the page
    showed before: the first click on the id header of the orders or the
    products page, which start sorted by id ascending, renders the same
    table, and only the second one sorts descending. *)
Theorem X5_first_click (literal : sort_state) (col : string) :
  Sorting.page_sort literal [col] = {| column := Some col; direction := "asc" |}
  /\ Sorting.page_sort literal [col; col] = {| column := Some col; direction := "desc" |}
  /\ (forall (ls : storage) (dom : Orders.filters) (p pageSize : Z),
        Orders.renderTable ls dom (Sorting.page_sort Sorting.currentSort ["id"]) p pageSize
        = Orders.renderTable ls dom (Sorting.page_sort Sorting.currentSort []) p pageSize)
  /\ (forall (ls : storage) (dom : Products.filters) (p pageSize : Z),
        Products.renderTable ls dom (Sorting.page_sort Sorting.currentSort ["id"]) p pageSize
        = Products.renderTable ls dom (Sorting.page_sort Sorting.currentSort []) p pageSize).
Proof.
  split; [reflexivity |].
  split.
  { unfold Sorting.page_sort. cbn [fold_left].
    unfold Sorting.header_click at 2. cbn [column Sorting.initTableSorting].
    unfold Sorting.header_click. cbn [column direction]. rewrite String.eqb_refl.
    reflexivity. }
  split; intros; reflexivity.
Qed.

(** ** The CSV export *)

Lemma unquote_body_quoted (text : string) :
  unquote_body (Csv.double_quotes text ++ String Csv.dquote EmptyString) = Some text.
Proof.
  induction text as [| c text IH]; [reflexivity |].
  cbn [Csv.double_quotes].
  destruct (Ascii.eqb c Csv.dquote) eqn:Hc.
  - apply Ascii.eqb_eq in Hc. subst c.
    rewrite !append_cons. cbn [unquote_body].
    rewrite Ascii.eqb_refl, IH. reflexivity.
  - rewrite append_cons. cbn [unquote_body]. rewrite Hc, IH. reflexivity.
Qed.

Lemma unquote_quoted (text : string) : unquote (quoted text) = Some text.
Proof.
  unfold quoted, unquote. rewrite Ascii.eqb_refl. apply unquote_body_quoted.
Qed.

Lemma cell_quoted (row : record) (header c : string) :
  Csv.cell row header = Ok c ->
  exists text,
    Csv.String_of
      (or_else (or_else (field row (Csv.remove_spaces (toLowerCase header)))
                        (field row header)) (VStr "")) = Ok text
    /\ c = quoted text.
Proof.
  unfold Csv.cell. intros H.
  destruct (Csv.String_of _) as [text | e] eqn:Ht; [| discriminate].
  cbn [bind] in H. exists text. split; [reflexivity |].
  inversion H. reflexivity.
Qed.

Lemma cell_falsy (row : record) (header : string) :
  ToBoolean (field row (Csv.remove_spaces (toLowerCase header))) = false ->
  ToBoolean (field row header) = false ->
  Csv.cell row header = Ok (quoted "").
Proof.
  intros H1 H2. unfold Csv.cell, or_else. rewrite H1, H2. reflexivity.
Qed.

(** X6 (exportToCSV).  Every cell that the export writes is the text of
    the chosen value between double quotes with the quotes inside
    doubled: reading the cell as a quoted CSV field gives the text back,
    so two different texts never give the same cell; and a value that is
    falsy under both of its keys (missing, null, false, 0, NaN or the
    empty string) is written as the empty cell. *)
Theorem X6_csv_cell_roundtrip :
  (forall text, unquote (quoted text) = Some text)
  /\ (forall a b, quoted a = quoted b -> a = b)
  /\ (forall (row : record) (header c : string),
        Csv.cell row header = Ok c ->
        exists text,
          Csv.String_of
            (or_else (or_else (field row (Csv.remove_spaces (toLowerCase header)))
                              (field row header)) (VStr "")) = Ok text
          /\ unquote c = Some text)
  /\ (forall (row : record) (header : string),
        ToBoolean (field row (Csv.remove_spaces (toLowerCase header))) = false ->
        ToBoolean (field row header) = false ->
        Csv.cell row header = Ok (quoted "")).
Proof.
  split; [exact unquote_quoted |].
  split.
  { intros a b H. apply (f_equal unquote) in H. rewrite !unquote_quoted in H.
    congruence. }
  split; [| exact cell_falsy].
  intros row header c H. destruct (cell_quoted row header c H) as (text & Ht & ->).
  exists text. split; [exact Ht | apply unquote_quoted].
Qed.

Lemma X6_csv_cell_roundtrip_witness :
  let row : record := {[ "name" := VStr (String "a" (String Csv.dquote "b"));
                         "stock" := VNum (of_Z 0) ]} in
  Csv.cell row "Name"
  = Ok (String Csv.dquote
          (String "a" (String Csv.dquote (String Csv.dquote
             (String "b" (String Csv.dquote EmptyString))))))
  /\ (exists text, unquote (String Csv.dquote
          (String "a" (String Csv.dquote (String Csv.dquote
             (String "b" (String Csv.dquote EmptyString)))))) = Some text)
  /\ Csv.cell row "Stock" = Ok (quoted "").
Proof.
  intros row.
  destruct X6_csv_cell_roundtrip as (_ & _ & Hc & Hf).
  assert (H : Csv.cell row "Name"
              = Ok (String Csv.dquote
                      (String "a" (String Csv.dquote (String Csv.dquote
                         (String "b" (String Csv.dquote EmptyString)))))))
    by (vm_compute; reflexivity).
  split; [exact H |]. split.
  - destruct (Hc _ _ _ H) as (text & _ & Hu). exists text. exact Hu.
  - apply Hf; vm_compute; reflexivity.
Defined.

Lemma ToBoolean_integer (z : Z) : ToBoolean (VNum (of_Z z)) = negb (z =? 0).
Proof.
  simpl. unfold Qeq_bool. simpl.
  destruct (Z.eqb_spec (z * 1) (0 * 1)), (Z.eqb_spec z 0); try reflexivity; lia.
Qed.

Lemma Array_map_pure {A B} (f : A -> result B) (g : A -> B) (l : list A) :
  Forall (fun x => f x = Ok (g x)) l -> Csv.Array_map f l = Ok (map g l).
Proof.
  induction 1 as [| x l Hx _ IH]; [reflexivity |].
  cbn [Csv.Array_map map]. rewrite Hx, IH. reflexivity.
Qed.

Lemma order_written_missing (r : record) (k : string) :
  order_written r -> ~ In k order_keys -> field r k = VUndef.
Proof.
  intros Hw Hk. unfold field. destruct (r !! k) as [v |] eqn:Hr; [| reflexivity].
  exfalso. apply Hk, Hw. rewrite Hr. eauto.
Qed.

Ltac not_a_key :=
  let H := fresh in
  cbn; intros H; repeat (destruct H as [H | H]; [discriminate H |]); exact H.

Lemma integer_field (r : record) (k : string) (z : Z) :
  r !! k = Some (VNum (of_Z z)) -> field r k = VNum (of_Z z).
Proof. unfold field. intros ->. reflexivity. Qed.

Lemma Orders_export_row (r : record) (z : Z) :
  order_written r -> r !! "id" = Some (VNum (of_Z z)) ->
  z <> 0 -> Z.abs z < 2 ^ 53 ->
  Csv.Array_map (Csv.cell r) Csv.Orders_headers
  = Ok (quoted (Z_toString z) :: repeat (quoted "") 7).
Proof.
  intros Hw Hid Hz Hb.
  assert (Hcell : Csv.cell r "ID" = Ok (quoted (Z_toString z))).
  { unfold Csv.cell.
    change (Csv.remove_spaces (toLowerCase "ID")) with "id".
    unfold field at 1. rewrite Hid.
    assert (Ht : ToBoolean (VNum (of_Z z)) = true).
    { rewrite ToBoolean_integer. destruct (Z.eqb_spec z 0); [lia | reflexivity]. }
    unfold or_else at 2. rewrite Ht. unfold or_else. rewrite Ht.
    cbn [Csv.String_of]. rewrite Number_toString_of_Z by exact Hb. reflexivity. }
  assert (Hempty : forall h,
             ~ In (Csv.remove_spaces (toLowerCase h)) order_keys ->
             ~ In h order_keys -> Csv.cell r h = Ok (quoted "")).
  { intros h H1 H2. apply cell_falsy; rewrite order_written_missing by assumption;
      reflexivity. }
  unfold Csv.Orders_headers. cbn [Csv.Array_map]. rewrite Hcell.
  rewrite !Hempty by not_a_key. reflexivity.
Qed.

(** X7 (handleExportCSV of orders.js, with exportToCSV).  The export
    looks a column up under its lower-cased header and under the header
    itself; of the eight headers of the orders export only ID names a key
    that an order carries.  So for orders as the form and the sample data
    write them, with non-zero integer ids below 2^53 in magnitude, every
    data row holds the id in its first cell and seven empty cells:
    client, products, quantity, amount, status, payment and date are not
    exported. *)
Theorem X7_orders_export_ids_only (ls : storage) (ids : list Z) :
  integer_ids (getData_or_empty "orders" ls) ids ->
  Forall (fun z => z <> 0 /\ Z.abs z < 2 ^ 53) ids ->
  Forall order_written (getData_or_empty "orders" ls) ->
  Csv.Orders_handleExportCSV ls
  = Ok (Csv.join Csv.newline
          (Csv.join "," Csv.Orders_headers
           :: map (fun z => Csv.join "," (quoted (Z_toString z) :: repeat (quoted "") 7))
                  ids)).
Proof.
  unfold Csv.Orders_handleExportCSV, Csv.exportToCSV.
  generalize (getData_or_empty "orders" ls). intros data Hids Hz Hw.
  assert (Hrows :
    Csv.Array_map
      (fun row => let* cells := Csv.Array_map (Csv.cell row) Csv.Orders_headers in
                  Ok (Csv.join "," cells)) data
    = Ok (map (fun z => Csv.join "," (quoted (Z_toString z) :: repeat (quoted "") 7)) ids)).
  { revert Hz Hw. induction Hids as [| r z data ids Hr _ IH]; intros Hz Hw; [reflexivity |].
    apply Forall_cons in Hz as [[Hz0 Hzb] Hz]. apply Forall_cons in Hw as [Hwr Hw].
    cbn [Csv.Array_map map].
    rewrite (Orders_export_row r z Hwr Hr Hz0 Hzb). cbn [bind].
    rewrite (IH Hz Hw). reflexivity. }
  rewrite Hrows. reflexivity.
Qed.

Lemma X7_orders_export_ids_only_witness :
  let ls : storage :=
    {[ "orders" :=
         [ ({[ "id" := JNum 1; "clientName" := JStr "Marie Martin";
               "products" := JStr "Pizza Margherita x2"; "amount" := JNum 25.98;
               "status" := JStr "En cours" ]} : stored) ] ]} in
  exists text,
    Csv.Orders_handleExportCSV ls = Ok text
    /\ text = Csv.join Csv.newline
                [ Csv.join "," Csv.Orders_headers;
                  Csv.join "," (quoted "1" :: repeat (quoted "") 7) ].
Proof.
  intros ls. eexists. split; [| reflexivity].
  apply (X7_orders_export_ids_only ls [1]).
  - constructor; [vm_compute; reflexivity | constructor].
  - constructor; [split; [lia | reflexivity] | constructor].
  - constructor; [| constructor]. intros k [v Hk]. unfold order_keys.
    change (({[ "id" := VNum (Fin 1); "clientName" := VStr "Marie Martin";
                "products" := VStr "Pizza Margherita x2"; "amount" := VNum (Fin 25.98);
                "status" := VStr "En cours" ]} : record) !! k = Some v) in Hk.
    repeat (apply lookup_insert_Some in Hk as [[<- _] | [_ Hk]];
            [cbn; tauto |]).
    apply lookup_singleton_Some in Hk as [<- _]. cbn; tauto.
Defined.

(** ** The session *)

Lemma login_find (email password : string) :
  find (fun u => strict_eq (field u "email") (VStr email)
                 && strict_eq (field u "password") (VStr password)) Auth.DEMO_USERS
  = if String.eqb email "admin@app.com" && String.eqb password "admin123"
    then Some ({[ "email" := VStr "admin@app.com"; "password" := VStr "admin123";
                  "name" := VStr "Admin"; "role" := VStr "admin" ]} : record)
    else None.
Proof.
  rewrite (String.eqb_sym email), (String.eqb_sym password). reflexivity.
Qed.

(** X8 (login, checkAuth, initAuth, logout of script.js; the submit
    handler of login.js).  Both login paths accept exactly the pair
    admin@app.com / admin123 and leave the session as it was on any other
    input; the session they store is read back by initAuth as a user
    whose role is admin, which is what enables the edit and delete
    buttons.  The session written by [login] of script.js also holds the
    password, the one written by login.js does not; after logout
    checkAuth finds no user and the role stays undefined. *)
Theorem X8_login_session (email password : string) (s : Auth.session) :
  let ok := String.eqb email "admin@app.com" && String.eqb password "admin123" in
  fst (Auth.login email password s) = ok
  /\ fst (Auth.loginForm_submit email password s) = ok
  /\ (ok = false ->
      snd (Auth.login email password s) = s
      /\ snd (Auth.loginForm_submit email password s) = s)
  /\ (ok = true ->
      (exists user,
         Auth.initAuth (snd (Auth.login email password s)) = (Some user, VStr "admin")
         /\ user !! "email" = Some (VStr email)
         /\ user !! "password" = Some (VStr password))
      /\ (exists user,
            Auth.initAuth (snd (Auth.loginForm_submit email password s))
            = (Some user, VStr "admin")
            /\ user !! "email" = Some (VStr email)
            /\ user !! "password" = None)
      /\ Auth.isAdmin (snd (Auth.initAuth (snd (Auth.login email password s)))) = true
      /\ Auth.isAdmin (snd (Auth.initAuth (snd (Auth.loginForm_submit email password s))))
         = true)
  /\ Auth.initAuth (Auth.logout s) = (None, VUndef)
  /\ Auth.isAdmin (snd (Auth.initAuth (Auth.logout s))) = false.
Proof.
  intros ok. unfold Auth.login, Auth.loginForm_submit. rewrite login_find. fold ok.
  split; [destruct ok; reflexivity |].
  split; [destruct ok; reflexivity |].
  split; [intros ->; split; reflexivity |].
  split; [| split; reflexivity].
  intros Hok. rewrite Hok. cbn [snd].
  apply andb_true_iff in Hok as [He Hp].
  apply String.eqb_eq in He, Hp. subst email password.
  split; [eexists; split; [reflexivity | split; vm_compute; reflexivity] |].
  split; [eexists; split; [reflexivity | split; vm_compute; reflexivity] |].
  split; vm_compute; reflexivity.
Qed.

Lemma X8_login_session_witness :
  (exists user,
     Auth.initAuth (snd (Auth.login "admin@app.com" "admin123" None))
     = (Some user, VStr "admin")
     /\ user !! "password" = Some (VStr "admin123"))
  /\ snd (Auth.login "admin@app.com" "admin" (None : Auth.session)) = None.
Proof.
  destruct (X8_login_session "admin@app.com" "admin123" None)
    as (_ & _ & _ & Hok & _).
  destruct (Hok ltac:(reflexivity)) as ((user & Hu & _ & Hp) & _).
  destruct (X8_login_session "admin@app.com" "admin" None)
    as (_ & _ & Hno & _).
  split; [exists user; split; assumption |].
  exact (proj1 (Hno ltac:(reflexivity))).
Defined.

(** ** The category filter of the products page *)

Lemma Qeq_bool_sym (x y : Q) : Qeq_bool x y = Qeq_bool y x.
Proof.
  destruct (Qeq_bool x y) eqn:H1, (Qeq_bool y x) eqn:H2; try reflexivity.
  - apply Qeq_bool_iff in H1. symmetry in H1. apply Qeq_bool_iff in H1. congruence.
  - apply Qeq_bool_iff in H2. symmetry in H2. apply Qeq_bool_iff in H2. congruence.
Qed.

Lemma Qeq_bool_same (x : Q) : Qeq_bool x x = true.
Proof. apply Qeq_bool_iff. reflexivity. Qed.

Lemma same_value_zero_refl (v : jsval) : ProductsPage.same_value_zero v v = true.
Proof.
  destruct v as [| | b | [| | q |] | s]; cbn; try reflexivity.
  - destruct b; reflexivity.
  - apply Qeq_bool_same.
  - apply String.eqb_refl.
Qed.

Lemma same_value_zero_sym (a b : jsval) :
  ProductsPage.same_value_zero a b = ProductsPage.same_value_zero b a.
Proof.
  destruct a as [| | x | [| | x |] | x], b as [| | y | [| | y |] | y]; cbn;
    try reflexivity.
  - destruct x, y; reflexivity.
  - apply Qeq_bool_sym.
  - apply String.eqb_sym.
Qed.

Lemma same_value_zero_VStr (s : string) (o : jsval) :
  ProductsPage.same_value_zero (VStr s) o = true -> o = VStr s.
Proof.
  destruct o; cbn; try discriminate. intros H. apply String.eqb_eq in H. congruence.
Qed.

Lemma Set_add_distinct (s : list jsval) (v : jsval) :
  distinct_values s -> distinct_values (ProductsPage.Set_add s v).
Proof.
  intros Hd. unfold ProductsPage.Set_add.
  destruct (existsb (ProductsPage.same_value_zero v) s) eqn:He; [exact Hd |].
  assert (Hnew : forall a, In a s -> ProductsPage.same_value_zero v a = false).
  { intros a Ha. destruct (ProductsPage.same_value_zero v a) eqn:Hva; [| reflexivity].
    assert (existsb (ProductsPage.same_value_zero v) s = true)
      by (apply existsb_exists; eauto).
    congruence. }
  intros i j a b Hi Hj Hab.
  destruct (decide (i < length s)%nat) as [Hil | Hil],
           (decide (j < length s)%nat) as [Hjl | Hjl].
  - rewrite lookup_app_l in Hi, Hj by assumption. eapply Hd; eassumption.
  - rewrite lookup_app_l in Hi by assumption.
    rewrite lookup_app_r in Hj by lia.
    apply list_lookup_singleton_Some in Hj as [_ <-].
    rewrite same_value_zero_sym, Hnew in Hab; [discriminate |].
    apply list_elem_of_In. eapply list_elem_of_lookup_2. exact Hi.
  - rewrite lookup_app_l in Hj by assumption.
    rewrite lookup_app_r in Hi by lia.
    apply list_lookup_singleton_Some in Hi as [_ <-].
    rewrite Hnew in Hab; [discriminate |].
    apply list_elem_of_In. eapply list_elem_of_lookup_2. exact Hj.
  - rewrite lookup_app_r in Hi, Hj by lia.
    apply list_lookup_singleton_Some in Hi as [Hi _].
    apply list_lookup_singleton_Some in Hj as [Hj _]. lia.
Qed.

Lemma Set_add_keeps (s : list jsval) (v o : jsval) :
  In o s -> In o (ProductsPage.Set_add s v).
Proof.
  intros Ho. unfold ProductsPage.Set_add.
  destruct (existsb _ s); [exact Ho |]. apply in_app_iff. tauto.
Qed.

Lemma Set_add_has (s : list jsval) (v : jsval) :
  exists o, In o (ProductsPage.Set_add s v)
            /\ ProductsPage.same_value_zero v o = true.
Proof.
  unfold ProductsPage.Set_add.
  destruct (existsb (ProductsPage.same_value_zero v) s) eqn:He.
  - apply existsb_exists in He as (o & Ho & Hvo). eauto.
  - exists v. split; [apply in_app_iff; cbn; tauto | apply same_value_zero_refl].
Qed.

Lemma Set_add_from (s : list jsval) (v o : jsval) :
  In o (ProductsPage.Set_add s v) -> In o s \/ o = v.
Proof.
  unfold ProductsPage.Set_add. destruct (existsb _ s); [tauto |].
  rewrite in_app_iff. cbn. intuition.
Qed.

Lemma Set_fold (values acc : list jsval) :
  let out := fold_left ProductsPage.Set_add values acc in
  (forall o, In o acc -> In o out)
  /\ (forall o, In o out -> In o acc \/ In o values)
  /\ (forall v, In v values ->
        exists o, In o out /\ ProductsPage.same_value_zero v o = true)
  /\ (distinct_values acc -> distinct_values out).
Proof.
  revert acc. induction values as [| v values IH]; intros acc; cbn [fold_left].
  - cbn. split; [tauto |]. split; [tauto |]. split; [intros v [] | tauto].
  - destruct (IH (ProductsPage.Set_add acc v)) as (Hkeep & Hfrom & Hall & Hd).
    split; [| split; [| split]].
    + intros o Ho. apply Hkeep, Set_add_keeps, Ho.
    + intros o Ho. destruct (Hfrom o Ho) as [Ho' | Ho']; [| cbn; tauto].
      destruct (Set_add_from _ _ _ Ho') as [? | ->]; cbn; tauto.
    + intros w [<- | Hw]; [| apply Hall, Hw].
      destruct (Set_add_has acc v) as (o & Ho & Hvo).
      exists o. split; [apply Hkeep, Ho | exact Hvo].
    + intros Hacc. apply Hd, Set_add_distinct, Hacc.
Qed.

(** X9 (populateCategoryFilter of products.js).  The options added to
    the category filter are the categories of the stored products, each
    one once: every product's category is among the options, every
    option is the category of some product, and no two options are the
    same value, so the list has no duplicate. *)
Theorem X9_category_options (ls : storage) :
  let products := getData_or_empty "products" ls in
  let options := ProductsPage.populateCategoryFilter ls in
  (forall p, In p products ->
     exists o, In o options
               /\ ProductsPage.same_value_zero (field p "category") o = true)
  /\ (forall o, In o options -> exists p, In p products /\ field p "category" = o)
  /\ distinct_values options
  /\ NoDup options
  /\ (forall s, In (VStr s) options <->
                exists p, In p products /\ field p "category" = VStr s)
  /\ (products = [] -> options = []).
Proof.
  intros products options.
  destruct (Set_fold (map (fun p => field p "category") products) [])
    as (_ & Hfrom & Hall & Hd).
  fold (ProductsPage.Set_of (map (fun p => field p "category") products)) in Hfrom, Hall, Hd.
  change (ProductsPage.Set_of (map (fun p => field p "category") products))
    with options in Hfrom, Hall, Hd.
  assert (H1 : forall p, In p products ->
                 exists o, In o options
                   /\ ProductsPage.same_value_zero (field p "category") o = true).
  { intros p Hp. apply Hall, in_map_iff. eauto. }
  assert (H2 : forall o, In o options ->
                 exists p, In p products /\ field p "category" = o).
  { intros o Ho. destruct (Hfrom o Ho) as [[] | Hv].
    apply in_map_iff in Hv as (p & <- & Hp). eauto. }
  assert (H3 : distinct_values options).
  { apply Hd. intros i j a b Hi. rewrite lookup_nil in Hi. discriminate. }
  split; [exact H1 |]. split; [exact H2 |]. split; [exact H3 |].
  split; [| split].
  - apply NoDup_alt. intros i j x Hi Hj. eapply H3; [exact Hi | exact Hj |].
    apply same_value_zero_refl.
  - intros s. split; [apply H2 |].
    intros (p & Hp & Hc). destruct (H1 p Hp) as (o & Ho & Hpo).
    rewrite Hc in Hpo. apply same_value_zero_VStr in Hpo. congruence.
  - unfold options, ProductsPage.populateCategoryFilter. fold products.
    intros ->. reflexivity.
Qed.

Lemma X9_category_options_witness :
  let ls : storage :=
    {[ "products" :=
         [ ({[ "id" := JNum 1; "category" := JStr "Pizza" ]} : stored);
           ({[ "id" := JNum 2; "category" := JStr "Sushi" ]} : stored);
           ({[ "id" := JNum 3; "category" := JStr "Pizza" ]} : stored) ] ]} in
  ProductsPage.populateCategoryFilter ls = [VStr "Pizza"; VStr "Sushi"]
  /\ NoDup (ProductsPage.populateCategoryFilter ls).
Proof.
  intros ls. split; [vm_compute; reflexivity |].
  apply (X9_category_options ls).
Defined.

(** ** The order form: creation, validation, the client of an order *)

Lemma strict_eq_integers (a b : Z) :
  strict_eq (VNum (of_Z a)) (VNum (of_Z b)) = (a =? b).
Proof.
  simpl. unfold Qeq_bool. simpl.
  destruct (Z.eqb_spec (a * 1) (b * 1)), (Z.eqb_spec a b); try reflexivity; lia.
Qed.

Lemma integer_id_field (r : record) (z : Z) :
  r !! "id" = Some (VNum (of_Z z)) -> field r "id" = VNum (of_Z z).
Proof. unfold field. intros ->. reflexivity. Qed.

Lemma integer_ids_fields (data : list record) (ids : list Z) :
  integer_ids data ids ->
  Forall2 (fun r z => field r "id" = VNum (of_Z z)) data ids.
Proof.
  intros H. eapply Forall2_impl; [exact H |].
  intros r z Hr. apply integer_id_field, Hr.
Qed.

Lemma integer_ids_lookup (data : list record) (ids : list Z) (i : nat) (r : record) :
  integer_ids data ids -> data !! i = Some r ->
  exists z, ids !! i = Some z /\ r !! "id" = Some (VNum (of_Z z)).
Proof.
  intros H Hr. destruct (Forall2_lookup_l _ _ _ _ _ H Hr) as (z & Hz & Hid). eauto.
Qed.

Lemma findIndex_integer_ids (data : list record) (ids : list Z) (z : Z) :
  integer_ids data ids ->
  findIndex (fun r => strict_eq (field r "id") (VNum (of_Z z))) data
  = findIndex (fun i => i =? z) ids.
Proof.
  induction 1 as [| r i data ids Hr _ IH]; [reflexivity |].
  cbn [findIndex]. rewrite (integer_id_field r i Hr), strict_eq_integers, IH.
  reflexivity.
Qed.

Lemma findIndex_absent (ids : list Z) (z : Z) :
  ~ In z ids -> findIndex (fun i => i =? z) ids = None.
Proof.
  induction ids as [| i ids IH]; [reflexivity |].
  intros Hn. cbn [findIndex].
  destruct (Z.eqb_spec i z) as [-> | Hne]; [exfalso; apply Hn; left; reflexivity |].
  rewrite IH; [reflexivity |]. intros Hin. apply Hn. right. exact Hin.
Qed.

Lemma findIndex_present (ids : list Z) (z : Z) (i : nat) :
  NoDup ids -> ids !! i = Some z -> findIndex (fun i => i =? z) ids = Some i.
Proof.
  revert i. induction ids as [| x ids IH]; intros i Hnd Hi; [discriminate |].
  apply NoDup_cons in Hnd as [Hx Hnd]. cbn [findIndex].
  destruct i as [| i]; cbn in Hi.
  - injection Hi as ->. rewrite Z.eqb_refl. reflexivity.
  - destruct (Z.eqb_spec x z) as [-> | Hne].
    + exfalso. apply Hx. eapply list_elem_of_lookup_2. exact Hi.
    + rewrite (IH i Hnd Hi). reflexivity.
Qed.

Lemma find_integer_id (data : list record) (ids : list Z) (z : Z) :
  integer_ids data ids ->
  (~ In z ids -> find (fun r => strict_eq (field r "id") (VNum (of_Z z))) data = None)
  /\ (forall i c, NoDup ids -> ids !! i = Some z -> data !! i = Some c ->
        find (fun r => strict_eq (field r "id") (VNum (of_Z z))) data = Some c).
Proof.
  intros Hids. split.
  - intros Hn. apply find_None_findIndex.
    rewrite (findIndex_integer_ids data ids z Hids). apply findIndex_absent, Hn.
  - intros i c Hnd Hi Hc.
    pose proof (findIndex_present ids z i Hnd Hi) as Hf.
    rewrite <- (findIndex_integer_ids data ids z Hids) in Hf.
    destruct (find_findIndex _ _ _ Hf) as (x & Hx & Hix). congruence.
Qed.

Lemma reload_finite (q : Q) : reload (VNum (Fin q)) = Some (VNum (Fin q)).
Proof. reflexivity. Qed.

Lemma Orders_create (f : Orders.form) (editingId : jsval) (today : string)
    (ls : storage) :
  ToBoolean editingId = false -> order_rejected f ls = false ->
  getData_or_empty "orders" (Orders.handleFormSubmit f editingId today ls)
  = (getData_or_empty "orders" ls
     ++ [JSON_roundtrip
           (<["createdAt" := VStr today]>
              (<["id" := VNum (generateId "orders" ls)]> (Orders.formData f ls)))])%list.
Proof.
  intros He Hr. unfold Orders.handleFormSubmit. fold (order_rejected f ls).
  rewrite Hr, He.
  rewrite getData_setData, map_app, loaded_roundtrip. reflexivity.
Qed.

(** X10 (handleFormSubmit of orders.js, creation path, with generateId).
    An accepted submission with no order being edited appends exactly
    one record and leaves the stored orders and every other collection
    as they are.  On safe integer ids the new record carries an id
    greater than every stored one (1 on an empty collection), the
    creation date of the clock and the submitted values; ids that were
    pairwise different stay so.  The form's numbers are plain text read
    without rounding. *)
Theorem X10_order_create (f : Orders.form) (editingId : jsval) (today : string)
    (ls : storage) (ids : list Z) :
  ToBoolean editingId = false ->
  order_form_exact f = true ->
  order_rejected f ls = false ->
  integer_ids (getData_or_empty "orders" ls) ids ->
  Forall (fun i => safe_integer i = true) ids ->
  let data := getData_or_empty "orders" ls in
  let ls' := Orders.handleFormSubmit f editingId today ls in
  exists (n : Z) (r : record),
    getData_or_empty "orders" ls' = (data ++ [r])%list
    /\ r !! "id" = Some (VNum (of_Z n))
    /\ (forall i, In i ids -> i < n)
    /\ (ids = [] -> n = 1)
    /\ r !! "createdAt" = Some (VStr today)
    /\ (forall k, k <> "id" -> k <> "createdAt" ->
          r !! k = JSON_roundtrip (Orders.formData f ls) !! k)
    /\ integer_ids (getData_or_empty "orders" ls') (ids ++ [n])
    /\ (NoDup ids -> ids_unique (getData_or_empty "orders" ls'))
    /\ (forall key, key <> "orders" -> ls' !! key = ls !! key).
Proof.
  intros He _ Hr Hids _ data ls'.
  destruct (generateId_of_integers data ids Hids) as (n & Hn & Hempty & _ & Hlt).
  pose proof (Orders_create f editingId today ls He Hr) as Hdata.
  fold ls' data in Hdata.
  set (rec := <["createdAt" := VStr today]>
                (<["id" := VNum (generateId "orders" ls)]> (Orders.formData f ls))) in *.
  assert (Hid : JSON_roundtrip rec !! "id" = Some (VNum (of_Z n))).
  { rewrite JSON_roundtrip_lookup. unfold rec.
    rewrite lookup_insert_ne by discriminate. rewrite lookup_insert_eq.
    unfold generateId. fold data. rewrite Hn. reflexivity. }
  assert (Hids' : integer_ids (getData_or_empty "orders" ls') (ids ++ [n])).
  { rewrite Hdata. apply Forall2_app; [exact Hids |].
    constructor; [exact Hid | constructor]. }
  exists n, (JSON_roundtrip rec).
  split; [exact Hdata |]. split; [exact Hid |]. split; [exact Hlt |].
  split; [exact Hempty |].
  split.
  { rewrite JSON_roundtrip_lookup. unfold rec. rewrite lookup_insert_eq. reflexivity. }
  split.
  { intros k Hk1 Hk2. rewrite !JSON_roundtrip_lookup. unfold rec.
    rewrite !lookup_insert_ne by congruence. reflexivity. }
  split; [exact Hids' |].
  split.
  { intros Hnd. eapply ids_unique_integers; [apply integer_ids_fields, Hids' |].
    apply NoDup_app. split; [exact Hnd |]. split; [| apply NoDup_singleton].
    intros x Hx Hx'. apply list_elem_of_In in Hx. apply Hlt in Hx.
    apply list_elem_of_singleton in Hx'. lia. }
  intros key Hkey. unfold ls', Orders.handleFormSubmit. fold (order_rejected f ls).
  rewrite Hr. cbn [orb negb]. apply setData_other, Hkey.
Qed.

Lemma X10_order_create_witness :
  let ls : storage :=
    {[ "orders" :=
         [ ({[ "id" := JNum 1; "clientName" := JStr "Marie Martin" ]} : stored);
           ({[ "id" := JNum 4; "clientName" := JStr "Emma Leroy" ]} : stored) ];
       "clients" := [ ({[ "id" := JNum 3; "name" := JStr "Sophie Petit" ]} : stored) ] ]} in
  let f := {| Orders.client := "3"; Orders.product := "Sushi Mix";
              Orders.quantity := "1"; Orders.amount := "18.99";
              Orders.status := "En attente"; Orders.payment := "En attente";
              Orders.address := "8 Rue de Lyon"; Orders.notes := None |} in
  exists r,
    getData_or_empty "orders" (Orders.handleFormSubmit f VNull "2026-01-01" ls)
    = (getData_or_empty "orders" ls ++ [r])%list
    /\ r !! "id" = Some (VNum (of_Z 5))
    /\ r !! "createdAt" = Some (VStr "2026-01-01").
Proof.
  intros ls f.
  destruct (X10_order_create f VNull "2026-01-01" ls [1; 4])
    as (n & r & Hdata & Hid & Hlt & _ & Hc & _ & Hids & _).
  - reflexivity.
  - vm_compute. reflexivity.
  - vm_compute. reflexivity.
  - constructor; [vm_compute; reflexivity |].
    constructor; [vm_compute; reflexivity | constructor].
  - repeat constructor.
  - exists r. split; [exact Hdata |]. split; [| exact Hc].
    assert (Hn : JSON_roundtrip
                   (<["createdAt" := VStr "2026-01-01"]>
                      (<["id" := VNum (generateId "orders" ls)]> (Orders.formData f ls)))
                 !! "id" = Some (VNum (of_Z 5))) by (vm_compute; reflexivity).
    rewrite (Orders_create f VNull "2026-01-01" ls) in Hdata by (vm_compute; reflexivity).
    apply app_inv_head in Hdata. injection Hdata as <-. exact Hn.
Defined.

Lemma ToBoolean_number (n : number) :
  ToBoolean (VNum n) = false <-> n = NaN \/ exists q, n = Fin q /\ (q == 0)%Q.
Proof.
  destruct n as [| | q |]; cbn.
  - split; [left; reflexivity | reflexivity].
  - split; [discriminate | intros [? | (q & ? & _)]; discriminate].
  - rewrite negb_false_iff, Qeq_bool_iff. split.
    + intros H. right. exists q. split; [reflexivity | exact H].
    + intros [? | (q' & [= <-] & H)]; [discriminate | exact H].
  - split; [discriminate | intros [? | (q & ? & _)]; discriminate].
Qed.

Lemma Orders_formData_lookup (f : Orders.form) (ls : storage) :
  Orders.formData f ls !! "clientId" = Some (VNum (parseInt (Orders.client f) 10))
  /\ Orders.formData f ls !! "products" = Some (VStr (Orders.product f))
  /\ Orders.formData f ls !! "amount" = Some (VNum (parseFloat (VStr (Orders.amount f))))
  /\ Orders.formData f ls !! "quantity" = Some (VNum (parseInt (Orders.quantity f) 10)).
Proof. repeat split; reflexivity. Qed.

Lemma order_rejected_unfold (f : Orders.form) (ls : storage) :
  order_rejected f ls
  = negb (ToBoolean (VNum (parseInt (Orders.client f) 10)))
    || negb (ToBoolean (VStr (Orders.product f)))
    || negb (ToBoolean (VNum (parseFloat (VStr (Orders.amount f))))).
Proof. reflexivity. Qed.

(** X11 (the validation of handleFormSubmit of orders.js).  A submission
    is rejected exactly when the client value parses to no integer or to
    0, the product is the empty string, or the amount parses to no
    number or to 0; the stored clients play no part.  A rejected
    submission leaves the storage as it is, on the creation and on the
    update path.  The quantity is not validated: when it parses to no
    integer the record holds NaN, which is stored as null.  The form's
    numbers are plain text read without rounding: the integers are safe
    and the amount neither underflows nor overflows. *)
Theorem X11_order_validation (f : Orders.form) (editingId : jsval) (today : string)
    (ls : storage) :
  order_form_exact f = true ->
  (order_rejected f ls = true <->
     (parseInt (Orders.client f) 10 = NaN \/ parseInt (Orders.client f) 10 = of_Z 0)
     \/ Orders.product f = ""
     \/ (parseFloat (VStr (Orders.amount f)) = NaN
         \/ exists q, parseFloat (VStr (Orders.amount f)) = Fin q /\ (q == 0)%Q))
  /\ (forall ls2 : storage, order_rejected f ls2 = order_rejected f ls)
  /\ (order_rejected f ls = true ->
      Orders.handleFormSubmit f editingId today ls = ls)
  /\ (parseInt (Orders.quantity f) 10 = NaN ->
      Orders.formData f ls !! "quantity" = Some (VNum NaN)
      /\ JSON_roundtrip (Orders.formData f ls) !! "quantity" = Some VNull).
Proof.
  intros _.
  split; [| split; [| split]].
  - rewrite order_rejected_unfold, !orb_true_iff, !negb_true_iff.
    rewrite !ToBoolean_number, ToBoolean_VStr, negb_false_iff, String.eqb_eq.
    assert (Hc : (parseInt (Orders.client f) 10 = NaN
                  \/ exists q, parseInt (Orders.client f) 10 = Fin q /\ (q == 0)%Q)
                 <-> (parseInt (Orders.client f) 10 = NaN
                      \/ parseInt (Orders.client f) 10 = of_Z 0)).
    { destruct (parseInt_integer (Orders.client f) 10) as [-> | (z & ->)].
      - tauto.
      - split.
        + intros [? | (q & [= <-] & Hq)]; [discriminate |]. right.
          unfold Qeq in Hq. cbn in Hq. f_equal. lia.
        + intros [? | Hz]; [discriminate |]. right. exists (inject_Z z).
          split; [reflexivity |]. injection Hz as ->. reflexivity. }
    rewrite Hc. tauto.
  - intros ls2. rewrite !order_rejected_unfold. reflexivity.
  - intros Hr. unfold Orders.handleFormSubmit. fold (order_rejected f ls).
    rewrite Hr. reflexivity.
  - intros Hq. rewrite JSON_roundtrip_lookup.
    destruct (Orders_formData_lookup f ls) as (_ & _ & _ & ->).
    rewrite Hq. split; reflexivity.
Qed.

Lemma X11_order_validation_witness :
  let f := {| Orders.client := ""; Orders.product := "Sushi Mix";
              Orders.quantity := "1"; Orders.amount := "18.99";
              Orders.status := "En attente"; Orders.payment := "En attente";
              Orders.address := "8 Rue de Lyon"; Orders.notes := None |} in
  let ls : storage :=
    {[ "orders" := [ ({[ "id" := JNum 1 ]} : stored) ] ]} in
  order_form_exact f = true
  /\ order_rejected f ls = true
  /\ Orders.handleFormSubmit f VNull "2026-01-01" ls = ls.
Proof.
  intros f ls.
  assert (Hf : order_form_exact f = true) by (vm_compute; reflexivity).
  split; [exact Hf |].
  destruct (X11_order_validation f VNull "2026-01-01" ls Hf) as (Hiff & _ & Hrej & _).
  assert (H : order_rejected f ls = true).
  { apply Hiff. left. left. reflexivity. }
  split; [exact H | exact (Hrej H)].
Defined.

(** [parseInt] with radix 10 reads back the decimal text of an integer. *)
Lemma parseInt10_Z_toString (z : Z) : parseInt (Z_toString z) 10 = of_Z z.
Proof.
  destruct (Z_toString_shape z) as (ds & Hall & Hne & Hval & ->).
  unfold parseInt, parseInt_string.
  destruct ds as [| c ds'] eqn:Hds; [done |]. rewrite <- Hds in *.
  assert (Hc : is_digit c = true).
  { rewrite Hds in Hall. simpl in Hall. by apply andb_true_iff in Hall as [? _]. }
  assert (Hsign : sign (trimStart (if z <? 0 then String "-"%char ds else ds))
                  = (z <? 0, ds)).
  { destruct (z <? 0); [reflexivity |].
    rewrite Hds, trimStart_head by (by destruct (is_digit_facts c Hc)).
    by apply sign_digit. }
  rewrite Hsign.
  assert (Hradix : match ds with
                   | String "0"%char (String c s') =>
                       if ((code c =? 120) || (code c =? 88)) && ((10 =? 0) || (10 =? 16))
                       then (16, s')
                       else (if 10 =? 0 then 10 else 10, ds)
                   | _ => (if 10 =? 0 then 10 else 10, ds)
                   end = (10, ds)).
  { cbn [Z.eqb orb]. rewrite Hds. repeat case_match; try reflexivity.
    all: rewrite andb_false_r in *; discriminate. }
  rewrite Hradix, (radix_digits_all ds 0 0%nat Hall), Hval.
  rewrite Hds. simpl String.length. cbn [Nat.add].
  destruct (Z.ltb_spec z 0); unfold of_Z; f_equal; f_equal; lia.
Qed.

Lemma populateClientSelect_values (data : list record) (ids : list Z) :
  integer_ids data ids -> Forall (fun z => Z.abs z < 2 ^ 53) ids ->
  Csv.Array_map (fun client => Csv.String_of (field client "id")) data
  = Ok (map Z_toString ids).
Proof.
  induction 1 as [| r z data ids Hr _ IH]; intros Hb; [reflexivity |].
  apply Forall_cons in Hb as [Hz Hb].
  cbn [Csv.Array_map map]. rewrite (integer_id_field r z Hr). cbn [Csv.String_of].
  rewrite Number_toString_of_Z by exact Hz. cbn [bind]. rewrite (IH Hb). reflexivity.
Qed.

(** X12 (populateClientSelect and handleFormSubmit of orders.js, with the
    client form).  With clients that carry pairwise different integer
    ids below 2^53 in magnitude, the i-th option of the client select
    holds the decimal text of
    the i-th client's id, and a submission with that option selected
    builds an order with that id as clientId and that client's name as
    clientName; a value that names no client gives the name
    [Client inconnu].  The name is a copy: saving or deleting a client
    afterwards does not touch the stored orders. *)
Theorem X12_order_client_snapshot (f : Orders.form) (ls : storage) (ids : list Z) :
  let clients := getData_or_empty "clients" ls in
  integer_ids clients ids -> NoDup ids -> Forall (fun z => Z.abs z < 2 ^ 53) ids ->
  OrdersPage.populateClientSelect ls = Ok (map Z_toString ids)
  /\ (forall (i : nat) (c : record) (z : Z),
        clients !! i = Some c -> ids !! i = Some z ->
        Orders.client f = Z_toString z ->
        Orders.formData f ls !! "clientId" = Some (VNum (of_Z z))
        /\ Orders.formData f ls !! "clientName" = Some (field c "name"))
  /\ (forall z : Z,
        Orders.client f = Z_toString z -> ~ In z ids ->
        Orders.formData f ls !! "clientName" = Some (VStr "Client inconnu"))
  /\ (forall cf : Clients.form,
        getData_or_empty "orders" (Clients.handleFormSubmit cf ls)
        = getData_or_empty "orders" ls)
  /\ (forall (id : jsval) (confirmed : bool),
        getData_or_empty "orders" (Clients.deleteClient id confirmed ls)
        = getData_or_empty "orders" ls).
Proof.
  intros clients Hids Hnd Hb.
  assert (Hname : forall z, Orders.client f = Z_toString z ->
            Orders.formData f ls !! "clientId" = Some (VNum (of_Z z))
            /\ Orders.formData f ls !! "clientName"
               = Some match find (fun c => strict_eq (field c "id") (VNum (of_Z z)))
                                 clients with
                      | Some c => field c "name"
                      | None => VStr "Client inconnu"
                      end).
  { intros z Hz. unfold Orders.formData. rewrite Hz, parseInt10_Z_toString.
    split; reflexivity. }
  split; [apply populateClientSelect_values; assumption |].
  split; [| split; [| split]].
  - intros i c z Hc Hi Hz. destruct (Hname z Hz) as [H1 H2].
    split; [exact H1 |]. rewrite H2.
    destruct (find_integer_id clients ids z Hids) as [_ Hfound].
    rewrite (Hfound i c Hnd Hi Hc). reflexivity.
  - intros z Hz Hn. destruct (Hname z Hz) as [_ H2]. rewrite H2.
    destruct (find_integer_id clients ids z Hids) as [Hnone _].
    rewrite (Hnone Hn). reflexivity.
  - intros cf. unfold getData_or_empty, getData, Clients.handleFormSubmit.
    rewrite setData_other by discriminate. reflexivity.
  - intros id [|]; [| reflexivity].
    unfold getData_or_empty, getData, Clients.deleteClient.
    rewrite setData_other by discriminate. reflexivity.
Qed.

Lemma X12_order_client_snapshot_witness :
  let ls : storage :=
    {[ "clients" :=
         [ ({[ "id" := JNum 1; "name" := JStr "Marie Martin" ]} : stored);
           ({[ "id" := JNum 3; "name" := JStr "Sophie Petit" ]} : stored) ] ]} in
  let f := {| Orders.client := "3"; Orders.product := "Sushi Mix";
              Orders.quantity := "1"; Orders.amount := "18.99";
              Orders.status := "En attente"; Orders.payment := "En attente";
              Orders.address := "8 Rue de Lyon"; Orders.notes := None |} in
  OrdersPage.populateClientSelect ls = Ok ["1"; "3"]
  /\ Orders.formData f ls !! "clientName" = Some (VStr "Sophie Petit").
Proof.
  intros ls f.
  destruct (X12_order_client_snapshot f ls [1; 3]) as (Hsel & Hname & _).
  - constructor; [vm_compute; reflexivity |].
    constructor; [vm_compute; reflexivity | constructor].
  - repeat (apply NoDup_cons_2; [rewrite ?not_elem_of_cons; repeat split; try lia;
                                  apply not_elem_of_nil |]).
    apply NoDup_nil_2.
  - repeat (constructor; [reflexivity |]). constructor.
  - split; [exact Hsel |].
    destruct (Hname 1%nat (of_json <$> ({[ "id" := JNum 3; "name" := JStr "Sophie Petit" ]}
                                        : stored)) 3) as [_ H];
      [vm_compute; reflexivity | reflexivity | reflexivity |].
    rewrite H. vm_compute. reflexivity.
Defined.

(** ** Deleting orders *)



Lemma filter_app_last {A} (keep : A -> bool) (l : list A) (x : A) :
  (forall y, In y l -> keep y = true) -> keep x = false ->
  List.filter keep (l ++ [x])%list = l.
Proof.
  intros Hl Hx. rewrite List.filter_app. cbn [List.filter]. rewrite Hx.
  rewrite filter_none by exact Hl. apply app_nil_r.
Qed.

(** X14 (handleFormSubmit, deleteItem and confirmDelete of orders.js).
    On a collection with positive safe integer ids, creating an order
    and then deleting the order with the id that was allocated gives
    back the stored orders as they were.  The form's numbers are plain
    text read without rounding. *)
Theorem X14_order_create_delete (f : Orders.form) (editingId : jsval) (today : string)
    (ls : storage) (ids : list Z) :
  ToBoolean editingId = false ->
  order_form_exact f = true ->
  order_rejected f ls = false ->
  integer_ids (getData_or_empty "orders" ls) ids ->
  Forall (fun z => 0 < z) ids ->
  Forall (fun z => safe_integer z = true) ids ->
  let ls1 := Orders.handleFormSubmit f editingId today ls in
  let ls2 := snd (Orders.confirmDelete
                    (Orders.deleteItem (VNum (generateId "orders" ls))) ls1) in
  getData_or_empty "orders" ls2 = getData_or_empty "orders" ls
  /\ length (getData_or_empty "orders" ls1)
     = S (length (getData_or_empty "orders" ls))
  /\ fst (Orders.confirmDelete (Orders.deleteItem (VNum (generateId "orders" ls))) ls1)
     = VNull.
Proof.
  intros He _ Hr Hids Hpos _ ls1 ls2.
  destruct (generateId_of_integers (getData_or_empty "orders" ls) ids Hids)
    as (n & Hn & Hempty & Hmax & Hlt).
  assert (Hgen : generateId "orders" ls = of_Z n) by exact Hn.
  assert (Hnpos : 0 < n).
  { destruct ids as [| z ids]; [rewrite Hempty by reflexivity; lia |].
    apply Forall_cons in Hpos as [Hz _]. specialize (Hlt z (or_introl eq_refl)). lia. }
  pose proof (Orders_create f editingId today ls He Hr) as Hdata. fold ls1 in Hdata.
  set (rec := <["createdAt" := VStr today]>
                (<["id" := VNum (generateId "orders" ls)]> (Orders.formData f ls))) in *.
  assert (Hid : field (JSON_roundtrip rec) "id" = VNum (of_Z n)).
  { apply integer_id_field. rewrite JSON_roundtrip_lookup. unfold rec.
    rewrite lookup_insert_ne by discriminate. rewrite lookup_insert_eq, Hgen.
    reflexivity. }
  unfold ls2, Orders.deleteItem. rewrite Hgen.
  rewrite (Orders_confirmDelete_filter n ls1 Hnpos). cbn [fst snd].
  split; [| split; [| reflexivity]].
  - rewrite loaded_filter, Hdata. apply filter_app_last.
    + intros r Hr'. apply list_elem_of_In, list_elem_of_lookup in Hr' as [i Hi].
      destruct (integer_ids_lookup _ _ _ _ Hids Hi) as (z & Hz & Hrz).
      rewrite (integer_id_field r z Hrz), strict_eq_integers.
      assert (z < n) by (apply Hlt, list_elem_of_In; eapply list_elem_of_lookup_2; exact Hz).
      destruct (Z.eqb_spec z n); [lia | reflexivity].
    + rewrite Hid, strict_eq_integers, Z.eqb_refl. reflexivity.
  - rewrite Hdata, length_app. cbn. lia.
Qed.

Lemma X14_order_create_delete_witness :
  let ls : storage :=
    {[ "orders" :=
         [ ({[ "id" := JNum 1; "clientName" := JStr "Marie Martin" ]} : stored);
           ({[ "id" := JNum 4; "clientName" := JStr "Emma Leroy" ]} : stored) ] ]} in
  let f := {| Orders.client := "3"; Orders.product := "Sushi Mix";
              Orders.quantity := "1"; Orders.amount := "18.99";
              Orders.status := "En attente"; Orders.payment := "En attente";
              Orders.address := "8 Rue de Lyon"; Orders.notes := None |} in
  let ls1 := Orders.handleFormSubmit f VNull "2026-01-01" ls in
  generateId "orders" ls = of_Z 5
  /\ getData_or_empty "orders"
       (snd (Orders.confirmDelete (Orders.deleteItem (VNum (generateId "orders" ls))) ls1))
     = getData_or_empty "orders" ls.
Proof.
  intros ls f ls1.
  split; [vm_compute; reflexivity |].
  apply (X14_order_create_delete f VNull "2026-01-01" ls [1; 4]).
  - reflexivity.
  - vm_compute. reflexivity.
  - vm_compute. reflexivity.
  - constructor; [vm_compute; reflexivity |].
    constructor; [vm_compute; reflexivity | constructor].
  - repeat (constructor; [lia |]). constructor.
  - repeat constructor.
Defined.

(** X15 (confirmDelete and renderTable of orders.js, with
    createPagination).  confirmDelete does not touch [currentPage].  When
    the last page holds a single order and a stored order is deleted, the
    table stays on a page that no longer exists: whatever the sort, the
    page cut is empty although orders remain, the info text starts after
    its end, and the next arrow is enabled. *)
Theorem X15_delete_leaves_stale_page (id : Z) (ls : storage)
    (currentSort : sort_state) (p pageSize : Z) :
  0 < id -> 0 < pageSize -> 2 <= p ->
  let data := getData_or_empty "orders" ls in
  ids_unique data ->
  Z.of_nat (length data) = (p - 1) * pageSize + 1 ->
  (exists r, In r data /\ strict_eq (field r "id") (VNum (of_Z id)) = true) ->
  let ls' := snd (Orders.confirmDelete (Orders.deleteItem (VNum (of_Z id))) ls) in
  let data' := getData_or_empty "orders" ls' in
  let c := Pager.createPagination (Z.of_nat (length data')) p pageSize in
  Z.of_nat (length data') = (p - 1) * pageSize
  /\ totalPages (Z.of_nat (length data')) pageSize = p - 1
  /\ sort_and_paginate data' currentSort p pageSize = Ok ([], (p - 1) * pageSize)
  /\ Pager.nextDisabled c = false
  /\ Pager.paginationInfo c
     = ((p - 1) * pageSize + 1, (p - 1) * pageSize, (p - 1) * pageSize)
  /\ paginatedData data' (p - 1) pageSize <> [].
Proof.
  intros Hid Hps Hp data Huniq Hlen (r & Hr & Hrid) ls' data' c.
  apply list_elem_of_In, list_elem_of_lookup in Hr as [i Hi].
  destruct (delete_by_id data (VNum (of_Z id))) as (_ & Hdel & _).
  destruct (Hdel Huniq i r Hi Hrid) as [_ Hlen'].
  assert (Hdata' : data' = List.filter
                     (fun r => negb (strict_eq (field r "id") (VNum (of_Z id)))) data).
  { unfold data', ls', Orders.deleteItem.
    rewrite (Orders_confirmDelete_filter id ls Hid). cbn [snd].
    apply loaded_filter. }
  assert (Hl : Z.of_nat (length data') = (p - 1) * pageSize).
  { rewrite Hdata'. lia. }
  assert (Htp : totalPages (Z.of_nat (length data')) pageSize = p - 1).
  { rewrite Hl. unfold totalPages.
    replace (- ((p - 1) * pageSize)) with ((- (p - 1)) * pageSize) by lia.
    rewrite Z.div_mul by lia. lia. }
  split; [exact Hl |]. split; [exact Htp |].
  split; [| split; [| split]].
  - unfold sort_and_paginate.
    assert (Hsorted : exists sorted,
              match column currentSort with
              | Some col => if ToBoolean (VStr col)
                            then sortData data' col (direction currentSort)
                            else Ok data'
              | None => Ok data'
              end = Ok sorted /\ length sorted = length data').
    { destruct (column currentSort) as [col |]; [| eauto].
      destruct (ToBoolean (VStr col)); [| eauto].
      destruct (sortData_returns data' col (direction currentSort)) as (out & Ho & Hperm).
      exists out. split; [exact Ho |]. symmetry. apply Permutation_length, Hperm. }
    destruct Hsorted as (sorted & -> & Hsl). cbn [bind].
    assert (Hcut : paginatedData sorted p pageSize = []).
    { apply length_zero_iff_nil.
      pose proof (paginatedData_length sorted p pageSize ltac:(lia) Hps) as Hc.
      rewrite Hsl in Hc. lia. }
    rewrite Hcut, Hsl, Hl. reflexivity.
  - unfold c, Pager.createPagination. cbn [Pager.nextDisabled]. rewrite Htp.
    apply orb_false_iff. split; apply Z.eqb_neq; lia.
  - unfold c, Pager.createPagination. cbn [Pager.paginationInfo]. rewrite Hl.
    destruct (Z.eqb_spec ((p - 1) * pageSize) 0) as [H0 | _]; [nia |].
    f_equal. f_equal. nia.
  - intros Hnil.
    pose proof (paginatedData_length data' (p - 1) pageSize ltac:(lia) Hps) as Hc.
    rewrite Hnil, Hl in Hc. cbn [length Z.of_nat] in Hc. nia.
Qed.

Lemma X15_delete_leaves_stale_page_witness :
  let ls : storage :=
    {[ "orders" :=
         [ ({[ "id" := JNum 1; "clientName" := JStr "Marie Martin" ]} : stored);
           ({[ "id" := JNum 2; "clientName" := JStr "Sophie Petit" ]} : stored);
           ({[ "id" := JNum 3; "clientName" := JStr "Emma Leroy" ]} : stored) ] ]} in
  let ls' := snd (Orders.confirmDelete (Orders.deleteItem (VNum (of_Z 1))) ls) in
  sort_and_paginate (getData_or_empty "orders" ls') Sorting.currentSort 2 2
  = Ok ([], (2 - 1) * 2)
  /\ paginatedData (getData_or_empty "orders" ls') (2 - 1) 2 <> [].
Proof.
  intros ls ls'.
  destruct (X15_delete_leaves_stale_page 1 ls Sorting.currentSort 2 2)
    as (_ & _ & Hcut & _ & _ & Hprev); try lia.
  - apply (ids_unique_integers _ [1; 2; 3]).
    + repeat (constructor; [vm_compute; reflexivity |]). constructor.
    + repeat (apply NoDup_cons_2; [rewrite ?not_elem_of_cons; repeat split; try lia;
                                    apply not_elem_of_nil |]).
      apply NoDup_nil_2.
  - vm_compute. reflexivity.
  - eexists. split; [left; reflexivity | vm_compute; reflexivity].
  - split; [exact Hcut | exact Hprev].
Defined.

(** ** Updates of clients, users and deliveries *)

Lemma loose_eq_id_text (a z : Z) :
  loose_eq (VNum (of_Z a)) (VStr (Z_toString z)) = (a =? z).
Proof.
  pose proof (StringToNumber_Z_toString z) as H.
  cbn [loose_eq ToNumber].
  destruct (StringToNumber (Z_toString z)) as [| | q |]; try discriminate H.
  cbn [num_eqb of_Z] in *. apply Qeq_bool_iff in H.
  destruct (Z.eqb_spec a z) as [-> | Hne].
  - apply Qeq_bool_iff. symmetry. exact H.
  - destruct (Qeq_bool (inject_Z a) q) eqn:Hq; [| reflexivity].
    apply Qeq_bool_iff in Hq. rewrite H in Hq.
    unfold Qeq in Hq. cbn in Hq. lia.
Qed.

Lemma findIndex_loose_ids (data : list record) (ids : list Z) (z : Z) :
  integer_ids data ids ->
  findIndex (fun r => loose_eq (field r "id") (VStr (Z_toString z))) data
  = findIndex (fun i => i =? z) ids.
Proof.
  induction 1 as [| r i data ids Hr _ IH]; [reflexivity |].
  cbn [findIndex]. rewrite (integer_id_field r i Hr), loose_eq_id_text, IH.
  reflexivity.
Qed.



(** X17 (clientData of clients.js).  The order counter of a client is
    [parseInt(orders) || 0].  When the field is plain text that parses
    to no integer or to a safe one (below 2^53 in magnitude) the record
    holds a safe integer there: 0 when the field does not parse, and the
    integer itself when the field holds its decimal text. *)
Theorem X17_client_orders_counter (f : Clients.form) (ls : storage) :
  plain_text (Clients.orders f) = true ->
  safe_number (parseInt (Clients.orders f) 0) = true ->
  (exists z, safe_integer z = true
             /\ Clients.clientData f ls !! "orders" = Some (VNum (of_Z z)))
  /\ (parseInt (Clients.orders f) 0 = NaN ->
      Clients.clientData f ls !! "orders" = Some (VNum (of_Z 0)))
  /\ (forall z, Clients.orders f = Z_toString z ->
        Clients.clientData f ls !! "orders" = Some (VNum (of_Z z))).
Proof.
  intros _ Hsafe.
  assert (Hl : Clients.clientData f ls !! "orders"
               = Some (or_else (VNum (parseInt (Clients.orders f) 0)) (VNum (of_Z 0))))
    by reflexivity.
  assert (Hz : forall z, or_else (VNum (of_Z z)) (VNum (of_Z 0)) = VNum (of_Z z)).
  { intros z. unfold or_else. rewrite ToBoolean_integer.
    destruct (Z.eqb_spec z 0) as [-> | _]; reflexivity. }
  rewrite Hl. split; [| split].
  - destruct (parseInt_integer (Clients.orders f) 0) as [Hp | (z & Hp)];
      rewrite Hp in *.
    + exists 0. split; reflexivity.
    + exists z. rewrite Hz. split; [| reflexivity].
      unfold safe_number, of_Z, inject_Z in Hsafe. exact Hsafe.
  - intros ->. reflexivity.
  - intros z ->. rewrite parseInt_Z_toString, Hz. reflexivity.
Qed.

Lemma X17_client_orders_counter_witness :
  let f := {| Clients.entityId := ""; Clients.name := "Paul";
              Clients.email := "paul@email.com"; Clients.phone := "";
              Clients.type := "Particulier"; Clients.city := "Paris";
              Clients.orders := "abc"; Clients.address := "" |} in
  parseInt (Clients.orders f) 0 = NaN
  /\ Clients.clientData f ∅ !! "orders" = Some (VNum (of_Z 0)).
Proof.
  intros f.
  destruct (X17_client_orders_counter f ∅) as (_ & H & _);
    [reflexivity | reflexivity |].
  split; [reflexivity | apply H; reflexivity].
Defined.

Lemma loaded_lookup_reload (key : string) (ls : storage) (i : nat) (r : record)
    (k : string) :
  getData_or_empty key ls !! i = Some r -> r !! k ≫= reload = r !! k.
Proof.
  intros Hr. rewrite <- JSON_roundtrip_lookup.
  rewrite (loaded_record_roundtrip key ls i r Hr). reflexivity.
Qed.

Ltac stored_lookup :=
  rewrite JSON_roundtrip_lookup;
  repeat (rewrite lookup_insert_ne by discriminate);
  first [rewrite lookup_insert_eq | rewrite lookup_singleton_eq];
  reflexivity.

(** X18 (editUser, openModal and handleFormSubmit of users.js).  With
    users that carry pairwise different integer ids below 2^53 in
    magnitude, editing user i
    writes the decimal text of its id into the hidden field, and
    submitting the form replaces exactly that user: the new record keeps
    the id and the creation date of the old one and takes the other
    fields from the form; the collection keeps its length and every other
    user. *)
Theorem X18_user_edit_roundtrip (f : Users.form) (now : string) (ls : storage)
    (ids : list Z) (i : nat) (u : record) (z : Z) :
  let users := getData_or_empty "users" ls in
  integer_ids users ids -> NoDup ids -> Z.abs z < 2 ^ 53 ->
  users !! i = Some u -> ids !! i = Some z ->
  UsersTable.editUser (VNum (of_Z z)) ls = Some (Ok (Z_toString z))
  /\ (Users.entityId f = Z_toString z ->
      exists (ls' : storage) (r : record),
        Users.handleFormSubmit f now ls = Ok ls'
        /\ getData_or_empty "users" ls' !! i = Some r
        /\ r !! "id" = Some (VNum (of_Z z))
        /\ r !! "createdAt" = u !! "createdAt"
        /\ r !! "name" = Some (VStr (Users.name f))
        /\ r !! "email" = Some (VStr (Users.email f))
        /\ r !! "role" = Some (VStr (Users.role f))
        /\ r !! "status" = Some (VStr (Users.status f))
        /\ r !! "phone" = Some (VStr (Users.phone f))
        /\ length (getData_or_empty "users" ls') = length users
        /\ forall j, j <> i -> getData_or_empty "users" ls' !! j = users !! j).
Proof.
  intros users Hids Hnd Hb Hu Hi.
  destruct (integer_ids_lookup users ids i u Hids Hu) as (z' & Hz' & Huid).
  assert (z' = z) by congruence. subst z'.
  split.
  - unfold UsersTable.editUser. fold users.
    destruct (find_integer_id users ids z Hids) as [_ Hfound].
    rewrite (Hfound i u Hnd Hi Hu), (integer_id_field u z Huid). cbn [Csv.String_of].
    rewrite Number_toString_of_Z by exact Hb. reflexivity.
  - intros He.
    assert (Hne : Users.entityId f <> "") by (rewrite He; apply Z_toString_nonempty).
    assert (Hfind : findIndex (fun u => loose_eq (field u "id") (VStr (Users.entityId f)))
                              users = Some i).
    { rewrite He, (findIndex_loose_ids users ids z Hids).
      apply findIndex_present; assumption. }
    destruct (find_findIndex _ _ _ Hfind) as (u' & Hfu & Hiu).
    assert (u' = u) by (unfold users in *; congruence). subst u'.
    assert (Hdata : Users.userData f now ls
                    = Ok ({[ "id" := VNum (of_Z z);
                             "name" := VStr (Users.name f);
                             "email" := VStr (Users.email f);
                             "role" := VStr (Users.role f);
                             "status" := VStr (Users.status f);
                             "phone" := VStr (Users.phone f);
                             "createdAt" := field u "createdAt" ]} : record)).
    { unfold Users.userData. fold users.
      rewrite (ToBoolean_nonempty _ Hne), Hfu. cbn [bind].
      rewrite He, parseInt_Z_toString. reflexivity. }
    destruct (replace_update "users" ls
                (fun u => loose_eq (field u "id") (VStr (Users.entityId f)))
                ({[ "id" := VNum (of_Z z);
                    "name" := VStr (Users.name f);
                    "email" := VStr (Users.email f);
                    "role" := VStr (Users.role f);
                    "status" := VStr (Users.status f);
                    "phone" := VStr (Users.phone f);
                    "createdAt" := field u "createdAt" ]} : record))
      as [Hlen Hrec].
    fold users in Hlen, Hrec.
    eexists _, _.
    split.
    { unfold Users.handleFormSubmit. rewrite Hdata. cbn [bind].
      rewrite (ToBoolean_nonempty _ Hne). fold users. reflexivity. }
    split; [apply (proj1 (Hrec i u Hu)), Hfind |].
    split; [stored_lookup |].
    split.
    { rewrite JSON_roundtrip_lookup.
      rewrite !lookup_insert_ne by discriminate. rewrite lookup_singleton_eq.
      cbn [mbind option_bind]. unfold field.
      pose proof (loaded_lookup_reload "users" ls i u "createdAt" Hu) as Hre.
      fold users in Hre.
      destruct (u !! "createdAt") as [v |]; [exact Hre | reflexivity]. }
    do 5 (split; [stored_lookup |]).
    split; [exact Hlen |].
    intros j Hj. destruct (users !! j) as [r |] eqn:Hr.
    + apply (proj2 (Hrec j r Hr)). congruence.
    + apply lookup_ge_None. rewrite Hlen. apply lookup_ge_None. exact Hr.
Qed.

Lemma X18_user_edit_roundtrip_witness :
  let ls : storage :=
    {[ "users" :=
         [ ({[ "id" := JNum 1; "name" := JStr "Admin"; "createdAt" := JStr "2024-01-15" ]}
            : stored);
           ({[ "id" := JNum 2; "name" := JStr "Jean Dupont";
               "createdAt" := JStr "2024-02-20" ]} : stored) ] ]} in
  let f := {| Users.entityId := "2"; Users.name := "Jean Dupond";
              Users.email := "jean@email.com"; Users.role := "Livreur";
              Users.status := "Actif"; Users.phone := "" |} in
  exists (ls' : storage) (r : record),
    Users.handleFormSubmit f "2026-01-01T00:00:00.000Z" ls = Ok ls'
    /\ getData_or_empty "users" ls' !! 1%nat = Some r
    /\ r !! "createdAt" = Some (VStr "2024-02-20")
    /\ r !! "name" = Some (VStr "Jean Dupond").
Proof.
  intros ls f.
  destruct (X18_user_edit_roundtrip f "2026-01-01T00:00:00.000Z" ls [1; 2] 1%nat
              (of_json <$> ({[ "id" := JNum 2; "name" := JStr "Jean Dupont";
                               "createdAt" := JStr "2024-02-20" ]} : stored)) 2)
    as (_ & H).
  - constructor; [vm_compute; reflexivity |].
    constructor; [vm_compute; reflexivity | constructor].
  - repeat (apply NoDup_cons_2; [rewrite ?not_elem_of_cons; repeat split; try lia;
                                  apply not_elem_of_nil |]).
    apply NoDup_nil_2.
  - reflexivity.
  - vm_compute. reflexivity.
  - reflexivity.
  - destruct (H eq_refl) as (ls' & r & Hs & Hr & _ & Hc & Hn & _).
    exists ls', r. split; [exact Hs |]. split; [exact Hr |].
    split; [rewrite Hc; vm_compute; reflexivity | exact Hn].
Defined.

(** ** The filters of the users and the deliveries table *)

(** X19 (the filter of renderUsersTable).  On users whose name and email
    are text, or missing or otherwise falsy, the filter never throws and
    keeps exactly the users that match the three criteria together: the
    search, letter case apart, in the name or the email, and the role and
    the status exactly; with the three controls empty every user is
    kept.  The names, the emails and the search term are plain text. *)
Theorem X19_users_filter (search role status : string) (users : list record) :
  Forall client_shaped users ->
  Forall (fun r => plain_at ["name"; "email"] r = true) users ->
  plain_text search = true ->
  exists f : record -> bool,
    UsersTable.renderUsersTable_filtered search role status users
    = Ok (List.filter f users)
    /\ (forall r, In r (List.filter f users) <->
          In r users /\ user_matches search role status r)
    /\ (search = "" -> role = "" -> status = "" -> List.filter f users = users).
Proof.
  intros Hwf _ _.
  exists (fun user =>
    (includes (toLowerCase (text_of (field user "name"))) (toLowerCase search)
     || includes (toLowerCase (text_of (field user "email"))) (toLowerCase search))
    && (negb (ToBoolean (VStr role)) || strict_eq (field user "role") (VStr role))
    && (negb (ToBoolean (VStr status)) || strict_eq (field user "status") (VStr status))).
  split; [| split].
  - unfold UsersTable.renderUsersTable_filtered.
    apply Array_filter_pure.
    eapply Forall_impl; [exact Hwf |].
    intros r [Hn He].
    rewrite (or_else_text _ Hn), (or_else_text _ He). cbn [call_toLowerCase].
    unfold orelse. cbn [bind].
    by destruct (includes (toLowerCase (text_of (field r "name"))) _).
  - intros r. rewrite filter_In. apply and_iff_compat_l.
    unfold user_matches.
    rewrite !andb_true_iff.
    rewrite (unset_or_bool role _ _ (strict_eq_VStr _ _)).
    rewrite (unset_or_bool status _ _ (strict_eq_VStr _ _)).
    assert (Hs : includes (toLowerCase (text_of (field r "name"))) (toLowerCase search)
                 || includes (toLowerCase (text_of (field r "email"))) (toLowerCase search)
                 = true
                 <-> unset_or search
                       (contains_ci (text_of (field r "name")) search
                        \/ contains_ci (text_of (field r "email")) search)).
    { unfold unset_or, contains_ci. rewrite orb_true_iff.
      destruct (String.eqb_spec search "") as [-> | Hne]; [| tauto].
      simpl toLowerCase. rewrite !includes_empty. tauto. }
    tauto.
  - intros -> -> ->. apply filter_all, Forall_forall. intros r _.
    cbn [toLowerCase]. rewrite includes_empty. reflexivity.
Qed.

Lemma X19_users_filter_witness :
  let users : list record :=
    [ {[ "id" := VNum (of_Z 1); "name" := VStr "Admin"; "role" := VStr "Admin" ]};
      {[ "id" := VNum (of_Z 2); "name" := VStr "Jean Dupont";
         "email" := VStr "jean@email.com"; "role" := VStr "Livreur" ]} ] in
  Forall client_shaped users
  /\ Forall (fun r => plain_at ["name"; "email"] r = true) users
  /\ plain_text "JEAN" = true
  /\ exists f : record -> bool,
       UsersTable.renderUsersTable_filtered "JEAN" "Livreur" "" users
       = Ok (List.filter f users)
       /\ (forall r, In r (List.filter f users) <->
             In r users /\ user_matches "JEAN" "Livreur" "" r).
Proof.
  intros users.
  assert (Hwf : Forall client_shaped users).
  { repeat constructor; first [left; reflexivity | right; reflexivity]. }
  assert (Hplain : Forall (fun r => plain_at ["name"; "email"] r = true) users).
  { repeat constructor. }
  split; [exact Hwf |]. split; [exact Hplain |]. split; [reflexivity |].
  destruct (X19_users_filter "JEAN" "Livreur" "" users Hwf Hplain eq_refl)
    as (f & Hf & Hiff & _).
  exists f. split; [exact Hf | exact Hiff].
Defined.

Lemma startsWith_refl (s : string) : startsWith s s = true.
Proof.
  induction s as [| c s IH]; [reflexivity |].
  cbn [startsWith]. rewrite Ascii.eqb_refl. exact IH.
Qed.

Lemma includes_refl (s : string) : includes s s = true.
Proof. destruct s; cbn [includes]; rewrite startsWith_refl; reflexivity. Qed.

Lemma toLowerCase_digits (ds : string) :
  all_digits ds = true -> toLowerCase ds = ds.
Proof.
  induction ds as [| c ds IH]; [reflexivity |].
  cbn [all_digits toLowerCase]. intros H. apply andb_true_iff in H as [Hc Hds].
  rewrite (IH Hds). f_equal.
  unfold lower_char, is_upper. unfold is_digit in Hc.
  apply andb_true_iff in Hc as [H1 H2]. apply Z.leb_le in H1, H2.
  destruct (Z.leb_spec 65 (code c)); [lia | reflexivity].
Qed.

Lemma toLowerCase_Z_toString (z : Z) : toLowerCase (Z_toString z) = Z_toString z.
Proof.
  destruct (Z_toString_shape z) as (ds & Hall & _ & _ & ->).
  destruct (z <? 0); [| apply toLowerCase_digits, Hall].
  cbn [toLowerCase]. rewrite (toLowerCase_digits ds Hall). reflexivity.
Qed.

Lemma order_ref_text_spec (v : jsval) :
  text_or_falsy v \/ (exists z, v = VNum (of_Z z) /\ Z.abs z < 2 ^ 53) ->
  call_toString (or_else v (VStr "")) = Ok (order_ref_text v).
Proof.
  intros [[Hs | Hf] | (z & -> & Hb)].
  - destruct v; try discriminate. unfold or_else. by destruct s.
  - unfold or_else. rewrite Hf.
    destruct v as [| | b | [| | q |] | s]; try reflexivity; try discriminate Hf.
    + cbn in Hf. apply negb_false_iff in Hf. cbn [order_ref_text]. rewrite Hf.
      reflexivity.
    + by destruct s.
  - unfold or_else. rewrite ToBoolean_integer.
    unfold order_ref_text, of_Z.
    assert (Hq : Qeq_bool (inject_Z z) 0 = (z =? 0)).
    { unfold Qeq_bool. simpl.
      destruct (Z.eqb_spec (z * 1) (0 * 1)), (Z.eqb_spec z 0); try reflexivity; lia. }
    rewrite Hq. destruct (Z.eqb_spec z 0) as [-> | Hne]; cbn [negb].
    + reflexivity.
    + cbn [call_toString]. apply Number_toString_of_Z, Hb.
Qed.

(** X20 (the filter of renderDeliveriesTable).  On deliveries whose
    address is text or falsy and whose order reference is text, falsy or
    a safe integer (below 2^53 in magnitude), the text and the search
    term being plain, the filter never throws and keeps exactly the
    deliveries whose address contains the search, letter case apart, or
    whose order reference contains it as written, and whose status and
    driver match exactly when set.  So the decimal text of an order
    number finds the deliveries of that order, whether the reference is
    stored as a Number (the sample data) or as a string (the form). *)
Theorem X20_deliveries_filter (search status driver : string)
    (deliveries : list record) :
  Forall delivery_shaped deliveries ->
  Forall (fun r => plain_at ["address"; "orderId"] r = true) deliveries ->
  plain_text search = true ->
  exists f : record -> bool,
    DeliveriesTable.renderDeliveriesTable_filtered search status driver deliveries
    = Ok (List.filter f deliveries)
    /\ (forall r, In r (List.filter f deliveries) <->
          In r deliveries /\ delivery_matches search status driver r)
    /\ (forall (r : record) (z : Z),
          In r deliveries -> search = Z_toString z -> status = "" -> driver = "" ->
          z <> 0 ->
          field r "orderId" = VNum (of_Z z) \/ field r "orderId" = VStr (Z_toString z) ->
          In r (List.filter f deliveries)).
Proof.
  intros Hwf _ _.
  exists (fun d =>
    (includes (toLowerCase (text_of (field d "address"))) (toLowerCase search)
     || includes (order_ref_text (field d "orderId")) (toLowerCase search))
    && (negb (ToBoolean (VStr status)) || strict_eq (field d "status") (VStr status))
    && (negb (ToBoolean (VStr driver)) || strict_eq (field d "driver") (VStr driver))).
  assert (Hiff : forall r,
    (includes (toLowerCase (text_of (field r "address"))) (toLowerCase search)
     || includes (order_ref_text (field r "orderId")) (toLowerCase search))
    && (negb (ToBoolean (VStr status)) || strict_eq (field r "status") (VStr status))
    && (negb (ToBoolean (VStr driver)) || strict_eq (field r "driver") (VStr driver))
    = true <-> delivery_matches search status driver r).
  { intros r. unfold delivery_matches, contains_ci.
    rewrite !andb_true_iff, orb_true_iff.
    rewrite (unset_or_bool status _ _ (strict_eq_VStr _ _)).
    rewrite (unset_or_bool driver _ _ (strict_eq_VStr _ _)). tauto. }
  split; [| split].
  - unfold DeliveriesTable.renderDeliveriesTable_filtered.
    apply Array_filter_pure.
    eapply Forall_impl; [exact Hwf |].
    intros r [Ha Ho].
    rewrite (or_else_text _ Ha), (order_ref_text_spec _ Ho). cbn [call_toLowerCase].
    unfold orelse. cbn [bind].
    by destruct (includes (toLowerCase (text_of (field r "address"))) _).
  - intros r. rewrite filter_In. apply and_iff_compat_l. apply Hiff.
  - intros r z Hr -> -> -> Hz Hid. apply filter_In. split; [exact Hr |].
    apply Hiff. unfold delivery_matches. split; [| split; apply unset_or_unset].
    right. rewrite toLowerCase_Z_toString.
    destruct Hid as [-> | ->]; cbn [order_ref_text of_Z].
    + assert (Hq : Qeq_bool (inject_Z z) 0 = false).
      { unfold Qeq_bool. simpl.
        destruct (Z.eqb_spec (z * 1) (0 * 1)); [lia | reflexivity]. }
      rewrite Hq. apply includes_refl.
    + apply includes_refl.
Qed.

Lemma X20_deliveries_filter_witness :
  let r1 : record := {[ "id" := VNum (of_Z 1); "orderId" := VNum (of_Z 12);
                        "address" := VStr "12 Rue de Paris" ]} in
  let r2 : record := {[ "id" := VNum (of_Z 2); "orderId" := VStr "12" ]} in
  let deliveries : list record := [ r1; r2 ] in
  Forall delivery_shaped deliveries
  /\ Forall (fun r => plain_at ["address"; "orderId"] r = true) deliveries
  /\ DeliveriesTable.renderDeliveriesTable_filtered "12" "" "" deliveries
     = Ok deliveries
  /\ exists f : record -> bool,
       DeliveriesTable.renderDeliveriesTable_filtered "12" "" "" deliveries
       = Ok (List.filter f deliveries)
       /\ In r1 (List.filter f deliveries) /\ In r2 (List.filter f deliveries).
Proof.
  intros r1 r2 deliveries.
  assert (Hwf : Forall delivery_shaped deliveries).
  { constructor; [split; [left; reflexivity | right; exists 12; split; reflexivity] |].
    constructor; [split; [right; reflexivity | left; left; reflexivity] |].
    constructor. }
  assert (Hplain : Forall (fun r => plain_at ["address"; "orderId"] r = true) deliveries).
  { repeat constructor. }
  split; [exact Hwf |]. split; [exact Hplain |]. split; [vm_compute; reflexivity |].
  destruct (X20_deliveries_filter "12" "" "" deliveries Hwf Hplain eq_refl)
    as (f & Hf & _ & Hfind).
  exists f. split; [exact Hf |].
  split.
  - apply (Hfind r1 12); try reflexivity; [left; reflexivity | lia | left; reflexivity].
  - apply (Hfind r2 12); try reflexivity;
      [right; left; reflexivity | lia | right; reflexivity].
Defined.

(** ** The dashboard *)

Lemma revenue_fold_finite (l : list record) (qs : list Q) (a : Q) :
  Forall2 (fun o q => amount_of o = Fin q) l qs ->
  exists r,
    fold_left (fun sum o => num_add sum (amount_of o)) l (Fin a) = Fin r
    /\ (r == a + Qsum qs)%Q.
Proof.
  intros H. revert a. induction H as [| o q l qs Ho _ IH]; intros a.
  - exists a. split; [reflexivity |]. unfold Qsum. cbn. ring.
  - cbn [fold_left]. rewrite Ho. cbn [num_add].
    destruct (IH (a + q)%Q) as (r & Hr & Hq).
    exists r. split; [exact Hr |]. rewrite Hq. unfold Qsum. cbn. ring.
Qed.

Lemma revenue_fold_NaN (l : list record) :
  fold_left (fun sum o => num_add sum (amount_of o)) l NaN = NaN.
Proof. induction l as [| o l IH]; [reflexivity | exact IH]. Qed.

Lemma num_add_NaN_r (a : number) : num_add a NaN = NaN.
Proof. destruct a; reflexivity. Qed.

Lemma revenue_unfold (orders : list record) :
  Dashboard.revenue orders
  = fold_left (fun sum o => num_add sum (amount_of o))
              (List.filter (fun o => negb (cancelled o)) orders) (of_Z 0).
Proof. reflexivity. Qed.

(** X21 (updateKPIs of dashboard.js).  The revenue indicator leaves the
    cancelled orders out, wherever they stand, and an order without
    amount counts for 0.  When the amounts of the other orders are
    binary64 values that add up from the left without rounding, the
    revenue is their sum; when the amount of one of them parses to no
    number (a plain text that starts no number, for example), the whole
    indicator is NaN.  The pending orders are never more than the
    orders. *)
Theorem X21_dashboard_revenue (ls : storage) :
  let orders := getData_or_empty "orders" ls in
  let kpis := Dashboard.updateKPIs ls in
  (forall qs : list Q,
     Forall2 (fun o q => amount_of o = Fin q)
             (List.filter (fun o => negb (cancelled o)) orders) qs ->
     exactly_summed qs = true ->
     exists r, Dashboard.totalRevenue kpis = Fin r /\ (r == Qsum qs)%Q)
  /\ (forall o, In o orders -> cancelled o = false ->
        plain (field o "amount") = true -> amount_of o = NaN ->
        Dashboard.totalRevenue kpis = NaN)
  /\ (forall l1 l2 o, cancelled o = true ->
        Dashboard.revenue (l1 ++ o :: l2) = Dashboard.revenue (l1 ++ l2))
  /\ (forall o, ToBoolean (field o "amount") = false -> amount_of o = of_Z 0)
  /\ 0 <= Dashboard.pendingOrders kpis <= Dashboard.totalOrders kpis.
Proof.
  intros orders kpis.
  assert (Hk : Dashboard.totalRevenue kpis = Dashboard.revenue orders) by reflexivity.
  split; [| split; [| split; [| split]]].
  - intros qs Hqs _. rewrite Hk, revenue_unfold.
    destruct (revenue_fold_finite _ qs 0 Hqs) as (r & Hr & Hq).
    exists r. split; [exact Hr |]. rewrite Hq. ring.
  - intros o Ho Hc _ Ha. rewrite Hk, revenue_unfold.
    assert (Hin : In o (List.filter (fun o => negb (cancelled o)) orders)).
    { apply filter_In. split; [exact Ho |]. rewrite Hc. reflexivity. }
    apply in_split in Hin as (l1 & l2 & ->).
    rewrite fold_left_app. cbn [fold_left]. rewrite Ha, num_add_NaN_r.
    apply revenue_fold_NaN.
  - intros l1 l2 o Hc. rewrite !revenue_unfold, !List.filter_app.
    cbn [List.filter]. rewrite Hc. reflexivity.
  - intros o Ho. unfold amount_of, or_else. rewrite Ho. reflexivity.
  - unfold kpis, Dashboard.updateKPIs. cbn [Dashboard.pendingOrders Dashboard.totalOrders].
    fold orders.
    pose proof (List.filter_length_le
                  (fun o => strict_eq (field o "status") (VStr "En attente")) orders).
    lia.
Qed.

Lemma X21_dashboard_revenue_witness :
  let ls : storage :=
    {[ "orders" :=
         [ ({[ "id" := JNum 1; "amount" := JNum 25.5; "status" := JStr "Livrée" ]} : stored);
           ({[ "id" := JNum 2; "amount" := JNum 10; "status" := JStr "Annulée" ]} : stored);
           ({[ "id" := JNum 3; "amount" := JNum 4.5; "status" := JStr "En attente" ]}
            : stored) ] ]} in
  exists r, Dashboard.totalRevenue (Dashboard.updateKPIs ls) = Fin r /\ (r == 30)%Q.
Proof.
  intros ls.
  destruct (X21_dashboard_revenue ls) as (H & _).
  destruct (H [25.5%Q; 4.5%Q]) as (r & Hr & Hq).
  - change (getData_or_empty "orders" ls)
      with [ (of_json <$> ({[ "id" := JNum 1; "amount" := JNum 25.5;
                              "status" := JStr "Livrée" ]} : stored));
             (of_json <$> ({[ "id" := JNum 2; "amount" := JNum 10;
                              "status" := JStr "Annulée" ]} : stored));
             (of_json <$> ({[ "id" := JNum 3; "amount" := JNum 4.5;
                              "status" := JStr "En attente" ]} : stored)) ].
    cbn [List.filter].
    assert (H1 : cancelled (of_json <$> ({[ "id" := JNum 1; "amount" := JNum 25.5;
                              "status" := JStr "Livrée" ]} : stored)) = false)
      by (vm_compute; reflexivity).
    assert (H2 : cancelled (of_json <$> ({[ "id" := JNum 2; "amount" := JNum 10;
                              "status" := JStr "Annulée" ]} : stored)) = true)
      by (vm_compute; reflexivity).
    assert (H3 : cancelled (of_json <$> ({[ "id" := JNum 3; "amount" := JNum 4.5;
                              "status" := JStr "En attente" ]} : stored)) = false)
      by (vm_compute; reflexivity).
    rewrite H1, H2, H3. cbn [negb].
    constructor; [vm_compute; reflexivity |].
    constructor; [vm_compute; reflexivity | constructor].
  - vm_compute. reflexivity.
  - exists r. split; [exact Hr |]. rewrite Hq. reflexivity.
Defined.

Lemma slice_last (l : list record) (n : Z) :
  0 < n ->
  slice l (- n) (Z.of_nat (length l))
  = drop (length l - Z.to_nat n) l.
Proof.
  intros Hn. unfold slice, clamp_index.
  destruct (Z.ltb_spec (- n) 0) as [Hneg | Hz]; [| lia].
  destruct (Z.ltb_spec (Z.of_nat (length l)) 0); [lia |].
  rewrite Z.min_id.
  replace (Z.to_nat (Z.max (Z.of_nat (length l) + - n) 0))
    with (length l - Z.to_nat n)%nat by lia.
  apply take_ge. rewrite length_drop. lia.
Qed.

Lemma rev_lookup_lt {A} (l : list A) (i : nat) :
  (i < length l)%nat -> rev l !! i = l !! (length l - S i)%nat.
Proof. intros Hi. rewrite rev_alt. apply (reverse_lookup l i Hi). Qed.

Lemma recent_unfold (ls : storage) :
  Dashboard.renderRecentOrders ls
  = rev (drop (length (getData_or_empty "orders" ls) - 5)
              (getData_or_empty "orders" ls)).
Proof.
  unfold Dashboard.renderRecentOrders.
  rewrite (slice_last _ 5) by lia. reflexivity.
Qed.



(** ** The storage *)

(** X23 (getData and setData of script.js).  What setData writes under a
    key is what getData reads back from it, up to what JSON keeps of a
    record: a field whose value is undefined is dropped, a Number that is
    not finite comes back as null, every other value comes back as it
    was.  Writing back what was read changes nothing that is read, the
    other keys are not touched, and a second write under a key replaces
    the first. *)
Theorem X23_storage_roundtrip (key : string) (data : list record) (ls : storage) :
  getData key (setData key data ls) = Some (map JSON_roundtrip data)
  /\ (forall (r : record) (k : string),
        JSON_roundtrip r !! k
        = match r !! k with
          | None | Some VUndef => None
          | Some (VNum (Fin q)) => Some (VNum (Fin q))
          | Some (VNum _) => Some VNull
          | Some v => Some v
          end)
  /\ (forall r : record, JSON_roundtrip (JSON_roundtrip r) = JSON_roundtrip r)
  /\ getData key (setData key (getData_or_empty key ls) ls)
     = Some (getData_or_empty key ls)
  /\ (forall key', key' <> key -> getData key' (setData key data ls) = getData key' ls)
  /\ (forall data2 : list record,
        setData key data2 (setData key data ls) = setData key data2 ls).
Proof.
  assert (Hget : forall d, getData key (setData key d ls) = Some (map JSON_roundtrip d)).
  { intros d. unfold getData, setData. rewrite lookup_insert_eq. cbn [fmap option_fmap option_map].
    rewrite JSON_parse_stringify. reflexivity. }
  split; [apply Hget |].
  split.
  { intros r k. rewrite JSON_roundtrip_lookup.
    destruct (r !! k) as [[| | b | [| | q |] | s] |]; reflexivity. }
  split.
  { intros r. apply (JSON_roundtrip_parsed (omap to_json r)). }
  split.
  { rewrite Hget, loaded_roundtrip. reflexivity. }
  split.
  { intros key' Hk. unfold getData. rewrite setData_other by exact Hk. reflexivity. }
  intros data2. unfold setData. apply insert_insert_eq.
Qed.

Lemma X23_storage_roundtrip_witness :
  let r : record := {[ "id" := VNum (of_Z 1); "notes" := VUndef; "amount" := VNum NaN ]} in
  let ls : storage := {[ "clients" := [ ({[ "id" := JNum 7 ]} : stored) ] ]} in
  getData "orders" (setData "orders" [r] ls) = Some [JSON_roundtrip r]
  /\ JSON_roundtrip r !! "notes" = None
  /\ JSON_roundtrip r !! "amount" = Some VNull
  /\ JSON_roundtrip r !! "id" = Some (VNum (of_Z 1))
  /\ "clients" <> "orders"
  /\ getData "clients" (setData "orders" [r] ls) = getData "clients" ls.
Proof.
  intros r ls.
  destruct (X23_storage_roundtrip "orders" [r] ls) as (Hget & Hk & _ & _ & Hother & _).
  split; [exact Hget |].
  split; [rewrite Hk; reflexivity |].
  split; [rewrite Hk; reflexivity |].
  split; [rewrite Hk; reflexivity |].
  split; [discriminate | apply Hother; discriminate].
Defined.

(** ** The product form *)

Lemma trimStart_all_spaces (s : string) : all_spaces s = true -> trimStart s = "".
Proof.
  induction s as [| c s IH]; [reflexivity |].
  cbn [all_spaces trimStart]. intros H. apply andb_true_iff in H as [Hc Hs].
  rewrite Hc. apply IH, Hs.
Qed.

Lemma trim_all_spaces (s : string) : all_spaces s = true -> trim s = "".
Proof.
  intros H. unfold trim. rewrite (trimStart_all_spaces s H). reflexivity.
Qed.

Lemma product_rejected_unfold (f : Products.form) :
  product_rejected f
  = negb (ToBoolean (VStr (trim (Products.name f))))
    || negb (ToBoolean (VStr (Products.category f)))
    || num_isNaN (parseFloat (VStr (Products.price f))).
Proof. reflexivity. Qed.

(** X24 (handleFormSubmit of products.js).  A product is rejected
    exactly when its name is empty once trimmed, its category is empty,
    or its price parses to no number; a name of white space only is
    rejected, and a price of 0 is accepted, unlike the amount of an
    order.  A rejected submission leaves the storage as it is; an
    accepted one with no product being edited appends, on safe integer
    ids, one record that carries the allocated id and the submitted
    values.  The form's name, supplier, price and stock are plain text,
    the price in range and the stock a safe integer. *)
Theorem X24_product_validation (f : Products.form) (editingId : jsval) (ls : storage) :
  product_form_exact f = true ->
  (product_rejected f = true <->
     trim (Products.name f) = "" \/ Products.category f = ""
     \/ parseFloat (VStr (Products.price f)) = NaN)
  /\ (all_spaces (Products.name f) = true -> product_rejected f = true)
  /\ (trim (Products.name f) <> "" -> Products.category f <> "" ->
      parseFloat (VStr (Products.price f)) = of_Z 0 -> product_rejected f = false)
  /\ (product_rejected f = true -> Products.handleFormSubmit f editingId ls = ls)
  /\ (forall ids : list Z,
      product_rejected f = false -> ToBoolean editingId = false ->
      integer_ids (getData_or_empty "products" ls) ids ->
      Forall (fun i => safe_integer i = true) ids ->
      getData_or_empty "products" (Products.handleFormSubmit f editingId ls)
      = (getData_or_empty "products" ls
         ++ [JSON_roundtrip (<["id" := VNum (generateId "products" ls)]>
                               (Products.formData f))])%list).
Proof.
  intros _.
  assert (Hiff : product_rejected f = true <->
                 trim (Products.name f) = "" \/ Products.category f = ""
                 \/ parseFloat (VStr (Products.price f)) = NaN).
  { rewrite product_rejected_unfold, !orb_true_iff, !negb_true_iff.
    rewrite !ToBoolean_VStr, !negb_false_iff, !String.eqb_eq.
    assert (Hn : num_isNaN (parseFloat (VStr (Products.price f))) = true
                 <-> parseFloat (VStr (Products.price f)) = NaN).
    { destruct (parseFloat (VStr (Products.price f))); cbn; split; congruence. }
    rewrite Hn. tauto. }
  split; [exact Hiff |].
  split; [intros Hs; apply Hiff; left; apply trim_all_spaces, Hs |].
  split.
  { intros Hn Hc Hp. apply not_true_is_false. intros Hr.
    apply Hiff in Hr as [? | [? | Hnan]]; [contradiction | contradiction |].
    rewrite Hp in Hnan. discriminate. }
  split.
  - intros Hr. unfold Products.handleFormSubmit. fold (product_rejected f).
    rewrite Hr. reflexivity.
  - intros ids Hr He _ _. unfold Products.handleFormSubmit. fold (product_rejected f).
    rewrite Hr, He.
    rewrite getData_setData, map_app, loaded_roundtrip. reflexivity.
Qed.

Lemma X24_product_validation_witness :
  let f := {| Products.name := "   "; Products.category := "Pizza";
              Products.price := "12.99"; Products.stock := "5";
              Products.supplier := "Pizzeria Roma";
              Products.availability := "Disponible" |} in
  let g := {| Products.name := " Eau "; Products.category := "Boissons";
              Products.price := "0"; Products.stock := "5";
              Products.supplier := ""; Products.availability := "Disponible" |} in
  product_form_exact f = true /\ product_form_exact g = true
  /\ all_spaces (Products.name f) = true
  /\ Products.handleFormSubmit f VNull ∅ = ∅
  /\ product_rejected g = false
  /\ length (getData_or_empty "products" (Products.handleFormSubmit g VNull ∅)) = 1%nat.
Proof.
  intros f g.
  assert (Hf : product_form_exact f = true) by (vm_compute; reflexivity).
  assert (Hg' : product_form_exact g = true) by (vm_compute; reflexivity).
  destruct (X24_product_validation f VNull ∅ Hf) as (_ & Hs & _ & Hrej & _).
  destruct (X24_product_validation g VNull ∅ Hg') as (_ & _ & Hz & _ & Hadd).
  assert (Hg : product_rejected g = false).
  { apply Hz; [vm_compute; discriminate | discriminate | vm_compute; reflexivity]. }
  split; [exact Hf |]. split; [exact Hg' |].
  split; [reflexivity |].
  split; [apply Hrej, Hs; reflexivity |].
  split; [exact Hg |].
  rewrite (Hadd [] Hg eq_refl); [| constructor | constructor].
  rewrite length_app. reflexivity.
Defined.

(** ** The pages of a collection, and sorting by a numeric column *)

Lemma pages_prefix (data : list record) (pageSize : Z) (n : nat) :
  0 < pageSize ->
  concat (map (fun p => paginatedData data p pageSize)
              (Pager.page_range 1 (Z.of_nat n)))
  = take (n * Z.to_nat pageSize) data.
Proof.
  intros Hps. induction n as [| n IH]; [reflexivity |].
  unfold Pager.page_range in *.
  replace (Z.to_nat (Z.of_nat (S n) - 1 + 1)) with (S n) by lia.
  replace (Z.to_nat (Z.of_nat n - 1 + 1)) with n in IH by lia.
  rewrite seq_S, map_app, map_app, concat_app, IH. cbn [map concat Nat.add].
  rewrite app_nil_r.
  unfold paginatedData. rewrite slice_take_drop by lia.
  replace (Z.to_nat ((1 + Z.of_nat n - 1) * pageSize)) with (n * Z.to_nat pageSize)%nat
    by nia.
  rewrite take_take_drop. f_equal. lia.
Qed.

(** X25 (the page cut of renderTable, with createPagination).  The
    pages cut the collection into consecutive pieces: putting the cuts of
    pages 1 to totalPages one after the other gives back the collection,
    so every record is on exactly one of the pages that the pager
    offers, and no page before the last one is short. *)
Theorem X25_pages_partition (data : list record) (pageSize : Z) :
  0 < pageSize ->
  let tp := totalPages (Z.of_nat (length data)) pageSize in
  concat (map (fun p => paginatedData data p pageSize) (Pager.page_range 1 tp)) = data
  /\ (forall p, 1 <= p < tp ->
        Z.of_nat (length (paginatedData data p pageSize)) = pageSize)
  /\ (0 < tp ->
      0 < Z.of_nat (length (paginatedData data tp pageSize)) <= pageSize).
Proof.
  intros Hps tp.
  destruct (totalPages_spec (Z.of_nat (length data)) pageSize Hps) as [Hlo Hhi].
  fold tp in Hlo, Hhi.
  assert (Htp : 0 <= tp) by nia.
  split; [| split].
  - rewrite <- (Z2Nat.id tp Htp). rewrite pages_prefix by exact Hps.
    apply take_ge. nia.
  - intros p Hp. rewrite paginatedData_length by lia. nia.
  - intros Hpos. rewrite paginatedData_length by lia. nia.
Qed.

Lemma X25_pages_partition_witness :
  let data : list record :=
    [ {[ "id" := VNum (of_Z 1) ]}; {[ "id" := VNum (of_Z 2) ]};
      {[ "id" := VNum (of_Z 3) ]} ] in
  0 < 2
  /\ concat (map (fun p => paginatedData data p 2)
                 (Pager.page_range 1 (totalPages (Z.of_nat (length data)) 2)))
     = data.
Proof.
  intros data. split; [lia |].
  apply (X25_pages_partition data 2). lia.
Defined.

Lemma StronglySorted_weaken {A} (R S : A -> A -> Prop) (P : A -> Prop) (l : list A) :
  (forall a b, P a -> P b -> R a b -> S a b) ->
  Forall P l -> StronglySorted R l -> StronglySorted S l.
Proof.
  intros HRS HP Hs. induction Hs as [| a l Hs IH Ha]; [constructor |].
  apply Forall_cons in HP as [Pa Pl].
  constructor; [apply IH, Pl |].
  apply Forall_forall. intros b Hb.
  apply HRS; [exact Pa | | ].
  - rewrite Forall_forall in Pl. apply Pl, Hb.
  - rewrite List.Forall_forall in Ha. apply Ha. apply list_elem_of_In, Hb.
Qed.

(** X26 (sortData of script.js).  On a column that holds a finite Number
    in every record, sortData returns the records rearranged so that the
    column never decreases from a record to a later one when the
    direction is asc, and never increases for any other direction. *)
Theorem X26_sortData_numeric_order (data : list record) (column direction : string) :
  Forall (numeric_at column) data ->
  exists out,
    sortData data column direction = Ok out
    /\ Permutation data out
    /\ StronglySorted
         (fun a b => forall x y,
            field a column = VNum (Fin x) -> field b column = VNum (Fin y) ->
            if String.eqb direction "asc" then (x <= y)%Q else (y <= x)%Q)
         out.
Proof.
  intros Hnum.
  destruct (sortData_returns data column direction) as (out & Hout & Hperm).
  exists out. split; [exact Hout |]. split; [exact Hperm |].
  pose proof (sortData_sorted_numbers data out column direction Hnum Hout) as Hs.
  assert (Hnum' : Forall (numeric_at column) out).
  { rewrite Forall_forall in *. intros r Hr. apply Hnum.
    apply list_elem_of_In. apply list_elem_of_In in Hr.
    eapply Permutation_in; [symmetry; exact Hperm | exact Hr]. }
  eapply StronglySorted_weaken; [| exact Hnum' | exact Hs].
  intros a b _ _ Hab x y Hx Hy.
  apply (not_after_numeric column direction a b x y Hx Hy), Hab.
Qed.

Lemma X26_sortData_numeric_order_witness :
  let data : list record :=
    [ {[ "id" := VNum (of_Z 1); "amount" := VNum (Fin 25.98) ]};
      {[ "id" := VNum (of_Z 2); "amount" := VNum (Fin 9.5) ]};
      {[ "id" := VNum (of_Z 3); "amount" := VNum (Fin 18.99) ]} ] in
  Forall (numeric_at "amount") data
  /\ exists out,
       sortData data "amount" "desc" = Ok out
       /\ out = [ {[ "id" := VNum (of_Z 1); "amount" := VNum (Fin 25.98) ]};
                  {[ "id" := VNum (of_Z 3); "amount" := VNum (Fin 18.99) ]};
                  {[ "id" := VNum (of_Z 2); "amount" := VNum (Fin 9.5) ]} ].
Proof.
  intros data.
  assert (Hnum : Forall (numeric_at "amount") data).
  { repeat (constructor; [eexists; vm_compute; reflexivity |]). constructor. }
  split; [exact Hnum |].
  destruct (X26_sortData_numeric_order data "amount" "desc" Hnum) as (out & Hout & _).
  exists out. split; [exact Hout |].
  assert (Hc : sortData data "amount" "desc"
               = Ok [ {[ "id" := VNum (of_Z 1); "amount" := VNum (Fin 25.98) ]};
                      {[ "id" := VNum (of_Z 3); "amount" := VNum (Fin 18.99) ]};
                      {[ "id" := VNum (of_Z 2); "amount" := VNum (Fin 9.5) ]} ])
    by (vm_compute; reflexivity).
  rewrite Hc in Hout. injection Hout as <-. reflexivity.
Defined.

(** ** Creating clients and users *)

(** X27 (handleFormSubmit of clients.js and users.js, creation path, with
    generateId).  With the hidden id field empty the client form and the
    user form append exactly one record; on safe integer ids (below 2^53
    in magnitude) it carries an id greater than every stored one, and
    the stored records stay as they are.  A new user takes the time
    stamp of the clock as creation date. *)
Theorem X27_client_user_create (ls : storage) (ids : list Z) :
  Forall (fun i => safe_integer i = true) ids ->
  (forall f : Clients.form,
     Clients.entityId f = "" ->
     integer_ids (getData_or_empty "clients" ls) ids ->
     exists (n : Z) (r : record),
       getData_or_empty "clients" (Clients.handleFormSubmit f ls)
       = (getData_or_empty "clients" ls ++ [r])%list
       /\ r !! "id" = Some (VNum (of_Z n))
       /\ (forall i, In i ids -> i < n)
       /\ r !! "name" = Some (VStr (Clients.name f)))
  /\ (forall (f : Users.form) (now : string),
        Users.entityId f = "" ->
        integer_ids (getData_or_empty "users" ls) ids ->
        exists (n : Z) (r : record) (ls' : storage),
          Users.handleFormSubmit f now ls = Ok ls'
          /\ getData_or_empty "users" ls' = (getData_or_empty "users" ls ++ [r])%list
          /\ r !! "id" = Some (VNum (of_Z n))
          /\ (forall i, In i ids -> i < n)
          /\ r !! "createdAt" = Some (VStr now)).
Proof.
  intros _.
  split.
  - intros f Hid Hids.
    destruct (generateId_of_integers _ ids Hids) as (n & Hn & _ & _ & Hlt).
    exists n. eexists. split; [| split; [| split; [exact Hlt |]]].
    + unfold Clients.handleFormSubmit. rewrite Hid. cbn [ToBoolean].
      rewrite getData_setData, map_app, loaded_roundtrip. reflexivity.
    + rewrite JSON_roundtrip_lookup. unfold Clients.clientData.
      rewrite Hid. cbn [ToBoolean]. rewrite lookup_insert_eq.
      unfold generateId. rewrite Hn. reflexivity.
    + unfold Clients.clientData. stored_lookup.
  - intros f now Hid Hids.
    destruct (generateId_of_integers _ ids Hids) as (n & Hn & _ & _ & Hlt).
    assert (Hdata : Users.userData f now ls
                    = Ok ({[ "id" := VNum (generateId "users" ls);
                             "name" := VStr (Users.name f);
                             "email" := VStr (Users.email f);
                             "role" := VStr (Users.role f);
                             "status" := VStr (Users.status f);
                             "phone" := VStr (Users.phone f);
                             "createdAt" := VStr now ]} : record)).
    { unfold Users.userData. rewrite Hid. reflexivity. }
    exists n. eexists. eexists.
    split; [| split; [| split; [| split; [exact Hlt |]]]].
    + unfold Users.handleFormSubmit. rewrite Hdata, Hid. cbn [bind ToBoolean].
      reflexivity.
    + rewrite getData_setData, map_app, loaded_roundtrip. reflexivity.
    + rewrite JSON_roundtrip_lookup, lookup_insert_eq.
      unfold generateId. rewrite Hn. reflexivity.
    + stored_lookup.
Qed.

Lemma X27_client_user_create_witness :
  let ls : storage :=
    {[ "clients" := [ ({[ "id" := JNum 1; "name" := JStr "Marie Martin" ]} : stored);
                      ({[ "id" := JNum 5; "name" := JStr "Sophie Petit" ]} : stored) ] ]} in
  let f := {| Clients.entityId := ""; Clients.name := "Paul";
              Clients.email := "paul@email.com"; Clients.phone := "";
              Clients.type := "Particulier"; Clients.city := "Paris";
              Clients.orders := "0"; Clients.address := "" |} in
  exists (n : Z) (r : record),
    getData_or_empty "clients" (Clients.handleFormSubmit f ls)
    = (getData_or_empty "clients" ls ++ [r])%list
    /\ r !! "id" = Some (VNum (of_Z n)) /\ 1 < n /\ 5 < n.
Proof.
  intros ls f.
  destruct (X27_client_user_create ls [1; 5]) as (Hc & _); [repeat constructor |].
  destruct (Hc f eq_refl) as (n & r & Hdata & Hid & Hlt & _).
  - constructor; [vm_compute; reflexivity |].
    constructor; [vm_compute; reflexivity | constructor].
  - exists n, r. split; [exact Hdata |]. split; [exact Hid |].
    split; apply Hlt; cbn; tauto.
Defined.

(** ** The products export *)

Lemma product_written_missing (r : record) (k : string) :
  product_written r -> ~ In k product_keys -> field r k = VUndef.
Proof.
  intros Hw Hk. unfold field. destruct (r !! k) as [v |] eqn:Hr; [| reflexivity].
  exfalso. apply Hk, Hw. rewrite Hr. eauto.
Qed.

Lemma cell_integer (r : record) (header : string) (z : Z) :
  r !! Csv.remove_spaces (toLowerCase header) = Some (VNum (of_Z z)) ->
  ToBoolean (field r header) = false -> Z.abs z < 2 ^ 53 ->
  Csv.cell r header = Ok (quoted (if z =? 0 then "" else Z_toString z)).
Proof.
  intros Hk Hh Hb. unfold Csv.cell.
  rewrite (integer_field r _ z Hk).
  unfold or_else at 2. rewrite ToBoolean_integer.
  destruct (Z.eqb_spec z 0) as [-> | Hne]; cbn [negb].
  - unfold or_else. rewrite Hh. reflexivity.
  - unfold or_else. rewrite ToBoolean_integer.
    destruct (Z.eqb_spec z 0); [contradiction |]. cbn [negb Csv.String_of].
    rewrite Number_toString_of_Z by exact Hb. reflexivity.
Qed.

Lemma Products_export_row (r : record) (i s : Z) :
  product_written r ->
  r !! "id" = Some (VNum (of_Z i)) -> r !! "stock" = Some (VNum (of_Z s)) ->
  i <> 0 -> Z.abs i < 2 ^ 53 -> Z.abs s < 2 ^ 53 ->
  Csv.Array_map (Csv.cell r) Csv.Products_headers
  = Ok [ quoted (Z_toString i); quoted ""; quoted ""; quoted "";
         quoted (if s =? 0 then "" else Z_toString s); quoted ""; quoted "" ].
Proof.
  intros Hw Hid Hstock Hi Hbi Hbs.
  assert (Hmiss : forall k, ~ In k product_keys -> ToBoolean (field r k) = false).
  { intros k Hk. rewrite (product_written_missing r k Hw Hk). reflexivity. }
  assert (Hcid : Csv.cell r "ID" = Ok (quoted (Z_toString i))).
  { rewrite (cell_integer r "ID" i Hid); [| apply Hmiss; not_a_key | exact Hbi].
    destruct (Z.eqb_spec i 0); [contradiction | reflexivity]. }
  assert (Hcstock : Csv.cell r "Stock"
                    = Ok (quoted (if s =? 0 then "" else Z_toString s))).
  { apply (cell_integer r "Stock" s Hstock); [apply Hmiss; not_a_key | exact Hbs]. }
  assert (Hempty : forall h,
             ~ In (Csv.remove_spaces (toLowerCase h)) product_keys ->
             ~ In h product_keys -> Csv.cell r h = Ok (quoted "")).
  { intros h H1 H2. apply cell_falsy; apply Hmiss; assumption. }
  unfold Csv.Products_headers. cbn [Csv.Array_map]. rewrite Hcid, Hcstock.
  rewrite !Hempty by not_a_key. reflexivity.
Qed.

(** X28 (the export button of products.js, with exportToCSV).  Of the
    seven headers of the products export only ID and Stock name a key
    that a product carries.  For products as the form and the sample data
    write them, with non-zero integer ids and integer stocks below 2^53
    in magnitude, every data
    row holds the id in its first cell and the stock in its fifth; name,
    category, price, supplier and availability are not exported, and a
    stock of 0 is written as the empty cell. *)
Theorem X28_products_export (ls : storage) (rows : list (Z * Z)) :
  Forall2 (fun r row => r !! "id" = Some (VNum (of_Z (fst row)))
                        /\ r !! "stock" = Some (VNum (of_Z (snd row))))
          (getData_or_empty "products" ls) rows ->
  Forall (fun row => fst row <> 0 /\ Z.abs (fst row) < 2 ^ 53
                     /\ Z.abs (snd row) < 2 ^ 53) rows ->
  Forall product_written (getData_or_empty "products" ls) ->
  Csv.Products_exportCsv ls
  = Ok (Csv.join Csv.newline
          (Csv.join "," Csv.Products_headers
           :: map (fun row =>
                     Csv.join ","
                       [ quoted (Z_toString (fst row)); quoted ""; quoted ""; quoted "";
                         quoted (if snd row =? 0 then "" else Z_toString (snd row));
                         quoted ""; quoted "" ])
                  rows)).
Proof.
  unfold Csv.Products_exportCsv, Csv.exportToCSV.
  generalize (getData_or_empty "products" ls). intros data Hrows Hz Hw.
  assert (Hmap :
    Csv.Array_map
      (fun row => let* cells := Csv.Array_map (Csv.cell row) Csv.Products_headers in
                  Ok (Csv.join "," cells)) data
    = Ok (map (fun row =>
                 Csv.join ","
                   [ quoted (Z_toString (fst row)); quoted ""; quoted ""; quoted "";
                     quoted (if snd row =? 0 then "" else Z_toString (snd row));
                     quoted ""; quoted "" ]) rows)).
  { revert Hz Hw. induction Hrows as [| r row data rows [Hid Hst] _ IH]; intros Hz Hw;
      [reflexivity |].
    apply Forall_cons in Hz as [(Hi & Hbi & Hbs) Hz]. apply Forall_cons in Hw as [Hwr Hw].
    cbn [Csv.Array_map map].
    rewrite (Products_export_row r (fst row) (snd row) Hwr Hid Hst Hi Hbi Hbs).
    cbn [bind]. rewrite (IH Hz Hw). reflexivity. }
  rewrite Hmap. reflexivity.
Qed.

Lemma X28_products_export_witness :
  let ls : storage :=
    {[ "products" :=
         [ ({[ "id" := JNum 1; "name" := JStr "Pizza Margherita"; "price" := JNum 12.99;
               "stock" := JNum 50 ]} : stored);
           ({[ "id" := JNum 2; "name" := JStr "Poke Bowl"; "price" := JNum 14.5;
               "stock" := JNum 0 ]} : stored) ] ]} in
  Csv.Products_exportCsv ls
  = Ok (Csv.join Csv.newline
          [ Csv.join "," Csv.Products_headers;
            Csv.join "," [ quoted "1"; quoted ""; quoted ""; quoted ""; quoted "50";
                           quoted ""; quoted "" ];
            Csv.join "," [ quoted "2"; quoted ""; quoted ""; quoted ""; quoted "";
                           quoted ""; quoted "" ] ]).
Proof.
  intros ls.
  apply (X28_products_export ls [(1, 50); (2, 0)]).
  - constructor; [split; vm_compute; reflexivity |].
    constructor; [split; vm_compute; reflexivity | constructor].
  - constructor; [split; [cbn; lia | split; reflexivity] |].
    constructor; [split; [cbn; lia | split; reflexivity] | constructor].
  - constructor; [| constructor; [| constructor]]; intros k [v Hk]; unfold product_keys.
    + change (({[ "id" := VNum (Fin 1); "name" := VStr "Pizza Margherita";
                  "price" := VNum (Fin 12.99); "stock" := VNum (Fin 50) ]} : record) !! k
              = Some v) in Hk.
      repeat (apply lookup_insert_Some in Hk as [[<- _] | [_ Hk]]; [cbn; tauto |]).
      apply lookup_singleton_Some in Hk as [<- _]. cbn; tauto.
    + change (({[ "id" := VNum (Fin 2); "name" := VStr "Poke Bowl";
                  "price" := VNum (Fin 14.5); "stock" := VNum (Fin 0) ]} : record) !! k
              = Some v) in Hk.
      repeat (apply lookup_insert_Some in Hk as [[<- _] | [_ Hk]]; [cbn; tauto |]).
      apply lookup_singleton_Some in Hk as [<- _]. cbn; tauto.
Defined.

(** ** The sample data *)

Lemma written_b_spec (keys : list string) (r : record) :
  written_b keys r = true -> forall k, is_Some (r !! k) -> In k keys.
Proof.
  unfold written_b. intros H k [v Hk].
  rewrite forallb_forall in H.
  assert (Hin : In (k, v) (map_to_list r)).
  { apply list_elem_of_In, elem_of_map_to_list, Hk. }
  specialize (H _ Hin). cbn [fst] in H.
  apply existsb_exists in H as (k' & Hk' & He).
  apply String.eqb_eq in He. congruence.
Qed.

Lemma text_or_falsy_b_spec (v : jsval) : text_or_falsy_b v = true -> text_or_falsy v.
Proof.
  unfold text_or_falsy_b, text_or_falsy. intros H.
  apply orb_true_iff in H as [H | H]; [left; exact H | right].
  apply negb_true_iff, H.
Qed.

Lemma integer_b_spec (v : jsval) :
  integer_b v = true -> exists z, v = VNum (of_Z z) /\ Z.abs z < 2 ^ 53.
Proof.
  destruct v as [| | | [| | [n d] |] |]; cbn; try discriminate.
  intros H. apply andb_true_iff in H as [Hd Hn].
  destruct d; try discriminate Hd. apply Z.ltb_lt in Hn.
  exists n. split; [reflexivity | exact Hn].
Qed.

Lemma is_string_spec (v : jsval) : is_string v = true -> exists s, v = VStr s.
Proof. destruct v; try discriminate. eauto. Qed.

Lemma field_lookup (r : record) (k : string) (v : jsval) :
  field r k = v -> v <> VUndef -> r !! k = Some v.
Proof.
  unfold field. destruct (r !! k) as [w |]; [intros ->; reflexivity |].
  intros <- H. contradiction.
Qed.

Lemma order_shaped_b_spec (r : record) : order_shaped_b r = true -> order_shaped r.
Proof.
  unfold order_shaped_b. rewrite !andb_true_iff. intros [[Hc Hp] Hi].
  apply is_string_spec in Hc as (cn & Hc). apply is_string_spec in Hp as (pr & Hp).
  apply integer_b_spec in Hi as (z & Hi & Hz).
  exists cn, pr, z.
  repeat split; try (apply field_lookup; [assumption | discriminate]). exact Hz.
Qed.

Lemma product_shaped_b_spec (r : record) : product_shaped_b r = true -> product_shaped r.
Proof.
  unfold product_shaped_b. rewrite !andb_true_iff. intros [Hn Hs].
  apply is_string_spec in Hn as (n & Hn). apply is_string_spec in Hs as (su & Hs).
  exists n, su. split; apply field_lookup; try assumption; discriminate.
Qed.

Lemma client_shaped_b_spec (r : record) : client_shaped_b r = true -> client_shaped r.
Proof.
  unfold client_shaped_b. rewrite andb_true_iff. intros [Hn He].
  split; apply text_or_falsy_b_spec; assumption.
Qed.

Lemma delivery_shaped_b_spec (r : record) :
  delivery_shaped_b r = true -> delivery_shaped r.
Proof.
  unfold delivery_shaped_b. rewrite andb_true_iff, orb_true_iff. intros [Ha Ho].
  split; [apply text_or_falsy_b_spec, Ha |].
  destruct Ho as [Ho | Ho]; [left; apply text_or_falsy_b_spec, Ho |].
  right. apply integer_b_spec, Ho.
Qed.

Lemma clients_resolved_b_spec (orders clients : list record) :
  clients_resolved_b orders clients = true -> clients_resolved orders clients.
Proof.
  unfold clients_resolved_b, clients_resolved. rewrite forallb_forall.
  intros H o Ho. specialize (H o Ho).
  apply existsb_exists in H as (c & Hc & Hb).
  apply andb_true_iff in Hb as [H1 H2].
  apply bool_decide_eq_true in H1, H2. eauto.
Qed.

Lemma Forall_checked {A} (P : A -> Prop) (f : A -> bool) (l : list A) :
  (forall x, f x = true -> P x) -> forallb f l = true -> Forall P l.
Proof.
  intros Hf H. rewrite forallb_forall in H. apply Forall_forall.
  intros x Hx. apply Hf, H, list_elem_of_In, Hx.
Qed.

Lemma integer_ids_of_map (data : list record) (ids : list Z) :
  map (fun r : record => r !! "id") data
  = map (fun z => Some (VNum (of_Z z))) ids ->
  integer_ids data ids.
Proof.
  revert ids. induction data as [| r data IH]; intros [| z ids] H;
    try discriminate; [constructor |].
  cbn [map] in H. injection H as Hr H. constructor; [exact Hr | apply IH, H].
Qed.

Lemma init_step (key : string) (sample : list record) (ls : storage) (k : string) :
  let ls' := match getData key ls with
             | Some _ => ls
             | None => setData key sample ls
             end in
  (forall x, ls !! k = Some x -> ls' !! k = Some x)
  /\ (k <> key -> ls' !! k = ls !! k)
  /\ is_Some (ls' !! key)
  /\ (ls !! key = None -> ls' = setData key sample ls).
Proof.
  cbn zeta. unfold getData.
  destruct (ls !! key) as [x |] eqn:Hkey; cbn [fmap option_fmap option_map].
  - split; [tauto |]. split; [reflexivity |]. split; [eauto | discriminate].
  - split; [| split; [| split]].
    + intros x Hx. destruct (decide (k = key)) as [-> | Hne]; [congruence |].
      rewrite setData_other by exact Hne. exact Hx.
    + intros Hne. apply setData_other, Hne.
    + unfold setData. rewrite lookup_insert_eq. eauto.
    + reflexivity.
Qed.

Lemma sample_stable :
  map JSON_roundtrip Sample.sample_users = Sample.sample_users
  /\ map JSON_roundtrip Sample.sample_products = Sample.sample_products
  /\ map JSON_roundtrip Sample.sample_clients = Sample.sample_clients
  /\ map JSON_roundtrip Sample.sample_orders = Sample.sample_orders
  /\ map JSON_roundtrip Sample.sample_deliveries = Sample.sample_deliveries.
Proof. repeat split; vm_compute; reflexivity. Qed.

Lemma initSampleData_complete (ls : storage) :
  is_Some (ls !! "users") -> is_Some (ls !! "products") ->
  is_Some (ls !! "clients") -> is_Some (ls !! "orders") ->
  is_Some (ls !! "deliveries") ->
  Sample.initSampleData ls = ls.
Proof.
  intros [u Hu] [p Hp] [c Hc] [o Ho] [d Hd].
  unfold Sample.initSampleData, getData.
  rewrite Hu. cbn [fmap option_fmap option_map]. rewrite Hp. cbn [fmap option_fmap option_map].
  rewrite Hc. cbn [fmap option_fmap option_map]. rewrite Ho. cbn [fmap option_fmap option_map].
  rewrite Hd. reflexivity.
Qed.

(** X29 (initSampleData of script.js).  initSampleData writes a
    collection only under a key that holds nothing: whatever is stored,
    an empty collection included, is kept, the other keys are not
    touched, the five collections exist afterwards, and a second call
    changes nothing.  What it writes is read back unchanged, and it
    meets the assumptions of the data model: in every collection the ids
    are the integers from 1 on, each once; the orders, products, clients,
    users and deliveries have the shapes that the filters and the exports
    rely on; and every order names a sample client by id and by name. *)
Theorem X29_initSampleData (ls : storage) :
  let keys := ["users"; "products"; "clients"; "orders"; "deliveries"] in
  let ls' := Sample.initSampleData ls in
  (forall key x, ls !! key = Some x -> ls' !! key = Some x)
  /\ (forall key, ~ In key keys -> ls' !! key = ls !! key)
  /\ (forall key, In key keys -> is_Some (ls' !! key))
  /\ Sample.initSampleData ls' = ls'
  /\ (forall key sample,
        In (key, sample)
           [ ("users", Sample.sample_users); ("products", Sample.sample_products);
             ("clients", Sample.sample_clients); ("orders", Sample.sample_orders);
             ("deliveries", Sample.sample_deliveries) ] ->
        ls !! key = None -> getData_or_empty key ls' = sample)
  /\ (integer_ids Sample.sample_users (Pager.page_range 1 12)
      /\ integer_ids Sample.sample_products (Pager.page_range 1 12)
      /\ integer_ids Sample.sample_clients (Pager.page_range 1 10)
      /\ integer_ids Sample.sample_orders (Pager.page_range 1 12)
      /\ integer_ids Sample.sample_deliveries (Pager.page_range 1 10))
  /\ (Forall order_shaped Sample.sample_orders
      /\ Forall order_written Sample.sample_orders
      /\ Forall product_shaped Sample.sample_products
      /\ Forall product_written Sample.sample_products
      /\ Forall client_shaped Sample.sample_clients
      /\ Forall client_shaped Sample.sample_users
      /\ Forall delivery_shaped Sample.sample_deliveries)
  /\ clients_resolved Sample.sample_orders Sample.sample_clients.
Proof.
  intros keys ls'.
  assert (Hsteps : exists ls1 ls2 ls3 ls4,
             (forall k,
                 ((forall x, ls !! k = Some x -> ls1 !! k = Some x)
                  /\ (k <> "users" -> ls1 !! k = ls !! k)
                  /\ is_Some (ls1 !! "users")
                  /\ (ls !! "users" = None -> ls1 = setData "users" Sample.sample_users ls))
                 /\ ((forall x, ls1 !! k = Some x -> ls2 !! k = Some x)
                     /\ (k <> "products" -> ls2 !! k = ls1 !! k)
                     /\ is_Some (ls2 !! "products")
                     /\ (ls1 !! "products" = None ->
                         ls2 = setData "products" Sample.sample_products ls1))
                 /\ ((forall x, ls2 !! k = Some x -> ls3 !! k = Some x)
                     /\ (k <> "clients" -> ls3 !! k = ls2 !! k)
                     /\ is_Some (ls3 !! "clients")
                     /\ (ls2 !! "clients" = None ->
                         ls3 = setData "clients" Sample.sample_clients ls2))
                 /\ ((forall x, ls3 !! k = Some x -> ls4 !! k = Some x)
                     /\ (k <> "orders" -> ls4 !! k = ls3 !! k)
                     /\ is_Some (ls4 !! "orders")
                     /\ (ls3 !! "orders" = None ->
                         ls4 = setData "orders" Sample.sample_orders ls3))
                 /\ ((forall x, ls4 !! k = Some x -> ls' !! k = Some x)
                     /\ (k <> "deliveries" -> ls' !! k = ls4 !! k)
                     /\ is_Some (ls' !! "deliveries")
                     /\ (ls4 !! "deliveries" = None ->
                         ls' = setData "deliveries" Sample.sample_deliveries ls4)))).
  { eexists _, _, _, _. intros k.
    split; [apply (init_step "users" Sample.sample_users ls k) |].
    split; [apply (init_step "products" Sample.sample_products _ k) |].
    split; [apply (init_step "clients" Sample.sample_clients _ k) |].
    split; [apply (init_step "orders" Sample.sample_orders _ k) |].
    apply (init_step "deliveries" Sample.sample_deliveries _ k). }
  destruct Hsteps as (ls1 & ls2 & ls3 & ls4 & Hs).
  assert (Hkeep : forall key x, ls !! key = Some x -> ls' !! key = Some x).
  { intros key x Hx.
    destruct (Hs key) as ((H1 & _) & (H2 & _) & (H3 & _) & (H4 & _) & (H5 & _)).
    apply H5, H4, H3, H2, H1, Hx. }
  assert (Hother : forall key, ~ In key keys -> ls' !! key = ls !! key).
  { intros key Hk.
    destruct (Hs key) as ((_ & H1 & _) & (_ & H2 & _) & (_ & H3 & _) & (_ & H4 & _)
                          & (_ & H5 & _)).
    unfold keys in Hk. cbn in Hk.
    rewrite H5, H4, H3, H2, H1 by (intros ->; tauto). reflexivity. }
  assert (Hall : forall key, In key keys -> is_Some (ls' !! key)).
  { intros key Hk.
    destruct (Hs key) as ((_ & _ & [x1 H1] & _) & ((K2 & _ & [x2 H2] & _)
                          & (K3 & _ & [x3 H3] & _) & (K4 & _ & [x4 H4] & _)
                          & (K5 & _ & H5 & _))).
    unfold keys in Hk. cbn in Hk.
    destruct Hk as [<- | [<- | [<- | [<- | [<- | []]]]]].
    - destruct (Hs "users") as (_ & (K2' & _) & (K3' & _) & (K4' & _) & (K5' & _)).
      exists x1. apply K5', K4', K3', K2', H1.
    - destruct (Hs "products") as (_ & _ & (K3' & _) & (K4' & _) & (K5' & _)).
      exists x2. apply K5', K4', K3', H2.
    - destruct (Hs "clients") as (_ & _ & _ & (K4' & _) & (K5' & _)).
      exists x3. apply K5', K4', H3.
    - destruct (Hs "orders") as (_ & _ & _ & _ & (K5' & _)).
      exists x4. apply K5', H4.
    - exact H5. }
  split; [exact Hkeep |]. split; [exact Hother |]. split; [exact Hall |].
  split.
  { apply initSampleData_complete; apply Hall; unfold keys; cbn; tauto. }
  split.
  { destruct sample_stable as (Su & Sp & Sc & So & Sd).
    intros key sample Hin Hnone.
    assert (Hread : forall (l0 : storage) (sample0 : list record),
              map JSON_roundtrip sample0 = sample0 ->
              l0 !! key = Some (JSON_stringify sample0) -> ls' !! key = l0 !! key ->
              getData_or_empty key ls' = sample0).
    { intros l0 sample0 Hst Hl Heq. unfold getData_or_empty, getData.
      rewrite Heq, Hl. cbn [fmap option_fmap option_map default].
      rewrite JSON_parse_stringify. exact Hst. }
    cbn in Hin.
    destruct Hin as [[= <- <-] | [[= <- <-] | [[= <- <-] | [[= <- <-] | [[= <- <-] | []]]]]].
    - destruct (Hs "users") as ((_ & _ & _ & E1) & (_ & H2 & _) & (_ & H3 & _)
                                & (_ & H4 & _) & (_ & H5 & _)).
      apply (Hread ls1 _ Su).
      + rewrite (E1 Hnone). unfold setData. apply lookup_insert_eq.
      + rewrite H5, H4, H3, H2 by discriminate. reflexivity.
    - destruct (Hs "products") as ((_ & H1 & _) & (_ & _ & _ & E2) & (_ & H3 & _)
                                   & (_ & H4 & _) & (_ & H5 & _)).
      apply (Hread ls2 _ Sp).
      + rewrite E2 by (rewrite H1 by discriminate; exact Hnone).
        unfold setData. apply lookup_insert_eq.
      + rewrite H5, H4, H3 by discriminate. reflexivity.
    - destruct (Hs "clients") as ((_ & H1 & _) & (_ & H2 & _) & (_ & _ & _ & E3)
                                  & (_ & H4 & _) & (_ & H5 & _)).
      apply (Hread ls3 _ Sc).
      + rewrite E3 by (rewrite H2, H1 by discriminate; exact Hnone).
        unfold setData. apply lookup_insert_eq.
      + rewrite H5, H4 by discriminate. reflexivity.
    - destruct (Hs "orders") as ((_ & H1 & _) & (_ & H2 & _) & (_ & H3 & _)
                                 & (_ & _ & _ & E4) & (_ & H5 & _)).
      apply (Hread ls4 _ So).
      + rewrite E4 by (rewrite H3, H2, H1 by discriminate; exact Hnone).
        unfold setData. apply lookup_insert_eq.
      + rewrite H5 by discriminate. reflexivity.
    - destruct (Hs "deliveries") as ((_ & H1 & _) & (_ & H2 & _) & (_ & H3 & _)
                                     & (_ & H4 & _) & (_ & _ & _ & E5)).
      apply (Hread ls' _ Sd); [| reflexivity].
      rewrite E5 by (rewrite H4, H3, H2, H1 by discriminate; exact Hnone).
      unfold setData. apply lookup_insert_eq. }
  split.
  { repeat split; apply integer_ids_of_map; vm_compute; reflexivity. }
  split.
  { split; [apply (Forall_checked _ _ _ order_shaped_b_spec); vm_compute; reflexivity |].
    split; [apply (Forall_checked _ _ _ (written_b_spec order_keys));
            vm_compute; reflexivity |].
    split; [apply (Forall_checked _ _ _ product_shaped_b_spec); vm_compute; reflexivity |].
    split; [apply (Forall_checked _ _ _ (written_b_spec product_keys));
            vm_compute; reflexivity |].
    split; [apply (Forall_checked _ _ _ client_shaped_b_spec); vm_compute; reflexivity |].
    split; [apply (Forall_checked _ _ _ client_shaped_b_spec); vm_compute; reflexivity |].
    apply (Forall_checked _ _ _ delivery_shaped_b_spec); vm_compute; reflexivity. }
  apply clients_resolved_b_spec. vm_compute. reflexivity.
Qed.

Lemma X29_initSampleData_witness :
  let ls : storage := {[ "orders" := [] ]} in
  ls !! "orders" = Some []
  /\ getData_or_empty "orders" (Sample.initSampleData ls) = []
  /\ ls !! "clients" = None
  /\ getData_or_empty "clients" (Sample.initSampleData ls) = Sample.sample_clients
  /\ generateId "clients" (Sample.initSampleData ls) = of_Z 11.
Proof.
  intros ls.
  destruct (X29_initSampleData ls) as (Hkeep & _ & _ & _ & Hnew & _).
  assert (Ho : ls !! "orders" = Some []) by reflexivity.
  assert (Hc : ls !! "clients" = None) by reflexivity.
  assert (Hclients : getData_or_empty "clients" (Sample.initSampleData ls)
                     = Sample.sample_clients).
  { apply Hnew; [cbn; tauto | exact Hc]. }
  split; [exact Ho |]. split.
  - unfold getData_or_empty, getData. rewrite (Hkeep "orders" [] Ho). reflexivity.
  - split; [exact Hc |]. split; [exact Hclients |].
    unfold generateId. rewrite Hclients. vm_compute. reflexivity.
Defined.

(** The text that the sample data holds in the fields that the filters
    search is plain: the properties of the filters cover the sample
    data. *)
Lemma sample_plain_text :
  Forall (fun r => plain_at ["clientName"; "products"] r = true) Sample.sample_orders
  /\ Forall (fun r => plain_at ["name"; "supplier"] r = true) Sample.sample_products
  /\ Forall (fun r => plain_at ["name"; "email"] r = true) Sample.sample_clients
  /\ Forall (fun r => plain_at ["name"; "email"] r = true) Sample.sample_users
  /\ Forall (fun r => plain_at ["address"; "orderId"] r = true) Sample.sample_deliveries.
Proof.
  repeat split;
    (eapply (Forall_checked _ (fun r => plain_at _ r));
     [intros r Hr; exact Hr | vm_compute; reflexivity]).
Qed.

(** ** Sorting by a text column *)

Lemma code_inj (a b : ascii) : code a = code b -> a = b.
Proof.
  unfold code. intros H. apply N2Z.inj in H.
  rewrite <- (ascii_N_embedding a), <- (ascii_N_embedding b). congruence.
Qed.

Lemma str_ltb_trans (a b c : string) :
  str_ltb a b = true -> str_ltb b c = true -> str_ltb a c = true.
Proof.
  revert b c. induction a as [| x a IH]; intros [| y b] [| z c]; cbn [str_ltb];
    try discriminate; try reflexivity.
  destruct (Z.ltb_spec (code x) (code y)), (Z.ltb_spec (code y) (code x)),
           (Z.ltb_spec (code y) (code z)), (Z.ltb_spec (code z) (code y)),
           (Z.ltb_spec (code x) (code z)), (Z.ltb_spec (code z) (code x));
    try discriminate; try reflexivity; try lia.
  apply IH.
Qed.

Lemma str_ltb_connected (a b : string) :
  str_ltb a b = true \/ a = b \/ str_ltb b a = true.
Proof.
  revert b. induction a as [| x a IH]; intros [| y b]; cbn [str_ltb]; auto.
  destruct (Z.ltb_spec (code x) (code y)), (Z.ltb_spec (code y) (code x));
    auto; try lia.
  assert (x = y) by (apply code_inj; lia). subst y.
  destruct (IH b) as [H1 | [-> | H1]]; auto.
Qed.

Lemma str_ltb_asym (a b : string) : str_ltb a b = true -> str_ltb b a = false.
Proof.
  intros H. destruct (str_ltb b a) eqn:H'; [| reflexivity].
  pose proof (str_ltb_trans a b a H H') as Ht.
  rewrite str_ltb_irrefl in Ht. discriminate.
Qed.

Lemma str_le_trans (a b c : string) :
  str_ltb b a = false -> str_ltb c b = false -> str_ltb c a = false.
Proof.
  intros Hab Hbc. destruct (str_ltb c a) eqn:Hca; [| reflexivity].
  destruct (str_ltb_connected a b) as [H | [-> | H]]; [| congruence | congruence].
  rewrite (str_ltb_trans c a b Hca H) in Hbc. discriminate.
Qed.

Lemma str_le_connected (a b : string) :
  str_ltb b a = false \/ str_ltb a b = false.
Proof.
  destruct (str_ltb_connected a b) as [H | [-> | H]].
  - left. apply str_ltb_asym, H.
  - left. apply str_ltb_irrefl.
  - right. apply str_ltb_asym, H.
Qed.

Lemma not_after_text (column direction : string) (a b : record) (s t : string) :
  field a column = VStr s -> field b column = VStr t ->
  isNaN (VStr s) = true ->
  not_after (comparator column direction) a b <->
  if String.eqb direction "asc"
  then str_ltb (toLowerCase t) (toLowerCase s) = false
  else str_ltb (toLowerCase s) (toLowerCase t) = false.
Proof.
  intros Ha Hb Hs. unfold not_after.
  rewrite (comparator_strings column direction a b s t Ha Hb)
    by (rewrite Hs; reflexivity).
  unfold verdict.
  pose proof (str_ltb_asym (toLowerCase s) (toLowerCase t)) as Hasym.
  destruct (str_ltb (toLowerCase s) (toLowerCase t)) eqn:HL,
           (str_ltb (toLowerCase t) (toLowerCase s)) eqn:HG,
           (String.eqb direction "asc");
    try (specialize (Hasym eq_refl); discriminate);
    split; intros H; try reflexivity; try discriminate;
    try (destruct H as (z & [= <-] & Hz); lia);
    try (eexists; split; [reflexivity | lia]).
Qed.

(** X30 (sortData of script.js).  On a column that holds, in every
    record, a string of plain text that does not read as a number
    (names, cities, statuses), sortData returns the records rearranged
    in the order of the lower-cased strings, code unit by code unit:
    never decreasing from a record to a later one when the direction is
    asc, never increasing for any other direction. *)
Theorem X30_sortData_text_order (data : list record) (column direction : string) :
  Forall (text_at column) data ->
  Forall (fun r => plain_at [column] r = true) data ->
  exists out,
    sortData data column direction = Ok out
    /\ Permutation data out
    /\ StronglySorted
         (fun a b => forall s t,
            field a column = VStr s -> field b column = VStr t ->
            if String.eqb direction "asc"
            then str_ltb (toLowerCase t) (toLowerCase s) = false
            else str_ltb (toLowerCase s) (toLowerCase t) = false)
         out.
Proof.
  intros Htext _.
  destruct (sortData_returns data column direction) as (out & Hout & Hperm).
  exists out. split; [exact Hout |]. split; [exact Hperm |].
  assert (Hs : StronglySorted (not_after (comparator column direction)) out).
  { revert Htext Hout.
    apply (Array_sort_sorted (comparator column direction)
             (comparator_total column direction) (text_at column)).
    - intros a b c (x & Hx & Nx) (y & Hy & Ny) (z & Hz & Nz).
      rewrite (not_after_text _ _ a b x y Hx Hy Nx),
              (not_after_text _ _ b c y z Hy Hz Ny),
              (not_after_text _ _ a c x z Hx Hz Nx).
      destruct (String.eqb direction "asc"); intros H1 H2.
      + exact (str_le_trans _ _ _ H1 H2).
      + exact (str_le_trans _ _ _ H2 H1).
    - intros a b (x & Hx & Nx) (y & Hy & Ny).
      rewrite (not_after_text _ _ a b x y Hx Hy Nx),
              (not_after_text _ _ b a y x Hy Hx Ny).
      destruct (String.eqb direction "asc").
      + apply str_le_connected.
      + destruct (str_le_connected (toLowerCase x) (toLowerCase y)); auto. }
  assert (Htext' : Forall (text_at column) out).
  { rewrite Forall_forall in *. intros r Hr. apply Htext.
    apply list_elem_of_In. apply list_elem_of_In in Hr.
    eapply Permutation_in; [symmetry; exact Hperm | exact Hr]. }
  eapply StronglySorted_weaken; [| exact Htext' | exact Hs].
  intros a b (x & Hx & Nx) _ Hab s t Hs' Ht.
  assert (x = s) by congruence. subst x.
  apply (not_after_text column direction a b s t Hs' Ht Nx), Hab.
Qed.

Lemma X30_sortData_text_order_witness :
  let data : list record :=
    [ {[ "id" := VNum (of_Z 1); "name" := VStr "marie" ]};
      {[ "id" := VNum (of_Z 2); "name" := VStr "Zoe" ]};
      {[ "id" := VNum (of_Z 3); "name" := VStr "Adam" ]} ] in
  Forall (text_at "name") data
  /\ Forall (fun r => plain_at ["name"] r = true) data
  /\ exists out,
       sortData data "name" "asc" = Ok out
       /\ out = [ {[ "id" := VNum (of_Z 3); "name" := VStr "Adam" ]};
                  {[ "id" := VNum (of_Z 1); "name" := VStr "marie" ]};
                  {[ "id" := VNum (of_Z 2); "name" := VStr "Zoe" ]} ].
Proof.
  intros data.
  assert (Htext : Forall (text_at "name") data).
  { repeat (constructor; [eexists; split; [reflexivity | vm_compute; reflexivity] |]).
    constructor. }
  assert (Hplain : Forall (fun r => plain_at ["name"] r = true) data).
  { repeat constructor. }
  split; [exact Htext |]. split; [exact Hplain |].
  destruct (X30_sortData_text_order data "name" "asc" Htext Hplain) as (out & Hout & _).
  exists out. split; [exact Hout |].
  assert (Hc : sortData data "name" "asc"
               = Ok [ {[ "id" := VNum (of_Z 3); "name" := VStr "Adam" ]};
                      {[ "id" := VNum (of_Z 1); "name" := VStr "marie" ]};
                      {[ "id" := VNum (of_Z 2); "name" := VStr "Zoe" ]} ])
    by (vm_compute; reflexivity).
  rewrite Hc in Hout. injection Hout as <-. reflexivity.
Defined.
